(** * A shallow embedding of the lemmy_summarizer bot

    Sources embedded here:
    - [src/utils/postutils.py]: [PostUtils.safe_api_call], [PostUtils.get_posts_deep];
    - [src/summary_bot.py]: [load_blocklist], [load_log], [update_log], [run_bot].

    The remote platform, the HTTP transport, the public-suffix extractor, the
    scraper and the summarizer are collaborators of the bot: they are the
    [Variable]s of the section [Bot].  Everything the bot itself computes is a
    definition that evaluates. *)

From Stdlib Require Import String Ascii List ZArith Lia Bool DecimalString.
From Equations Require Import Equations.
Import ListNotations.

Open Scope string_scope.
Open Scope Z_scope.

(** ** Python string primitives used by the bot

    A [string] stands for a Python [str] whose code points are below 256. *)

Module PyStr.

(** [str(n)] for an [int]. *)
Definition of_Z (n : Z) : string := NilZero.string_of_int (Z.to_int n).

(** [sep.join(items)]. *)
Fixpoint join (sep : string) (items : list string) : string :=
  match items with
  | [] => ""
  | [x] => x
  | x :: rest => x ++ sep ++ join sep rest
  end.

(** [s[n:]]. *)
Fixpoint drop (n : nat) (s : string) : string :=
  match n, s with
  | O, _ => s
  | S _, EmptyString => EmptyString
  | S k, String _ r => drop k r
  end.

(** [s[:n]]. *)
Fixpoint take (n : nat) (s : string) : string :=
  match n, s with
  | O, _ => EmptyString
  | S _, EmptyString => EmptyString
  | S k, String c r => String c (take k r)
  end.

(** [s.find(sub)]: index of the leftmost occurrence. *)
Definition find (sub s : string) : option nat := String.index 0 sub s.

(** [sub in s]. *)
Definition contains (sub s : string) : bool :=
  match find sub s with Some _ => true | None => false end.

(** [s.replace(old, new)] for a non-empty [old]: occurrences are taken
    leftmost first and do not overlap.  [skip] counts the characters of the
    occurrence being replaced that are still to be passed over. *)
Fixpoint replace_from (skip : nat) (old new s : string) : string :=
  match s with
  | EmptyString => EmptyString
  | String c r =>
      match skip with
      | S k => replace_from k old new r
      | O =>
          if String.prefix old s
          then new ++ replace_from (Nat.pred (String.length old)) old new r
          else String c (replace_from O old new r)
      end
  end.

Definition replace (old new s : string) : string := replace_from O old new s.

(** [c.lower()] on one character: ASCII capitals, and the capitals of the
    Latin-1 block (192..222 except the multiplication sign 215). *)
Definition lower_char (c : ascii) : ascii :=
  let n := N_of_ascii c in
  if ((65 <=? n) && (n <=? 90))%N then ascii_of_N (n + 32)
  else if ((192 <=? n) && (n <=? 222) && negb (n =? 215))%N then ascii_of_N (n + 32)
  else c.

(** [s.lower()]. *)
Fixpoint lower (s : string) : string :=
  match s with
  | EmptyString => EmptyString
  | String c r => String (lower_char c) (lower r)
  end.

(** The line boundaries of [str.splitlines] among the code points below 256:
    LF, VT, FF, CR, FS, GS, RS and NEL. *)
Definition is_linebreak (c : ascii) : bool :=
  let n := N_of_ascii c in
  ((n =? 10) || (n =? 11) || (n =? 12) || (n =? 13)
   || (n =? 28) || (n =? 29) || (n =? 30) || (n =? 133))%N.

Definition CR : ascii := ascii_of_N 13.
Definition LF : ascii := ascii_of_N 10.

(** [s.splitlines()], with [cur] the line read so far.  CR LF is one
    boundary; a final line without a boundary is kept unless it is empty. *)
Fixpoint splitlines_from (cur s : string) : list string :=
  match s with
  | EmptyString => match cur with EmptyString => [] | _ => [cur] end
  | String c r =>
      if Ascii.eqb c CR then
        match r with
        | String c' r' =>
            if Ascii.eqb c' LF then cur :: splitlines_from "" r'
            else cur :: splitlines_from "" r
        | EmptyString => cur :: splitlines_from "" r
        end
      else if is_linebreak c then cur :: splitlines_from "" r
      else splitlines_from (cur ++ String c "") r
  end.

Definition splitlines (s : string) : list string := splitlines_from "" s.

Definition NL : string := String LF "".

End PyStr.

(** ** Data model *)

(** A value of the remote JSON that the bot passes to [str]. *)
Inductive PyVal : Type :=
| PyInt (n : Z)
| PyString (s : string).

(** [str(v)]. *)
Definition py_str (v : PyVal) : string :=
  match v with
  | PyInt n => PyStr.of_Z n
  | PyString s => s
  end.

(** One [post] dict of the feed; [url] is [None] when the key is absent. *)
Record Post : Type := mkPost {
  id : PyVal;
  ap_id : string;
  url : option string;
  deleted : bool
}.

(** One entry of a feed page: [{'post': ..., 'saved': ...}]. *)
Record FeedEntry : Type := mkEntry {
  post : Post;
  saved : bool
}.

Inductive SortType : Type := Hot | New | Old | TopDay.
Inductive ListingType : Type := All | Local | Subscribed.

(** Modelled from the spec: the summarizer module is not part of the sources;
    its result is the spec's SummaryResult, an integer percentage and two
    ordered sequences of strings. *)
Record SummaryResult : Type := mkSummary {
  reduction : Z;
  top_sentences : list string;
  top_words : list string
}.

(** The result of [tldextract.extract]. *)
Record ExtractResult : Type := mkExtract {
  subdomain : string;
  domain : string;
  suffix : string
}.

(** What the bot reads of a [requests] response: the content-type header
    ([None] when the header is missing), the encoding attribute and the raw
    body. *)
Record Response : Type := mkResponse {
  content_type : option string;
  encoding : option string;
  content : list Byte.byte
}.

(** The two files of [./assets]; [None] is a file that does not exist. *)
Record Files : Type := mkFiles {
  posts_log : option string;
  blocklist_file : option string
}.

(** Exceptions (subclasses of [Exception]). *)
Inductive exn : Type :=
| RuntimeError (msg : string)
| KeyError (key : string)
| IndexError (msg : string)
| FileNotFoundError (path : string)
| ExternalError (msg : string).

Inductive result (A : Type) : Type :=
| Ok (a : A)
| Raise (e : exn).
Arguments Ok {A} a.
Arguments Raise {A} e.

(** A remote call as [safe_api_call] receives it: the function and its
    keyword arguments. *)
Inductive ApiCall : Type :=
| CallLogIn (username_or_email password : string)
| CallPostList (community_id : option Z) (community_name : option string)
               (sort : option SortType) (type_ : option ListingType) (page : Z).

Inductive Level : Type := DEBUG | INFO | WARNING | ERROR.

(** The log records of the two modules, by their format string; [MsgRetry]
    carries the call for the function name and keyword arguments it prints. *)
Inductive LogMsg : Type :=
| MsgRetry (call : ApiCall) (seconds : Z)
| MsgLoaded (count : nat)
| MsgBlocklist (domain clean_url ap_id : string)
| MsgSummarize (domain clean_url ap_id : string)
| MsgBlockContentType (ct : string)
| MsgFailed (post_id ap_id domain : string) (e : exn)
| MsgWillComment (ap_id comment : string)
| MsgSkipped (post_id : string) (reduction : Z).

(** What a run does, in order.  The events of the per-post stages carry the
    post they work for. *)
Inductive Event : Type :=
| EvCall (call : ApiCall)
| EvSleep (seconds : Z)
| EvLog (level : Level) (msg : LogMsg)
| EvGet (p : Post) (url : string)
| EvScrape (p : Post) (html : string)
| EvSummarize (p : Post) (body : string)
| EvRender (p : Post) (comment : string)
| EvUpdateLog (post_id : string).

(** Python truthiness of the values [safe_api_call] tests. *)
Class Truthy (R : Type) : Type := truthy : R -> bool.

#[export] Instance truthy_bool : Truthy bool := fun b => b.
#[export] Instance truthy_list {A : Type} : Truthy (list A) :=
  fun l => match l with [] => false | _ :: _ => true end.
#[export] Instance truthy_option_bool : Truthy (option bool) :=
  fun o => match o with Some b => b | None => false end.

(** [x in xs] for strings. *)
Definition mem (x : string) (xs : list string) : bool :=
  existsb (String.eqb x) xs.

(** [range(lo, hi)]. *)
Definition py_range (lo hi : Z) : list Z :=
  map (fun k => lo + Z.of_nat k) (seq 0 (Z.to_nat (hi - lo))).

(** ** The comment template *)

(** Modelled from the spec: [./templates/en.txt] is not part of the sources;
    the spec describes it as a text with ordered positional placeholders.  A
    template is the parsed format string: literal text and positional
    replacement fields. *)
Inductive TemplateItem : Type :=
| Lit (text : string)
| Field (index : nat).

Definition Template : Type := list TemplateItem.

(** [tpl.format(args...)]: [str.format] fills the fields from left to right
    and raises IndexError, naming the index, on the first field that has no
    argument. *)
Fixpoint format (tpl : Template) (args : list string) : result string :=
  match tpl with
  | [] => Ok ""
  | Lit text :: rest =>
      match format rest args with
      | Ok s => Ok (text ++ s)
      | Raise e => Raise e
      end
  | Field index :: rest =>
      match nth_error args index with
      | Some a =>
          match format rest args with
          | Ok s => Ok (a ++ s)
          | Raise e => Raise e
          end
      | None =>
          Raise (IndexError ("Replacement index " ++ PyStr.of_Z (Z.of_nat index)
                             ++ " out of range for positional args tuple"))
      end
  end.

(** ** Constants of [summary_bot.py] *)

Definition MINIMUM_REDUCTION_THRESHOLD : Z := 50.
Definition MAXIMUM_REDUCTION_THRESHOLD : Z := 96.

Definition POSTS_LOG : string := "./assets/processed_posts.txt".
Definition BLOCKLIST_FILE : string := "./assets/blocklist.txt".

Definition MEDIA_TYPES : list string :=
  ["image/png"; "image/jpeg"; "image/jpg"; "image/gif"; "image/mp4"].

(** The loop of lines 135-136: [top_words += "{}^#{} ".format(word, index + 1)]
    over [enumerate(...)]. *)
Fixpoint top_words_loop (top_words : string) (index : Z) (words : list string) : string :=
  match words with
  | [] => top_words
  | word :: rest =>
      top_words_loop (top_words ++ word ++ "^#" ++ PyStr.of_Z (index + 1) ++ " ")
                     (index + 1) rest
  end.

(** Lines 130-131: ["\n\n".join(["> " + item for item in top_sentences])]. *)
Definition quote_sentences (sentences : list string) : string :=
  PyStr.join (PyStr.NL ++ PyStr.NL) (map (fun item => "> " ++ item) sentences).

(** Lines 92-94: the normalised URL and the blocklist key. *)
Definition clean (u : string) : string := PyStr.replace "amp." "" u.

Definition domain_key (ext : ExtractResult) : string :=
  domain ext ++ "." ++ suffix ext.

(** ** The bot over its collaborators *)

(** The collaborators of the bot over a state [W] of everything outside the
    process (the remote instance and the web). *)
Record Env (W : Type) : Type := mkEnv {
  (** [Lemmy(domain).log_in(username_or_email, password)] *)
  lemmy_log_in : string -> string -> string -> W -> result bool * W;
  (** [Lemmy(domain).post.list(community_id, community_name, sort, type_, page)] *)
  lemmy_post_list :
    string -> option Z -> option string -> option SortType -> option ListingType ->
    Z -> W -> result (list FeedEntry) * W;
  (** [requests.get(url, headers=HEADERS, timeout=10)] *)
  requests_get : string -> W -> result Response * W;
  (** the codec behind [response.text]: the body decoded under the encoding
      attribute ([None]: the encoding [requests] guesses) *)
  decode : option string -> list Byte.byte -> string;
  tldextract_extract : string -> ExtractResult;
  scrape_html : string -> result (string * string * string);
  get_summary : string -> result SummaryResult;
  (** [TEMPLATE], read from [./templates/en.txt] when the module is loaded *)
  TEMPLATE : Template
}.
Arguments lemmy_log_in {W} _.
Arguments lemmy_post_list {W} _.
Arguments requests_get {W} _.
Arguments decode {W} _.
Arguments tldextract_extract {W} _.
Arguments scrape_html {W} _.
Arguments get_summary {W} _.
Arguments TEMPLATE {W} _.

(** *** State, trace and exceptions *)

Record St (W : Type) : Type := mkSt {
  world : W;
  files : Files
}.
Arguments mkSt {W} _ _.
Arguments world {W} _.
Arguments files {W} _.

(** A computation returns or raises, leaves a state behind in both cases, and
    emits the events of the trace. *)
Definition M (W A : Type) : Type := St W -> result A * St W * list Event.

Section Monad.

Context {W : Type}.

Definition ret {A : Type} (a : A) : M W A := fun st => (Ok a, st, []).

Definition raise {A : Type} (e : exn) : M W A := fun st => (Raise e, st, []).

Definition bind {A B : Type} (m : M W A) (k : A -> M W B) : M W B :=
  fun st =>
    match m st with
    | (Ok a, st1, t1) =>
        match k a st1 with
        | (r, st2, t2) => (r, st2, (t1 ++ t2)%list)
        end
    | (Raise e, st1, t1) => (Raise e, st1, t1)
    end.

(** [try: body except Exception: handler]. *)
Definition try_except {A : Type} (body : M W A) (handler : exn -> M W A) : M W A :=
  fun st =>
    match body st with
    | (Ok a, st1, t1) => (Ok a, st1, t1)
    | (Raise e, st1, t1) =>
        match handler e st1 with
        | (r, st2, t2) => (r, st2, (t1 ++ t2)%list)
        end
    end.

Definition emit (e : Event) : M W unit := fun st => (Ok tt, st, [e]).

(** A pure computation that may raise. *)
Definition lift {A : Type} (r : result A) : M W A := fun st => (r, st, []).

(** A call into the outside world. *)
Definition external {A : Type} (f : W -> result A * W) : M W A :=
  fun st =>
    match f (world st) with
    | (r, w) => (r, mkSt w (files st), [])
    end.

Definition get_files : M W Files := fun st => (Ok (files st), st, []).

Definition put_files (fs : Files) : M W unit :=
  fun st => (Ok tt, mkSt (world st) fs, []).

Definition log (level : Level) (msg : LogMsg) : M W unit := emit (EvLog level msg).

(** [time.sleep(seconds)]. *)
Definition sleep (seconds : Z) : M W unit := emit (EvSleep seconds).

End Monad.

Notation "x <- m ;; k" := (bind m (fun x => k))
  (at level 100, m at next level, right associativity).
Notation "m ;;; k" := (bind m (fun _ => k))
  (at level 100, right associativity).

(** [for x in xs: body]. *)
Fixpoint for_each {W A : Type} (xs : list A) (body : A -> M W unit) : M W unit :=
  match xs with
  | [] => ret tt
  | x :: rest => body x ;;; for_each rest body
  end.

(** ** [utils/postutils.py] *)

(** [fun] and [kwargs] as [safe_api_call] receives them. *)
Record RemoteOp (W R : Type) : Type := mkOp {
  op_call : ApiCall;
  op_run : W -> result R * W
}.
Arguments mkOp {W R} _ _.
Arguments op_call {W R} _.
Arguments op_run {W R} _.

(** The call [fun] of line 14, with its keyword arguments. *)
Definition invoke {W R : Type} (op : RemoteOp W R) : M W R :=
  emit (EvCall (op_call op)) ;;; external (op_run op).

(** The iterations the [while] loop of [safe_api_call] can still make when its
    counter is [retries]: the measure of its termination. *)
Definition iterations_left (retries : Z) : nat := Z.to_nat (10 - retries).

Arguments iterations_left : simpl never.

(** The [while] loop of [safe_api_call] (lines 14-17) from the head of an
    iteration, [retries] being the counter at that point.  It returns the last
    response with the final counter. *)
Equations? retry_loop {W R : Type} `{Truthy R} (op : RemoteOp W R) (retries : Z) :
  M W (R * Z) by wf (iterations_left retries) lt :=
  retry_loop op retries :=
    response <- invoke op ;;
    match truthy response, Z_lt_dec retries 10 with
    | false, left Hlt =>
        let retries' := retries + 1 in
        log WARNING (MsgRetry (op_call op) (retries' * 5)) ;;;
        sleep (retries' * 5) ;;;
        retry_loop op retries'
    | _, _ => ret (response, retries)
    end.
Proof. unfold iterations_left. lia. Qed.

(** Lines 12-22. *)
Definition safe_api_call {W R : Type} `{Truthy R} (op : RemoteOp W R) : M W R :=
  loop_end <- retry_loop op 1 ;;
  let '(response, retries) := loop_end in
  if retries >=? 10
  then raise (RuntimeError "Failed to invoke Lemmy API")
  else ret response.

(** The two comprehensions of lines 39 and 41. *)
Definition keep_entries (saved_only : option bool) (response : list FeedEntry) : list Post :=
  if truthy saved_only
  then map post (filter (fun e => negb (deleted (post e)) && saved e) response)
  else map post (filter (fun e => negb (deleted (post e))) response).

Section PostUtils.

Context {W : Type}.
Variable env : Env W.

(** [lemmy.log_in] and [lemmy.post.list] with their keyword arguments. *)
Definition log_in_op (instance username password : string) : RemoteOp W bool :=
  mkOp (CallLogIn username password) (lemmy_log_in env instance username password).

Definition post_list_op (instance : string) (community_id : option Z)
    (community_name : option string) (sort : option SortType)
    (type_ : option ListingType) (page : Z) : RemoteOp W (list FeedEntry) :=
  mkOp (CallPostList community_id community_name sort type_ page)
       (lemmy_post_list env instance community_id community_name sort type_ page).

(** The [for i in range(1, 6)] loop of lines 31-41 over the pages still to
    fetch, [posts] being the list built so far. *)
Fixpoint pages_loop (instance : string) (community_id : option Z)
    (community_name : option string) (saved_only : option bool)
    (sort : option SortType) (type_ : option ListingType)
    (pages : list Z) (posts : list Post) : M W (list Post) :=
  match pages with
  | [] => ret posts
  | i :: rest =>
      response <- safe_api_call
                    (post_list_op instance community_id community_name sort type_ i) ;;
      pages_loop instance community_id community_name saved_only sort type_ rest
                 (posts ++ keep_entries saved_only response)%list
  end.

(** Lines 25-42; [instance] is the [lemmy] client. *)
Definition get_posts_deep (instance : string) (community_id : option Z)
    (community_name : option string) (saved_only : option bool)
    (sort : option SortType) (type_ : option ListingType) : M W (list Post) :=
  pages_loop instance community_id community_name saved_only sort type_
             (py_range 1 6) [].

End PostUtils.

(** ** [summary_bot.py] *)

Definition option_string_eqb (a b : option string) : bool :=
  match a, b with
  | Some x, Some y => String.eqb x y
  | None, None => true
  | _, _ => false
  end.

(** Assigning [response.encoding]. *)
Definition set_encoding (e : string) (r : Response) : Response :=
  mkResponse (content_type r) (Some e) (content r).

Section SummaryBot.

Context {W : Type}.
Variable env : Env W.

(** Lines 45-46: the blocklist must exist. *)
Definition load_blocklist : M W (list string) :=
  fs <- get_files ;;
  match blocklist_file fs with
  | Some text => ret (PyStr.splitlines text)
  | None => raise (FileNotFoundError BLOCKLIST_FILE)
  end.

(** Lines 59-65: a missing log is created empty.  (Reading in text mode turns
    CR LF and CR into LF before [splitlines] sees them; [splitlines] counts
    each of the three as one boundary, so the lines are the same.) *)
Definition load_log : M W (list string) :=
  fs <- get_files ;;
  match posts_log fs with
  | Some text => ret (PyStr.splitlines text)
  | None => put_files (mkFiles (Some "") (blocklist_file fs)) ;;; ret []
  end.

(** The log file after [log_file.write("{}\n".format(post_id))] in append
    mode. *)
Definition append_line (post_id : string) (fs : Files) : Files :=
  mkFiles
    (Some (match posts_log fs with Some text => text | None => "" end
           ++ post_id ++ PyStr.NL))
    (blocklist_file fs).

(** Lines 78-79. *)
Definition update_log (post_id : string) : M W unit :=
  fs <- get_files ;;
  emit (EvUpdateLog post_id) ;;;
  put_files (append_line post_id fs).

(** [response.text]. *)
Definition text (r : Response) : string := decode env (encoding r) (content r).

(** Lines 111-114. *)
Definition correct_encoding (response : Response) : Response :=
  if PyStr.contains "iso-8859-1" (PyStr.lower (text response))
  then set_encoding "iso-8859-1" response
  else if option_string_eqb (encoding response) (Some "ISO-8859-1")
       then set_encoding "utf-8" response
       else response.

(** The body of the [try] (lines 102-120).  [None] is the [continue] of
    line 107; otherwise the values bound for the rest of the iteration. *)
Definition fetch_and_summarize (p : Post) (post_id clean_url : string) :
  M W (option (string * string * SummaryResult)) :=
  emit (EvGet p clean_url) ;;;
  response <- external (requests_get env clean_url) ;;
  ct <- lift (match content_type response with
              | Some ct => Ok ct
              | None => Raise (KeyError "content-type")
              end) ;;
  if mem ct MEDIA_TYPES then
    log INFO (MsgBlockContentType ct) ;;;
    update_log post_id ;;;
    ret None
  else
    let response := correct_encoding response in
    let html_source := text response in
    emit (EvScrape p html_source) ;;;
    scraped <- lift (scrape_html env html_source) ;;
    let '(article_title, article_date, article_body) := scraped in
    emit (EvSummarize p article_body) ;;;
    summary_dict <- lift (get_summary env article_body) ;;
    ret (Some (article_title, article_date, summary_dict)).

(** The handler of lines 121-124; it ends in [continue]. *)
Definition on_failure (p : Post) (post_id domain : string) (e : exn) :
  M W (option (string * string * SummaryResult)) :=
  log ERROR (MsgFailed post_id (ap_id p) domain e) ;;;
  update_log post_id ;;;
  ret None.

(** Lines 127-146. *)
Definition gate_and_render (p : Post) (post_id clean_url : string)
    (article_title article_date : string) (summary_dict : SummaryResult) : M W unit :=
  if (MINIMUM_REDUCTION_THRESHOLD <=? reduction summary_dict)
     && (reduction summary_dict <=? MAXIMUM_REDUCTION_THRESHOLD)
  then
    let post_body := quote_sentences (top_sentences summary_dict) in
    let top_words := top_words_loop "" 0 (top_words summary_dict) in
    comment <- lift (format (TEMPLATE env)
                       [article_title; clean_url;
                        PyStr.of_Z (reduction summary_dict); article_date; post_body]) ;;
    emit (EvRender p comment) ;;;
    log INFO (MsgWillComment (ap_id p) comment) ;;;
    update_log post_id
  else
    update_log post_id ;;;
    log INFO (MsgSkipped post_id (reduction summary_dict)).

(** One iteration of the loop of line 89. *)
Definition process_post (processed_posts blocklist : list string) (p : Post) : M W unit :=
  let post_id := py_str (id p) in
  match url p with
  | None => ret tt
  | Some u =>
      if mem post_id processed_posts then ret tt
      else
        let clean_url := clean u in
        let ext := tldextract_extract env clean_url in
        let domain := domain_key ext in
        if mem domain blocklist then
          log DEBUG (MsgBlocklist domain clean_url (ap_id p))
        else
          log INFO (MsgSummarize domain clean_url (ap_id p)) ;;;
          fetched <- try_except (fetch_and_summarize p post_id clean_url)
                                (on_failure p post_id domain) ;;
          match fetched with
          | None => ret tt
          | Some (article_title, article_date, summary_dict) =>
              gate_and_render p post_id clean_url article_title article_date summary_dict
          end
  end.

(** Lines 82-146. *)
Definition run_bot (domain username password : string) : M W unit :=
  processed_posts <- load_log ;;
  blocklist <- load_blocklist ;;
  safe_api_call (log_in_op env domain username password) ;;;
  posts <- get_posts_deep env domain None None None (Some New) (Some Local) ;;
  log INFO (MsgLoaded (length posts)) ;;;
  for_each posts (process_post processed_posts blocklist).

End SummaryBot.

(** ** Observations on traces *)

(** The waits of a trace, in order. *)
Definition sleeps (t : list Event) : list Z :=
  flat_map (fun e => match e with EvSleep s => [s] | _ => [] end) t.

(** The remote calls of a trace, in order. *)
Definition calls (t : list Event) : list ApiCall :=
  flat_map (fun e => match e with EvCall c => [c] | _ => [] end) t.

(** The ids appended to the log by a trace, in order. *)
Definition logged_ids (t : list Event) : list string :=
  flat_map (fun e => match e with EvUpdateLog i => [i] | _ => [] end) t.

(** The post a per-post stage event (fetch, scrape, summarize, render) works
    for. *)
Definition stage_post (e : Event) : option Post :=
  match e with
  | EvGet p _ | EvScrape p _ | EvSummarize p _ | EvRender p _ => Some p
  | _ => None
  end.

(** The comments a trace renders, in order. *)
Definition rendered (t : list Event) : list string :=
  flat_map (fun e => match e with EvRender _ c => [c] | _ => [] end) t.

(** The URLs fetched by a trace, in order. *)
Definition fetched_urls (t : list Event) : list string :=
  flat_map (fun e => match e with EvGet _ u => [u] | _ => [] end) t.

(** The parts of what a computation leaves. *)
Definition outcome_of {W A : Type} (o : result A * St W * list Event) : result A := fst (fst o).
Definition state_of {W A : Type} (o : result A * St W * list Event) : St W := snd (fst o).
Definition trace_of {W A : Type} (o : result A * St W * list Event) : list Event := snd o.

(** The ids held by the processed-posts store: what [load_log] reads. *)
Definition stored_ids (fs : Files) : list string :=
  match posts_log fs with
  | Some text => PyStr.splitlines text
  | None => []
  end.

(** The post's URL is present and its blocklist key is in [blocklist]. *)
Definition blocked {W : Type} (env : Env W) (blocklist : list string) (p : Post) : bool :=
  match url p with
  | Some u => mem (domain_key (tldextract_extract env (clean u))) blocklist
  | None => false
  end.

(** Every replacement field of the template is one of the five arguments of
    line 138. *)
Definition template_ok (tpl : Template) : bool :=
  forallb (fun item => match item with
                       | Field index => (index <? 5)%nat
                       | Lit _ => true
                       end) tpl.

(** [sub] occurs in [s]. *)
Definition occurs_in (sub s : string) : Prop :=
  exists pre post : string, s = pre ++ sub ++ post.

(** The normalisation of the URL in the spec's words, for comparison with
    [clean]: an [amp.] that heads the host is stripped, and nothing else. *)
Definition strip_amp_prefix (u : string) : string :=
  match PyStr.find "://" u with
  | Some i =>
      if String.prefix "amp." (PyStr.drop (i + 3) u)
      then PyStr.take (i + 3) u ++ PyStr.drop (i + 3 + 4) u
      else u
  | None => if String.prefix "amp." u then PyStr.drop 4 u else u
  end.

(** The domains held by the blocklist file: what [load_blocklist] reads. *)
Definition blocklist_of (fs : Files) : list string :=
  match blocklist_file fs with
  | Some text => PyStr.splitlines text
  | None => []
  end.

(** [event_about ok_post ok_id e]: if [e] is a per-post stage event its post
    satisfies [ok_post], and if it is an update of the store its id satisfies
    [ok_id]. *)
Definition event_about (ok_post : Post -> Prop) (ok_id : string -> Prop) (e : Event) : Prop :=
  match e with
  | EvGet p _ | EvScrape p _ | EvSummarize p _ | EvRender p _ => ok_post p
  | EvUpdateLog i => ok_id i
  | EvCall _ | EvSleep _ | EvLog _ _ => True
  end.

(** The text holds the marker of line 111 when case is ignored. *)
Definition has_marker (t : string) : Prop :=
  exists pre mid rest : string, t = pre ++ mid ++ rest /\ PyStr.lower mid = "iso-8859-1".

Section Stages.

Context {W : Type}.
Variable env : Env W.

(** [fetched_article processed blocklist p u st response w']: the iteration
    for [p] in the state [st] reaches the encoding correction: the post has
    the link [u], its id is not in [processed], its domain is not in
    [blocklist], and the GET returns [response], whose content type is not
    one of the media types, leaving the world [w']. *)
Definition fetched_article (processed blocklist : list string) (p : Post) (u : string)
    (st : St W) (response : Response) (w' : W) : Prop :=
  url p = Some u
  /\ mem (py_str (id p)) processed = false
  /\ mem (domain_key (tldextract_extract env (clean u))) blocklist = false
  /\ requests_get env (clean u) (world st) = (Ok response, w')
  /\ exists ct : string, content_type response = Some ct /\ mem ct MEDIA_TYPES = false.

(** [summarized ... title date sd]: moreover the scraper and the summarizer
    return: the iteration reaches the gate of line 127 with the summary [sd]. *)
Definition summarized (processed blocklist : list string) (p : Post) (u : string)
    (st : St W) (response : Response) (w' : W)
    (article_title article_date : string) (sd : SummaryResult) : Prop :=
  fetched_article processed blocklist p u st response w'
  /\ exists article_body : string,
       scrape_html env (text env (correct_encoding env response))
         = Ok (article_title, article_date, article_body)
       /\ get_summary env article_body = Ok sd.


End Stages.

(** One failed attempt of [safe_api_call] for the call [c] when the counter
    is [retries]: the call, the warning and the wait. *)
Definition failed_attempt (c : ApiCall) (retries : Z) : list Event :=
  [EvCall c; EvLog WARNING (MsgRetry c ((retries + 1) * 5)); EvSleep ((retries + 1) * 5)].

(** [falsy_run op n w w']: from the world [w], [n] invocations of [op] in a row
    return a falsy result, and leave the world [w']. *)
Inductive falsy_run {W R : Type} `{Truthy R} (op : RemoteOp W R) : nat -> W -> W -> Prop :=
| falsy_run_O (w : W) : falsy_run op 0 w w
| falsy_run_S (n : nat) (w w1 w2 : W) (r : R) :
    op_run op w = (Ok r, w1) ->
    truthy r = false ->
    falsy_run op n w1 w2 ->
    falsy_run op (S n) w w2.

(** The failed attempts of the counters [lo], ..., [hi - 1]. *)
Definition failed_attempts (c : ApiCall) (lo hi : Z) : list Event :=
  flat_map (failed_attempt c) (py_range lo hi).

(** Every invocation of [op] returns a falsy result. *)
Definition always_falsy {W R : Type} `{Truthy R} (op : RemoteOp W R) : Prop :=
  forall w : W, exists (r : R) (w' : W), op_run op w = (Ok r, w') /\ truthy r = false.

(** The page a [post.list] call asks for. *)
Definition page_of (c : ApiCall) : list Z :=
  match c with
  | CallPostList _ _ _ _ page => [page]
  | CallLogIn _ _ => []
  end.

(** The pages requested by the [post.list] calls of a trace, in order. *)
Definition pages_called (t : list Event) : list Z := flat_map page_of (calls t).

(** The filter of [get_posts_deep] on one feed entry. *)
Definition kept (saved_only : option bool) (e : FeedEntry) : bool :=
  negb (deleted (post e)) && (if truthy saved_only then saved e else true).

Section Fetched.

Context {W : Type}.
Variable env : Env W.
Variables (instance : string) (community_id : option Z) (community_name : option string)
          (sort : option SortType) (type_ : option ListingType).

(** [fetched pages st rs st' t]: from the state [st], [safe_api_call] returns
    a response for each page of [pages] in turn, [rs] being the responses,
    [st'] the state left and [t] the trace. *)
Inductive fetched : list Z -> St W -> list (list FeedEntry) -> St W -> list Event -> Prop :=
| fetched_nil (st : St W) : fetched [] st [] st []
| fetched_cons (i : Z) (rest : list Z) (st st1 st2 : St W)
    (r : list FeedEntry) (rs : list (list FeedEntry)) (t1 t2 : list Event) :
    safe_api_call (post_list_op env instance community_id community_name sort type_ i) st
      = (Ok r, st1, t1) ->
    fetched rest st1 rs st2 t2 ->
    fetched (i :: rest) st (r :: rs) st2 (t1 ++ t2)%list.

End Fetched.

(** ** Concrete collaborators

    A small outside world on which the definitions above evaluate: the world
    counts the remote calls made so far. *)
Module Demo.

Definition files0 : Files := mkFiles (Some "") (Some "").

Definition st0 : St nat := mkSt 0%nat files0.

(** A log-in that never succeeds. *)
Definition login_never : RemoteOp nat bool :=
  mkOp (CallLogIn "bot" "secret") (fun w => (Ok false, S w)).

(** A log-in that succeeds from the [k]-th invocation on, counting from 0. *)
Definition login_from (k : nat) : RemoteOp nat bool :=
  mkOp (CallLogIn "bot" "secret") (fun w => (Ok (k <=? w)%nat, S w)).

(** A post without a link. *)
Definition text_post (n : Z) : Post :=
  mkPost (PyInt n) ("https://lemmy.test/post/" ++ PyStr.of_Z n) None false.

(** A feed of five pages of twenty posts, all live: page [i] holds the posts
    [20 * (i - 1) + 1], ..., [20 * i]. *)
Definition page20 (i : Z) : list FeedEntry :=
  if (1 <=? i) && (i <=? 5)
  then map (fun k => mkEntry (text_post (20 * (i - 1) + k)) false) (py_range 1 21)
  else [].

(** Link posts: an AMP article, an image host, an article behind a dead
    link, an image served by the article host, and a second article. *)
Definition p1 : Post :=
  mkPost (PyString "p1") "https://lemmy.test/post/p1" (Some "http://amp.example.com/a") false.
Definition p2 : Post :=
  mkPost (PyInt 2) "https://lemmy.test/post/2" (Some "https://i.imgur.com/x.png") false.
Definition p3 : Post :=
  mkPost (PyInt 3) "https://lemmy.test/post/3" (Some "http://example.com/gone") false.
Definition p4 : Post :=
  mkPost (PyInt 4) "https://lemmy.test/post/4" (Some "http://example.com/logo.png") false.
Definition p5 : Post :=
  mkPost (PyInt 5) "https://lemmy.test/post/5" (Some "http://example.com/b") false.

(** A feed whose first page holds the link posts, one of them deleted, and
    whose other pages hold one text post each. *)
Definition small_feed (i : Z) : list FeedEntry :=
  if i =? 1 then
    [mkEntry p1 false; mkEntry p2 true;
     mkEntry (mkPost (PyInt 9) "https://lemmy.test/post/9" (Some "http://example.com/z") true) false;
     mkEntry p3 false; mkEntry p4 false; mkEntry p5 true]
  else if (2 <=? i) && (i <=? 5) then [mkEntry (text_post (100 + i)) false]
  else [].

(** A stand-in for [tldextract.extract] on the hosts of the link posts. *)
Definition extract (u : string) : ExtractResult :=
  if PyStr.contains "example.com" u then mkExtract "" "example" "com"
  else if PyStr.contains "imgur.com" u then mkExtract "i" "imgur" "com"
  else mkExtract "" "" "".

Definition html_a : string := "<html><body>article a</body></html>".
Definition html_b : string := "<html><meta charset=ISO-8859-1><body>article b</body></html>".

(** The first article is served without a charset, so [requests] takes the
    default ISO-8859-1; the second names that charset in its markup. *)
Definition response_a : Response :=
  mkResponse (Some "text/html") (Some "ISO-8859-1") (list_byte_of_string html_a).
Definition response_b : Response :=
  mkResponse (Some "text/html") (Some "utf-8") (list_byte_of_string html_b).

(** The web: two articles, one image, nothing else. *)
Definition web (u : string) (w : nat) : result Response * nat :=
  if String.eqb u "http://example.com/a" then (Ok response_a, S w)
  else if String.eqb u "http://example.com/b" then (Ok response_b, S w)
  else if String.eqb u "http://example.com/logo.png" then
    (Ok (mkResponse (Some "image/png") None []), S w)
  else (Raise (ExternalError "ConnectionError"), S w).

(** A codec that reads the bytes as they are and marks the text with the
    codec that was asked for: L for Latin-1, U for UTF-8, G for a guess. *)
Definition codec (enc : option string) (body : list Byte.byte) : string :=
  match enc with
  | Some e => if String.eqb (PyStr.lower e) "iso-8859-1" then "L|"
              else if String.eqb (PyStr.lower e) "utf-8" then "U|" else "X|"
  | None => "G|"
  end ++ string_of_list_byte body.

Definition scrape (html : string) : result (string * string * string) :=
  Ok ("A title", "2023-07-01", html).

(** The summary of the spec's end-to-end scenario, at the reduction [r]. *)
Definition summary_at (r : Z) : SummaryResult :=
  mkSummary r ["S1"; "S2"] ["foo"; "bar"].

(** A template of five positional fields. *)
Definition template5 : Template :=
  [Lit "### "; Field 0; Lit " ("; Field 1; Lit "), reduced by "; Field 2;
   Lit "%, "; Field 3; Lit (PyStr.NL ++ PyStr.NL); Field 4].

(** A template that asks for a sixth argument. *)
Definition template6 : Template := (template5 ++ [Lit " "; Field 5])%list.

(** The collaborators over a feed, a summarizer and a template. *)
Definition env (feed : Z -> list FeedEntry) (summarize : string -> result SummaryResult)
    (tpl : Template) : Env nat :=
  mkEnv nat
    (fun _ _ _ w => (Ok true, S w))
    (fun _ _ _ _ _ page w => (Ok (feed page), S w))
    web codec extract scrape summarize tpl.

(** The demonstration with the template that asks for a sixth argument. *)
Definition env_bad_template : Env nat :=
  env small_feed (fun _ => Ok (summary_at 75)) template6.

(** The demonstration with a summarizer whose reduction is always [r]. *)
Definition env_at (r : Z) : Env nat := env small_feed (fun _ => Ok (summary_at r)) template5.

(** The environment of the end-to-end scenario. *)
Definition env75 : Env nat := env_at 75.

(** A store that already holds the id 5, and a blocklist of image hosts. *)
Definition files1 : Files :=
  mkFiles (Some ("5" ++ PyStr.NL)) (Some ("imgur.com" ++ PyStr.NL ++ "giphy.com" ++ PyStr.NL)).

Definition st1 : St nat := mkSt 0%nat files1.

End Demo.

(** ** The store as text *)

(** No character of [s] is a line boundary of [str.splitlines]. *)
Fixpoint no_linebreak (s : string) : bool :=
  match s with
  | EmptyString => true
  | String c r => negb (PyStr.is_linebreak c) && no_linebreak r
  end.

(** What a sequence of [update_log] calls writes: each id followed by a
    newline. *)
Fixpoint lines_text (ids : list string) : string :=
  match ids with
  | [] => ""
  | i :: rest => i ++ PyStr.NL ++ lines_text rest
  end.

(** The text of the processed-posts log; a missing file reads as empty once
    [load_log] has created it. *)
Definition log_text (fs : Files) : string :=
  match posts_log fs with
  | Some text => text
  | None => ""
  end.

(** The text is empty or ends with a newline. *)
Definition terminated (t : string) : Prop :=
  t = "" \/ exists a : string, t = a ++ PyStr.NL.

(** [appends m]: whatever its outcome, [m] leaves the log text it found
    followed by the ids of its [update_log] calls, one per line and in order,
    and leaves the blocklist file as it found it. *)
Definition appends {W A : Type} (m : M W A) : Prop :=
  forall st : St W,
    log_text (files (state_of (m st)))
      = log_text (files st) ++ lines_text (logged_ids (trace_of (m st)))
    /\ blocklist_file (files (state_of (m st))) = blocklist_file (files st).

(** The waits before the attempts 2, ..., [k + 1] of [safe_api_call]. *)
Definition waits (k : nat) : list Z :=
  map (fun retries => (retries + 1) * 5) (py_range 1 (1 + Z.of_nat k)).

(** The post has a link, its id is not in [processed] and its blocklist key
    is not in [blocklist]: the loop body goes on to the fetch. *)
Definition eligible {W : Type} (env : Env W) (processed blocklist : list string)
    (p : Post) : bool :=
  match url p with
  | Some u =>
      negb (mem (py_str (id p)) processed)
      && negb (mem (domain_key (tldextract_extract env (clean u))) blocklist)
  | None => false
  end.

(** The URL the loop body fetches for a post with a link. *)
Definition cleaned_url (p : Post) : list string :=
  match url p with
  | Some u => [clean u]
  | None => []
  end.

(** ** More concrete collaborators *)
Module Scenario.

(** A log-in that returns a falsy result [k] times and then raises. *)
Definition login_breaks_at (k : nat) : RemoteOp nat bool :=
  mkOp (CallLogIn "bot" "secret")
       (fun w => if (k <=? w)%nat then (Raise (ExternalError "ConnectionError"), S w)
                 else (Ok false, S w)).

(** The demonstration with a log-in that never succeeds. *)
Definition env_no_login : Env nat :=
  mkEnv nat
    (fun _ _ _ w => (Ok false, S w))
    (fun _ _ _ _ _ page w => (Ok (Demo.small_feed page), S w))
    Demo.web Demo.codec Demo.extract Demo.scrape
    (fun _ => Ok (Demo.summary_at 75)) Demo.template5.

(** The demonstration with a feed that has two pages only. *)
Definition short_feed (i : Z) : list FeedEntry :=
  if i <=? 2 then Demo.small_feed i else [].

Definition env_short_feed : Env nat :=
  Demo.env short_feed (fun _ => Ok (Demo.summary_at 75)) Demo.template5.

(** A state whose blocklist file is missing. *)
Definition st_no_blocklist : St nat := mkSt 0%nat (mkFiles None None).

(** A store left without a final newline, as after an edit by hand. *)
Definition files_unterminated : Files :=
  mkFiles (Some "5") (Some ("imgur.com" ++ PyStr.NL)).

(** A post whose id holds a newline, and the store after [update_log] has
    written that id. *)
Definition p_break : Post :=
  mkPost (PyString ("7" ++ PyStr.NL ++ "8")) "https://lemmy.test/post/78"
         (Some "http://example.com/a") false.

Definition st_break : St nat :=
  mkSt 0%nat (append_line (py_str (id p_break)) Demo.files0).

(** A stand-in for [tldextract.extract] that also knows two hosts:
    [www.champ.com], whose public suffix is [com], and [www.chcom], whose
    last label is no public suffix, so that the extractor returns it as the
    domain with an empty suffix. *)
Definition extract_hosts (u : string) : ExtractResult :=
  if PyStr.contains "//www.champ.com/" u then mkExtract "www" "champ" "com"
  else if PyStr.contains "//www.chcom/" u then mkExtract "www" "chcom" ""
  else Demo.extract u.

(** The demonstration with that extractor. *)
Definition env_hosts : Env nat :=
  mkEnv nat
    (fun _ _ _ w => (Ok true, S w))
    (fun _ _ _ _ _ page w => (Ok (Demo.small_feed page), S w))
    Demo.web Demo.codec extract_hosts Demo.scrape
    (fun _ => Ok (Demo.summary_at 75)) Demo.template5.

(** A post whose link holds the text [amp.] in its path, and a post whose
    host ends in [amp]. *)
Definition p_camp : Post :=
  mkPost (PyInt 7) "https://lemmy.test/post/7" (Some "http://example.com/camp.html") false.
Definition p_champ : Post :=
  mkPost (PyInt 8) "https://lemmy.test/post/8" (Some "http://www.champ.com/x") false.

End Scenario.

(** * Properties *)

(** ** The monad *)

Section MonadFacts.

Context {W : Type}.

Lemma bind_ok {A B : Type} (m : M W A) (k : A -> M W B) st a st1 t1 :
  m st = (Ok a, st1, t1) ->
  bind m k st = (let '(r, st2, t2) := k a st1 in (r, st2, (t1 ++ t2)%list)).
Proof. intros Hm. unfold bind. rewrite Hm. reflexivity. Qed.

Lemma bind_raise {A B : Type} (m : M W A) (k : A -> M W B) st e st1 t1 :
  m st = (Raise e, st1, t1) ->
  bind m k st = (Raise e, st1, t1).
Proof. intros Hm. unfold bind. rewrite Hm. reflexivity. Qed.

Lemma sleeps_app (t1 t2 : list Event) : sleeps (t1 ++ t2) = (sleeps t1 ++ sleeps t2)%list.
Proof. apply flat_map_app. Qed.

Lemma calls_app (t1 t2 : list Event) : calls (t1 ++ t2) = (calls t1 ++ calls t2)%list.
Proof. apply flat_map_app. Qed.

Lemma logged_ids_app (t1 t2 : list Event) :
  logged_ids (t1 ++ t2) = (logged_ids t1 ++ logged_ids t2)%list.
Proof. apply flat_map_app. Qed.

Lemma rendered_app (t1 t2 : list Event) :
  rendered (t1 ++ t2) = (rendered t1 ++ rendered t2)%list.
Proof. apply flat_map_app. Qed.

(** The trace of a sequence is the trace of its first part followed by the
    trace of the rest, when the first part returns. *)
Lemma trace_of_bind {A B : Type} (m : M W A) (k : A -> M W B) (st : St W) :
  trace_of (bind m k st)
    = (trace_of (m st)
       ++ match outcome_of (m st) with
          | Ok a => trace_of (k a (state_of (m st)))
          | Raise _ => []
          end)%list.
Proof.
  unfold bind, trace_of, outcome_of, state_of.
  destruct (m st) as [[[a|e] st1] t1]; cbn [fst snd].
  - destruct (k a st1) as [[r st2] t2]. reflexivity.
  - rewrite app_nil_r. reflexivity.
Qed.

Lemma trace_of_try_except {A : Type} (body : M W A) (handler : exn -> M W A) (st : St W) :
  trace_of (try_except body handler st)
    = (trace_of (body st)
       ++ match outcome_of (body st) with
          | Ok _ => []
          | Raise e => trace_of (handler e (state_of (body st)))
          end)%list.
Proof.
  unfold try_except, trace_of, outcome_of, state_of.
  destruct (body st) as [[[a|e] st1] t1]; cbn [fst snd].
  - rewrite app_nil_r. reflexivity.
  - destruct (handler e st1) as [[r st2] t2]. reflexivity.
Qed.

Lemma Forall_trace_bind {A B : Type} (Q : Event -> Prop)
    (m : M W A) (k : A -> M W B) (st : St W) :
  Forall Q (trace_of (m st)) ->
  (forall a : A, outcome_of (m st) = Ok a -> Forall Q (trace_of (k a (state_of (m st))))) ->
  Forall Q (trace_of (bind m k st)).
Proof.
  intros Hm Hk. rewrite trace_of_bind. apply Forall_app. split; [exact Hm|].
  destruct (outcome_of (m st)) as [a|e]; [apply Hk; reflexivity | constructor].
Qed.

Lemma Forall_trace_try {A : Type} (Q : Event -> Prop)
    (body : M W A) (handler : exn -> M W A) (st : St W) :
  Forall Q (trace_of (body st)) ->
  (forall e : exn, outcome_of (body st) = Raise e ->
                   Forall Q (trace_of (handler e (state_of (body st))))) ->
  Forall Q (trace_of (try_except body handler st)).
Proof.
  intros Hm Hk. rewrite trace_of_try_except. apply Forall_app. split; [exact Hm|].
  destruct (outcome_of (body st)) as [a|e]; [constructor | apply Hk; reflexivity].
Qed.

Lemma trace_of_external {A : Type} (f : W -> result A * W) (st : St W) :
  trace_of (external f st) = [].
Proof. unfold external. destruct (f (world st)). reflexivity. Qed.

Lemma Forall_trace_for_each {A : Type} (Q : Event -> Prop)
    (xs : list A) (body : A -> M W unit) :
  (forall (x : A) (st : St W), In x xs -> Forall Q (trace_of (body x st))) ->
  forall st : St W, Forall Q (trace_of (for_each xs body st)).
Proof.
  induction xs as [| x xs IH]; intros Hbody st; [constructor|].
  cbn [for_each]. apply Forall_trace_bind.
  - apply Hbody. left. reflexivity.
  - intros _ _. apply IH. intros y st' Hy. apply Hbody. right. exact Hy.
Qed.

Lemma outcome_of_bind {A B : Type} (m : M W A) (k : A -> M W B) (st : St W) :
  outcome_of (bind m k st)
    = match outcome_of (m st) with
      | Ok a => outcome_of (k a (state_of (m st)))
      | Raise e => Raise e
      end.
Proof.
  unfold bind, outcome_of, state_of.
  destruct (m st) as [[[a|e] st1] t1]; cbn [fst snd]; [|reflexivity].
  destruct (k a st1) as [[r st2] t2]. reflexivity.
Qed.

Lemma outcome_of_try_except {A : Type} (body : M W A) (handler : exn -> M W A) (st : St W) :
  outcome_of (try_except body handler st)
    = match outcome_of (body st) with
      | Ok a => Ok a
      | Raise e => outcome_of (handler e (state_of (body st)))
      end.
Proof.
  unfold try_except, outcome_of, state_of.
  destruct (body st) as [[[a|e] st1] t1]; cbn [fst snd]; [reflexivity|].
  destruct (handler e st1) as [[r st2] t2]. reflexivity.
Qed.


(** After an iteration that returns, the loop goes on with the next post. *)
Lemma for_each_continues {A : Type} (x : A) (rest : list A) (body : A -> M W unit)
    (st st1 : St W) (t1 : list Event) :
  body x st = (Ok tt, st1, t1) ->
  for_each (x :: rest) body st
    = (let '(r, st2, t2) := for_each rest body st1 in (r, st2, (t1 ++ t2)%list)).
Proof.
  intros Hx. cbn [for_each].
  exact (bind_ok (body x) (fun _ => for_each rest body) st tt st1 t1 Hx).
Qed.

(** An iteration that raises ends the loop. *)
Lemma for_each_aborts {A : Type} (x : A) (rest : list A) (body : A -> M W unit)
    (st st1 : St W) (e : exn) (t1 : list Event) :
  body x st = (Raise e, st1, t1) ->
  for_each (x :: rest) body st = (Raise e, st1, t1).
Proof. intros Hx. cbn [for_each]. apply bind_raise. exact Hx. Qed.

End MonadFacts.

(** ** [safe_api_call] *)

Section SafeApiCall.

Context {W R : Type} `{Truthy R}.
Variable op : RemoteOp W R.

(** One invocation that returns. *)
Lemma invoke_run (st : St W) r w' :
  op_run op (world st) = (r, w') ->
  invoke op st = (r, mkSt w' (files st), [EvCall (op_call op)]).
Proof.
  intros Hrun. unfold invoke, bind, emit, external. rewrite Hrun.
  destruct r; reflexivity.
Qed.

(** When the counter has reached 10 the loop makes its last invocation and
    stops, whatever the response. *)
Lemma retry_loop_last (st : St W) r w' :
  op_run op (world st) = (Ok r, w') ->
  retry_loop op 10 st = (Ok (r, 10), mkSt w' (files st), [EvCall (op_call op)]).
Proof.
  intros Hrun. rewrite retry_loop_equation_1.
  rewrite (bind_ok _ _ _ _ _ _ (invoke_run st _ _ Hrun)).
  destruct (truthy r); [reflexivity|].
  destruct (Z_lt_dec 10 10); [lia | reflexivity].
Qed.

(** A truthy response stops the loop at once. *)
Lemma retry_loop_truthy (retries : Z) (st : St W) r w' :
  op_run op (world st) = (Ok r, w') ->
  truthy r = true ->
  retry_loop op retries st = (Ok (r, retries), mkSt w' (files st), [EvCall (op_call op)]).
Proof.
  intros Hrun Ht. rewrite retry_loop_equation_1.
  rewrite (bind_ok _ _ _ _ _ _ (invoke_run st _ _ Hrun)).
  rewrite Ht. reflexivity.
Qed.

(** A falsy response below the ceiling costs one failed attempt and leaves
    the loop at the next counter. *)
Lemma retry_loop_falsy (retries : Z) (st : St W) r w' :
  op_run op (world st) = (Ok r, w') ->
  truthy r = false ->
  retries < 10 ->
  retry_loop op retries st =
    (let '(res, st2, t2) := retry_loop op (retries + 1) (mkSt w' (files st)) in
     (res, st2, (failed_attempt (op_call op) retries ++ t2)%list)).
Proof.
  intros Hrun Hf Hlt. rewrite (retry_loop_equation_1 _ _ _ op retries).
  rewrite (bind_ok _ _ _ _ _ _ (invoke_run st _ _ Hrun)).
  rewrite Hf. destruct (Z_lt_dec retries 10) as [_|Hge]; [|lia].
  cbv zeta. unfold bind, log, sleep, emit.
  destruct (retry_loop op (retries + 1) (mkSt w' (files st))) as [[res st2] t2].
  destruct res; reflexivity.
Qed.

End SafeApiCall.

Lemma py_range_cons (lo hi : Z) :
  lo < hi -> py_range lo hi = lo :: py_range (lo + 1) hi.
Proof.
  intros Hlt. unfold py_range.
  replace (Z.to_nat (hi - lo)) with (S (Z.to_nat (hi - (lo + 1)))) by lia.
  rewrite <- cons_seq, <- seq_shift, map_cons, map_map.
  f_equal; [simpl; lia|].
  apply map_ext. intros k. lia.
Qed.

Lemma py_range_nil (lo hi : Z) : hi <= lo -> py_range lo hi = [].
Proof.
  intros Hle. unfold py_range. replace (Z.to_nat (hi - lo)) with 0%nat by lia.
  reflexivity.
Qed.

Section RetryBound.

Context {W R : Type} `{Truthy R}.
Variable op : RemoteOp W R.

(** [n] falsy responses in a row below the ceiling are [n] failed attempts,
    after which the loop goes on from the counter [retries + n]. *)
Lemma retry_loop_falsy_run (n : nat) (w w' : W) :
  falsy_run op n w w' ->
  forall (retries : Z) (fs : Files),
    retries + Z.of_nat n <= 10 ->
    retry_loop op retries (mkSt w fs) =
      (let '(res, st2, t2) := retry_loop op (retries + Z.of_nat n) (mkSt w' fs) in
       (res, st2, (failed_attempts (op_call op) retries (retries + Z.of_nat n) ++ t2)%list)).
Proof.
  induction 1 as [w | n w w1 w2 r Hrun Hf Hrest IH]; intros retries fs Hle.
  - replace (retries + Z.of_nat 0) with retries by lia.
    unfold failed_attempts. rewrite py_range_nil by lia.
    destruct (retry_loop op retries (mkSt w fs)) as [[res st2] t2]. reflexivity.
  - rewrite (retry_loop_falsy op retries (mkSt w fs) r w1 Hrun Hf) by lia.
    cbn [files]. rewrite (IH (retries + 1) fs) by lia.
    replace (retries + 1 + Z.of_nat n) with (retries + Z.of_nat (S n)) by lia.
    destruct (retry_loop op (retries + Z.of_nat (S n)) (mkSt w2 fs)) as [[res st2] t2].
    unfold failed_attempts at 2. rewrite py_range_cons by lia.
    cbn [flat_map]. rewrite <- app_assoc. reflexivity.
Qed.

Lemma always_falsy_run (n : nat) :
  always_falsy op -> forall w : W, exists w' : W, falsy_run op n w w'.
Proof.
  intros Hall. induction n as [| n IH]; intros w.
  - exists w. constructor.
  - destruct (Hall w) as (r & w1 & Hrun & Hf).
    destruct (IH w1) as (w2 & Hrest).
    exists w2. econstructor; eassumption.
Qed.

(** Nine falsy responses exhaust the counter: whatever the tenth invocation
    returns, the call raises. *)
Lemma safe_api_call_exhausted (st : St W) (w9 w10 : W) (r : R) :
  falsy_run op 9 (world st) w9 ->
  op_run op w9 = (Ok r, w10) ->
  safe_api_call op st =
    (Raise (RuntimeError "Failed to invoke Lemmy API"),
     mkSt w10 (files st),
     (failed_attempts (op_call op) 1 10 ++ [EvCall (op_call op)])%list).
Proof.
  intros Hrun Hlast. unfold safe_api_call, bind.
  destruct st as [w fs]. cbn [world files] in *.
  rewrite (retry_loop_falsy_run 9 w w9 Hrun 1 fs) by lia.
  change (1 + Z.of_nat 9) with 10.
  rewrite (retry_loop_last op (mkSt w9 fs) r w10 Hlast).
  cbn [files]. change (10 >=? 10) with true. cbv iota beta. unfold raise.
  rewrite app_nil_r. reflexivity.
Qed.

(** A truthy response on one of the first nine invocations is returned. *)
Lemma safe_api_call_success (n : nat) (st : St W) (w1 w2 : W) (r : R) :
  (n < 9)%nat ->
  falsy_run op n (world st) w1 ->
  op_run op w1 = (Ok r, w2) ->
  truthy r = true ->
  safe_api_call op st =
    (Ok r, mkSt w2 (files st),
     (failed_attempts (op_call op) 1 (1 + Z.of_nat n) ++ [EvCall (op_call op)])%list).
Proof.
  intros Hn Hrun Hlast Ht. unfold safe_api_call, bind.
  destruct st as [w fs]. cbn [world files] in *.
  rewrite (retry_loop_falsy_run n w w1 Hrun 1 fs) by lia.
  rewrite (retry_loop_truthy op (1 + Z.of_nat n) (mkSt w1 fs) r w2 Hlast Ht).
  cbn [files]. destruct (1 + Z.of_nat n >=? 10) eqn:Hge; [lia|].
  unfold ret. cbv iota beta. rewrite app_nil_r. reflexivity.
Qed.

Lemma calls_failed_attempts (c : ApiCall) (lo hi : Z) :
  calls (failed_attempts c lo hi) = repeat c (Z.to_nat (hi - lo)).
Proof.
  unfold failed_attempts, py_range.
  generalize (Z.to_nat (hi - lo)) as n. intros n. generalize 0%nat as k.
  induction n as [| n IH]; intros k; [reflexivity|].
  cbn [seq map flat_map]. rewrite calls_app. rewrite IH. reflexivity.
Qed.

Lemma sleeps_failed_attempts (c : ApiCall) (lo hi : Z) :
  sleeps (failed_attempts c lo hi) = map (fun k => (k + 1) * 5) (py_range lo hi).
Proof.
  unfold failed_attempts. induction (py_range lo hi) as [| k ks IH]; [reflexivity|].
  cbn [flat_map map]. rewrite sleeps_app, IH. reflexivity.
Qed.

End RetryBound.

(** C2 (amended): when every invocation of the operation returns a falsy
    result, [safe_api_call] invokes it exactly 10 times and then raises the
    fatal RuntimeError; between consecutive attempts it warns and sleeps, the
    nine waits being 10, 15, ..., 50 seconds (270 seconds in all, the longest
    50): the counter is incremented before the wait is computed. *)
Theorem safe_api_call_always_falsy {W R : Type} `{Truthy R}
    (op : RemoteOp W R) (st : St W) :
  always_falsy op ->
  exists (w' : W) (t : list Event),
    safe_api_call op st =
      (Raise (RuntimeError "Failed to invoke Lemmy API"), mkSt w' (files st), t)
    /\ t = (failed_attempts (op_call op) 1 10 ++ [EvCall (op_call op)])%list
    /\ calls t = repeat (op_call op) 10
    /\ sleeps t = [10; 15; 20; 25; 30; 35; 40; 45; 50]
    /\ fold_right Z.add 0 (sleeps t) = 270
    /\ fold_right Z.max 0 (sleeps t) = 50.
Proof.
  intros Hall.
  destruct (always_falsy_run op 9 Hall (world st)) as (w9 & Hrun).
  destruct (Hall w9) as (r & w10 & Hlast & _).
  exists w10, (failed_attempts (op_call op) 1 10 ++ [EvCall (op_call op)])%list.
  split; [apply (safe_api_call_exhausted op st w9 w10 r Hrun Hlast)|].
  split; [reflexivity|].
  assert (Hs : sleeps (failed_attempts (op_call op) 1 10 ++ [EvCall (op_call op)])
               = [10; 15; 20; 25; 30; 35; 40; 45; 50]).
  { rewrite sleeps_app, sleeps_failed_attempts. reflexivity. }
  split; [rewrite calls_app, calls_failed_attempts; reflexivity|].
  rewrite Hs. repeat split; reflexivity.
Qed.

Lemma safe_api_call_always_falsy_witness :
  always_falsy Demo.login_never
  /\ exists (w' : nat) (t : list Event),
       safe_api_call Demo.login_never Demo.st0 =
         (Raise (RuntimeError "Failed to invoke Lemmy API"), mkSt w' (files Demo.st0), t)
       /\ t = (failed_attempts (op_call Demo.login_never) 1 10
               ++ [EvCall (op_call Demo.login_never)])%list
       /\ calls t = repeat (op_call Demo.login_never) 10
       /\ sleeps t = [10; 15; 20; 25; 30; 35; 40; 45; 50]
       /\ fold_right Z.add 0 (sleeps t) = 270
       /\ fold_right Z.max 0 (sleeps t) = 50.
Proof.
  assert (Hall : always_falsy Demo.login_never).
  { intros w. exists false, (S w). split; reflexivity. }
  split; [exact Hall|].
  exact (safe_api_call_always_falsy Demo.login_never Demo.st0 Hall).
Defined.

(** C2 as stated fails on a log-in that never succeeds: the waits are not
    5, 10, ..., 45 seconds; the first is 10 seconds and the last 50. *)
Lemma safe_api_call_waits_counterexample :
  always_falsy Demo.login_never
  /\ sleeps (snd (safe_api_call Demo.login_never Demo.st0))
     = [10; 15; 20; 25; 30; 35; 40; 45; 50]
  /\ sleeps (snd (safe_api_call Demo.login_never Demo.st0))
     <> [5; 10; 15; 20; 25; 30; 35; 40; 45]
  /\ fold_right Z.max 0 (sleeps (snd (safe_api_call Demo.login_never Demo.st0))) <> 45.
Proof.
  split.
  - intros w. exists false, (S w). split; reflexivity.
  - vm_compute. repeat split; discriminate.
Qed.

(** C10: if the operation returns a falsy result on each of its first nine
    invocations and a truthy one on the tenth, [safe_api_call] makes the ten
    invocations and still raises the fatal RuntimeError: the tenth response is
    not returned. *)
Theorem safe_api_call_tenth_success_discarded {W R : Type} `{Truthy R}
    (op : RemoteOp W R) (st : St W) (w9 w10 : W) (r : R) :
  falsy_run op 9 (world st) w9 ->
  op_run op w9 = (Ok r, w10) ->
  truthy r = true ->
  exists t : list Event,
    safe_api_call op st =
      (Raise (RuntimeError "Failed to invoke Lemmy API"), mkSt w10 (files st), t)
    /\ calls t = repeat (op_call op) 10.
Proof.
  intros Hrun Hlast _.
  exists (failed_attempts (op_call op) 1 10 ++ [EvCall (op_call op)])%list.
  split; [apply (safe_api_call_exhausted op st w9 w10 r Hrun Hlast)|].
  rewrite calls_app, calls_failed_attempts. reflexivity.
Qed.

Lemma safe_api_call_tenth_success_discarded_witness :
  falsy_run (Demo.login_from 9) 9 (world Demo.st0) 9%nat
  /\ op_run (Demo.login_from 9) 9%nat = (Ok true, 10%nat)
  /\ truthy true = true
  /\ exists t : list Event,
       safe_api_call (Demo.login_from 9) Demo.st0 =
         (Raise (RuntimeError "Failed to invoke Lemmy API"), mkSt 10%nat (files Demo.st0), t)
       /\ calls t = repeat (op_call (Demo.login_from 9)) 10.
Proof.
  assert (Hrun : falsy_run (Demo.login_from 9) 9 (world Demo.st0) 9%nat).
  { repeat (eapply falsy_run_S; [reflexivity | reflexivity |]). apply falsy_run_O. }
  split; [exact Hrun|].
  split; [reflexivity|].
  split; [reflexivity|].
  exact (safe_api_call_tenth_success_discarded (Demo.login_from 9) Demo.st0
           9%nat 10%nat true Hrun eq_refl eq_refl).
Defined.

(** ** [get_posts_deep] *)

Lemma keep_entries_kept (saved_only : option bool) (response : list FeedEntry) :
  keep_entries saved_only response = map post (filter (kept saved_only) response).
Proof.
  unfold keep_entries, kept. destruct (truthy saved_only); [reflexivity|].
  f_equal. apply filter_ext. intros e. rewrite andb_true_r. reflexivity.
Qed.

Lemma keep_entries_not_deleted (saved_only : option bool) (response : list FeedEntry) (p : Post) :
  In p (keep_entries saved_only response) -> deleted p = false.
Proof.
  rewrite keep_entries_kept, in_map_iff. intros (e & <- & Hin).
  apply filter_In in Hin. destruct Hin as [_ Hk]. unfold kept in Hk.
  apply andb_true_iff in Hk. destruct Hk as [Hd _].
  apply negb_true_iff in Hd. exact Hd.
Qed.

Lemma keep_entries_all (response : list FeedEntry) (saved_only : option bool) :
  truthy saved_only = false ->
  Forall (fun e => deleted (post e) = false) response ->
  keep_entries saved_only response = map post response.
Proof.
  intros Hs Hall. unfold keep_entries. rewrite Hs. f_equal.
  induction Hall as [| e l He _ IH]; [reflexivity|].
  cbn [filter]. rewrite He. cbn [negb]. f_equal. exact IH.
Qed.

(** The calls of one [safe_api_call] are between one and ten invocations of
    its operation, and nothing else. *)
Lemma retry_loop_calls {W R : Type} `{Truthy R} (op : RemoteOp W R) (k : nat) :
  forall (retries : Z) (st : St W),
    iterations_left retries = k ->
    exists n : nat,
      (1 <= n <= S k)%nat
      /\ calls (snd (retry_loop op retries st)) = repeat (op_call op) n.
Proof.
  induction k as [| k IH]; intros retries st Hk;
    rewrite (retry_loop_equation_1 _ _ _ op retries);
    destruct (op_run op (world st)) as [[r|e] w'] eqn:Hrun.
  - rewrite (bind_ok _ _ _ _ _ _ (invoke_run op st _ _ Hrun)).
    exists 1%nat. split; [lia|].
    destruct (truthy r); [reflexivity|].
    destruct (Z_lt_dec retries 10) as [Hlt|_]; [|reflexivity].
    unfold iterations_left in Hk. lia.
  - rewrite (bind_raise _ _ _ _ _ _ (invoke_run op st _ _ Hrun)).
    exists 1%nat. split; [lia | reflexivity].
  - rewrite (bind_ok _ _ _ _ _ _ (invoke_run op st _ _ Hrun)).
    destruct (truthy r); [exists 1%nat; split; [lia | reflexivity]|].
    destruct (Z_lt_dec retries 10) as [Hlt|_]; [|exists 1%nat; split; [lia | reflexivity]].
    cbv zeta. unfold bind, log, sleep, emit.
    destruct (IH (retries + 1) (mkSt w' (files st))) as (n & Hn & Hcalls).
    { unfold iterations_left in *. lia. }
    destruct (retry_loop op (retries + 1) (mkSt w' (files st))) as [[res st2] t2].
    exists (S n). split; [lia|].
    cbn [snd] in *. destruct res; cbn [snd repeat]; rewrite <- Hcalls; reflexivity.
  - rewrite (bind_raise _ _ _ _ _ _ (invoke_run op st _ _ Hrun)).
    exists 1%nat. split; [lia | reflexivity].
Qed.

Lemma safe_api_call_calls {W R : Type} `{Truthy R} (op : RemoteOp W R) (st : St W) :
  exists n : nat,
    (1 <= n <= 10)%nat
    /\ calls (snd (safe_api_call op st)) = repeat (op_call op) n.
Proof.
  destruct (retry_loop_calls op 9 1 st eq_refl) as (n & Hn & Hcalls).
  exists n. split; [exact Hn|].
  unfold safe_api_call, bind.
  destruct (retry_loop op 1 st) as [[[[r retries]|e] st1] t1]; cbn [snd] in *.
  - destruct (retries >=? 10); unfold raise, ret; cbn [snd]; rewrite app_nil_r; exact Hcalls.
  - exact Hcalls.
Qed.

Lemma pages_called_app (t1 t2 : list Event) :
  pages_called (t1 ++ t2) = (pages_called t1 ++ pages_called t2)%list.
Proof. unfold pages_called. rewrite calls_app. apply flat_map_app. Qed.

Lemma flat_map_page_of_repeat (cid : option Z) (cname : option string)
    (sort : option SortType) (type_ : option ListingType) (i : Z) (n : nat) :
  flat_map page_of (repeat (CallPostList cid cname sort type_ i) n) = repeat i n.
Proof. induction n as [| n IH]; [reflexivity|]. cbn. f_equal. exact IH. Qed.

Lemma flat_map_keep_entries (saved_only : option bool) (rs : list (list FeedEntry)) :
  flat_map (keep_entries saved_only) rs = map post (filter (kept saved_only) (concat rs)).
Proof.
  induction rs as [| r rs IH]; [reflexivity|].
  cbn [flat_map concat]. rewrite filter_app, map_app, IH, keep_entries_kept. reflexivity.
Qed.

Section GetPostsDeep.

Context {W : Type}.
Variable env : Env W.
Variables (instance : string) (community_id : option Z) (community_name : option string)
          (saved_only : option bool) (sort : option SortType) (type_ : option ListingType).

(** When every page is obtained, the loop returns the list built so far
    followed by what it keeps of each response, in page order. *)
Lemma pages_loop_fetched (pages : list Z) (st st' : St W)
    (rs : list (list FeedEntry)) (t : list Event) :
  fetched env instance community_id community_name sort type_ pages st rs st' t ->
  forall posts : list Post,
    pages_loop env instance community_id community_name saved_only sort type_
      pages posts st = (Ok (posts ++ flat_map (keep_entries saved_only) rs)%list, st', t).
Proof.
  induction 1 as [st | i rest st st1 st2 r rs t1 t2 Hcall Hrest IH]; intros posts.
  - cbn. rewrite app_nil_r. reflexivity.
  - cbn [pages_loop flat_map].
    rewrite (bind_ok _ _ _ _ _ _ Hcall), IH, <- app_assoc. reflexivity.
Qed.

(** The loop returns only when every page was obtained. *)
Lemma pages_loop_returns (pages : list Z) :
  forall (posts res : list Post) (st st' : St W) (t : list Event),
    pages_loop env instance community_id community_name saved_only sort type_
      pages posts st = (Ok res, st', t) ->
    exists rs : list (list FeedEntry),
      fetched env instance community_id community_name sort type_ pages st rs st' t
      /\ res = (posts ++ flat_map (keep_entries saved_only) rs)%list.
Proof.
  induction pages as [| i rest IH]; intros posts res st st' t Hrun.
  - cbn in Hrun. injection Hrun as <- <- <-. exists []. split; [constructor|].
    cbn. rewrite app_nil_r. reflexivity.
  - cbn [pages_loop] in Hrun. unfold bind in Hrun.
    destruct (safe_api_call _ st) as [[[r|e] st1] t1] eqn:Hcall; [|discriminate].
    destruct (pages_loop _ _ _ _ _ _ _ rest _ st1) as [[res2 st2] t2] eqn:Hrest.
    injection Hrun as -> -> <-.
    destruct (IH _ _ _ _ _ Hrest) as (rs & Hf & ->).
    exists (r :: rs). split; [econstructor; eassumption|].
    cbn [flat_map]. rewrite app_assoc. reflexivity.
Qed.

(** A fatal error on a page is the outcome of the whole loop: no partial list
    is returned. *)
Lemma pages_loop_fatal (i : Z) (rest : list Z) (posts : list Post)
    (st st1 : St W) (e : exn) (t1 : list Event) :
  safe_api_call (post_list_op env instance community_id community_name sort type_ i) st
    = (Raise e, st1, t1) ->
  pages_loop env instance community_id community_name saved_only sort type_
    (i :: rest) posts st = (Raise e, st1, t1).
Proof. intros Hcall. cbn [pages_loop]. apply bind_raise. exact Hcall. Qed.

Lemma fetched_length (pages : list Z) (st st' : St W)
    (rs : list (list FeedEntry)) (t : list Event) :
  fetched env instance community_id community_name sort type_ pages st rs st' t -> length rs = length pages.
Proof. induction 1; cbn; congruence. Qed.

(** Each page is asked for between one and ten times, the pages in order. *)
Lemma fetched_pages_called (pages : list Z) (st st' : St W)
    (rs : list (list FeedEntry)) (t : list Event) :
  fetched env instance community_id community_name sort type_ pages st rs st' t ->
  exists ns : list nat,
    length ns = length pages
    /\ Forall (fun n => (1 <= n <= 10)%nat) ns
    /\ pages_called t = concat (map (fun '(i, n) => repeat i n) (combine pages ns)).
Proof.
  induction 1 as [st | i rest st st1 st2 r rs t1 t2 Hcall Hrest IH].
  - exists []. repeat split. constructor.
  - destruct IH as (ns & Hlen & Hall & Hpages).
    destruct (safe_api_call_calls
                (post_list_op env instance community_id community_name sort type_ i) st)
      as (n & Hn & Hcalls).
    rewrite Hcall in Hcalls. cbn [snd] in Hcalls.
    exists (n :: ns). split; [cbn; congruence|].
    split; [constructor; assumption|].
    rewrite pages_called_app, Hpages. cbn [combine map concat]. f_equal.
    unfold pages_called. rewrite Hcalls. apply flat_map_page_of_repeat.
Qed.

End GetPostsDeep.

(** C8: when [safe_api_call] obtains the pages 1, 2, 3, 4, 5 in turn,
    [get_posts_deep] returns the posts of the entries it keeps (not deleted,
    and saved as well when [saved_only] is set), in page-then-item order; it
    obtains exactly five pages, asked for in the order 1..5; no deleted post
    is returned wherever it stands; five pages of twenty live entries give
    exactly one hundred posts. *)
Theorem get_posts_deep_pages {W : Type} (env : Env W) (instance : string)
    (community_id : option Z) (community_name : option string)
    (saved_only : option bool) (sort : option SortType) (type_ : option ListingType)
    (st st' : St W) (rs : list (list FeedEntry)) (t : list Event) :
  fetched env instance community_id community_name sort type_ [1; 2; 3; 4; 5] st rs st' t ->
  exists posts : list Post,
    get_posts_deep env instance community_id community_name saved_only sort type_ st
      = (Ok posts, st', t)
    /\ posts = map post (filter (kept saved_only) (concat rs))
    /\ length rs = 5%nat
    /\ (exists n1 n2 n3 n4 n5 : nat,
          Forall (fun n => (1 <= n <= 10)%nat) [n1; n2; n3; n4; n5]
          /\ pages_called t
             = (repeat 1 n1 ++ repeat 2 n2 ++ repeat 3 n3 ++ repeat 4 n4 ++ repeat 5 n5)%list)
    /\ (forall p : Post, In p posts -> deleted p = false)
    /\ (truthy saved_only = false ->
        Forall (fun r => length r = 20%nat
                         /\ Forall (fun e => deleted (post e) = false) r) rs ->
        posts = map post (concat rs) /\ length posts = 100%nat).
Proof.
  intros Hf.
  exists (map post (filter (kept saved_only) (concat rs))).
  split.
  { unfold get_posts_deep. change (py_range 1 6) with [1; 2; 3; 4; 5].
    rewrite (pages_loop_fetched env _ _ _ saved_only _ _ _ _ _ _ _ Hf []).
    rewrite flat_map_keep_entries. reflexivity. }
  split; [reflexivity|].
  pose proof (fetched_length env _ _ _ _ _ _ _ _ _ _ Hf) as Hlen. cbn in Hlen.
  split; [exact Hlen|].
  split.
  { destruct (fetched_pages_called env _ _ _ _ _ _ _ _ _ _ Hf) as (ns & Hns & Hall & Hp).
    destruct ns as [| n1 [| n2 [| n3 [| n4 [| n5 [| ? ?]]]]]]; try discriminate Hns.
    exists n1, n2, n3, n4, n5. split; [exact Hall|].
    rewrite Hp. cbn [combine map concat]. rewrite app_nil_r. reflexivity. }
  split.
  { intros p Hin. rewrite <- flat_map_keep_entries in Hin.
    apply in_flat_map in Hin. destruct Hin as (r & _ & Hin).
    exact (keep_entries_not_deleted saved_only r p Hin). }
  intros Hs Hall.
  assert (Heq : map post (filter (kept saved_only) (concat rs)) = map post (concat rs)).
  { rewrite <- flat_map_keep_entries, concat_map, flat_map_concat_map. f_equal.
    apply map_ext_in. intros r Hr. apply keep_entries_all; [exact Hs|].
    rewrite Forall_forall in Hall. apply (Hall r Hr). }
  split; [exact Heq|].
  rewrite Heq, length_map.
  destruct rs as [| r1 [| r2 [| r3 [| r4 [| r5 [| ? ?]]]]]]; try discriminate Hlen.
  repeat match goal with
         | Hx : Forall _ (_ :: _) |- _ => inversion Hx as [| ? ? [? _] ?]; subst; clear Hx
         end.
  cbn [concat]. rewrite !length_app. cbn [length]. lia.
Qed.

Lemma get_posts_deep_pages_witness :
  exists (st' : St nat) (rs : list (list FeedEntry)) (t : list Event),
    fetched (Demo.env Demo.page20 (fun _ => Ok (Demo.summary_at 75)) Demo.template5)
            "lemmy.test" None None (Some New) (Some Local) [1; 2; 3; 4; 5] Demo.st0 rs st' t
    /\ exists posts : list Post,
         get_posts_deep (Demo.env Demo.page20 (fun _ => Ok (Demo.summary_at 75)) Demo.template5)
                        "lemmy.test" None None None (Some New) (Some Local) Demo.st0
           = (Ok posts, st', t)
         /\ posts = map post (filter (kept None) (concat rs))
         /\ length rs = 5%nat
         /\ (exists n1 n2 n3 n4 n5 : nat,
               Forall (fun n => (1 <= n <= 10)%nat) [n1; n2; n3; n4; n5]
               /\ pages_called t
                  = (repeat 1 n1 ++ repeat 2 n2 ++ repeat 3 n3 ++ repeat 4 n4
                     ++ repeat 5 n5)%list)
         /\ (forall p : Post, In p posts -> deleted p = false)
         /\ (truthy (None : option bool) = false ->
             Forall (fun r => length r = 20%nat
                              /\ Forall (fun e => deleted (post e) = false) r) rs ->
             posts = map post (concat rs) /\ length posts = 100%nat).
Proof.
  eexists. eexists. eexists.
  assert (Hf : fetched (Demo.env Demo.page20 (fun _ => Ok (Demo.summary_at 75)) Demo.template5)
                 "lemmy.test" None None (Some New) (Some Local) [1; 2; 3; 4; 5] Demo.st0
                 (map Demo.page20 [1; 2; 3; 4; 5]) (mkSt 5%nat Demo.files0)
                 ([EvCall (CallPostList None None (Some New) (Some Local) 1)]
                  ++ [EvCall (CallPostList None None (Some New) (Some Local) 2)]
                  ++ [EvCall (CallPostList None None (Some New) (Some Local) 3)]
                  ++ [EvCall (CallPostList None None (Some New) (Some Local) 4)]
                  ++ [EvCall (CallPostList None None (Some New) (Some Local) 5)] ++ [])%list).
  { repeat (eapply fetched_cons; [vm_compute; reflexivity |]). apply fetched_nil. }
  split; [exact Hf|].
  exact (get_posts_deep_pages _ "lemmy.test" None None None (Some New) (Some Local)
           _ _ _ _ Hf).
Defined.

(** The feed of the demonstration: deleted entries are dropped where they
    stand, and the saved-only mode keeps the saved ones among the rest. *)
Example get_posts_deep_small_feed :
  outcome_of (get_posts_deep Demo.env75 "lemmy.test" None None None (Some New) (Some Local)
                Demo.st1)
    = Ok [Demo.p1; Demo.p2; Demo.p3; Demo.p4; Demo.p5;
          Demo.text_post 102; Demo.text_post 103; Demo.text_post 104; Demo.text_post 105]
  /\ keep_entries (Some true) (Demo.small_feed 1) = [Demo.p2; Demo.p5].
Proof. split; reflexivity. Qed.

(** An empty page is a falsy response: the fetch is retried and then fatal. *)
Example get_posts_deep_empty_page :
  outcome_of (get_posts_deep
                (Demo.env (fun i => if i =? 5 then [] else Demo.small_feed i)
                          (fun _ => Ok (Demo.summary_at 75)) Demo.template5)
                "lemmy.test" None None None (Some New) (Some Local) Demo.st1)
    = Raise (RuntimeError "Failed to invoke Lemmy API").
Proof. reflexivity. Qed.

(** ** String primitives *)

Section StringFacts.

Import PyStr.

Lemma append_assoc (a b c : string) : (a ++ b) ++ c = a ++ b ++ c.
Proof. induction a as [| x a IH]; [reflexivity|]. cbn. f_equal. exact IH. Qed.

Lemma append_empty_r (a : string) : a ++ "" = a.
Proof. induction a as [| x a IH]; [reflexivity|]. cbn. f_equal. exact IH. Qed.

Lemma prefix_occurs (sub s : string) :
  String.prefix sub s = true <-> exists rest : string, s = sub ++ rest.
Proof.
  revert s. induction sub as [| a sub IH]; intros s.
  - split; [intros _; exists s; reflexivity | intros _; destruct s; reflexivity].
  - destruct s as [| b s]; cbn.
    + split; [discriminate | intros (rest & Hr); discriminate Hr].
    + destruct (ascii_dec a b) as [->|Hab].
      * rewrite IH. split; intros (rest & Hr); exists rest; congruence.
      * split; [discriminate|]. intros (rest & Hr). congruence.
Qed.

Lemma drop_append (a b : string) : drop (String.length a) (a ++ b) = b.
Proof. induction a as [| x a IH]; [reflexivity|]. cbn. exact IH. Qed.

(** [find] returns the position of an occurrence. *)
Lemma find_some (sub s : string) (i : nat) :
  find sub s = Some i ->
  s = take i s ++ sub ++ drop (i + String.length sub) s
  /\ String.prefix sub (drop i s) = true.
Proof.
  unfold find. revert i. induction s as [| c r IH]; intros i Hi.
  - cbn in Hi. destruct sub; [|discriminate]. injection Hi as <-. split; reflexivity.
  - cbn [index] in Hi. destruct (String.prefix sub (String c r)) eqn:Hp.
    + injection Hi as <-. cbn [take drop Nat.add]. split; [|exact Hp].
      apply prefix_occurs in Hp. destruct Hp as (rest & Hr).
      rewrite Hr, drop_append. reflexivity.
    + destruct (index 0 sub r) as [n|] eqn:Hn; [|discriminate]. injection Hi as <-.
      destruct (IH n eq_refl) as [Heq Hpre]. cbn [take drop Nat.add append].
      split; [f_equal; exact Heq | exact Hpre].
Qed.

(** [find] fails only when there is no occurrence. *)
Lemma find_none (sub s : string) :
  find sub s = None -> forall pre rest : string, s <> pre ++ sub ++ rest.
Proof.
  unfold find. induction s as [| c r IH]; intros Hn pre rest Heq.
  - cbn in Hn. destruct sub; [discriminate|]. destruct pre; discriminate Heq.
  - cbn [index] in Hn. destruct (String.prefix sub (String c r)) eqn:Hp; [discriminate|].
    destruct (index 0 sub r) eqn:Hr; [discriminate|].
    destruct pre as [| a pre].
    + cbn in Heq. assert (String.prefix sub (String c r) = true) as Hp'
        by (apply prefix_occurs; exists rest; exact Heq).
      congruence.
    + cbn in Heq. injection Heq as _ Heq. exact (IH eq_refl pre rest Heq).
Qed.

Lemma contains_occurs (sub s : string) : contains sub s = true <-> occurs_in sub s.
Proof.
  unfold contains, occurs_in. destruct (find sub s) as [i|] eqn:Hf.
  - split; [intros _ | reflexivity]. apply find_some in Hf. destruct Hf as [Heq _].
    eexists. eexists. exact Heq.
  - split; [discriminate|]. intros (pre & rest & Heq).
    exfalso. exact (find_none sub s Hf pre rest Heq).
Qed.

Lemma replace_from_skip (old new : string) (k : nat) (s : string) :
  replace_from k old new s = replace old new (drop k s).
Proof.
  unfold replace. revert k. induction s as [| c r IH]; intros k.
  - destruct k; reflexivity.
  - destruct k as [| k]; [reflexivity|]. cbn [replace_from drop]. apply IH.
Qed.

(** Without an occurrence the string is returned as it is. *)
Lemma replace_absent (old new s : string) :
  find old s = None -> replace old new s = s.
Proof.
  unfold find, replace. induction s as [| c r IH]; intros Hn; [reflexivity|].
  cbn [index] in Hn. cbn [replace_from].
  destruct (String.prefix old (String c r)); [discriminate|].
  destruct (index 0 old r); [discriminate|]. f_equal. apply IH. reflexivity.
Qed.

(** The leftmost occurrence is replaced, wherever it stands, and the rest of
    the string is treated in the same way. *)
Lemma replace_found (old new s : string) (i : nat) :
  old <> "" ->
  find old s = Some i ->
  replace old new s =
    take i s ++ new ++ replace old new (drop (i + String.length old) s).
Proof.
  intros Hold. unfold find, replace. revert i. induction s as [| c r IH]; intros i Hi.
  - cbn in Hi. destruct old; [congruence | discriminate].
  - cbn [index] in Hi. cbn [replace_from].
    destruct (String.prefix old (String c r)).
    + injection Hi as <-. cbn [take Nat.add append]. f_equal.
      rewrite replace_from_skip. unfold replace.
      destruct old as [| a old]; [congruence|]. reflexivity.
    + destruct (index 0 old r) as [n|]; [|discriminate]. injection Hi as <-.
      cbn [take drop Nat.add append]. f_equal. apply IH. reflexivity.
Qed.

Lemma lower_append (a b : string) : lower (a ++ b) = lower a ++ lower b.
Proof. induction a as [| x a IH]; [reflexivity|]. cbn. f_equal. exact IH. Qed.

Lemma lower_split (t x y : string) :
  lower t = x ++ y -> exists a b : string, t = a ++ b /\ lower a = x /\ lower b = y.
Proof.
  revert t. induction x as [| c x IH]; intros t Heq.
  - exists "", t. repeat split. exact Heq.
  - destruct t as [| d t]; [discriminate|]. cbn in Heq. injection Heq as Hc Heq.
    destruct (IH t Heq) as (a & b & -> & Ha & Hb).
    exists (String d a), b. cbn. repeat split; congruence.
Qed.

(** The test of line 111: some stretch of the text reads as the marker when
    case is ignored. *)
Lemma contains_lower (marker t : string) :
  contains marker (lower t) = true <->
  exists pre mid rest : string, t = pre ++ mid ++ rest /\ lower mid = marker.
Proof.
  rewrite contains_occurs. unfold occurs_in. split.
  - intros (x & z & Heq).
    destruct (lower_split t x (marker ++ z) Heq) as (pre & b & -> & _ & Hb).
    destruct (lower_split b marker z Hb) as (mid & rest & -> & Hm & _).
    exists pre, mid, rest. split; [reflexivity | exact Hm].
  - intros (pre & mid & rest & -> & <-).
    exists (lower pre), (lower rest). rewrite !lower_append. reflexivity.
Qed.

End StringFacts.

(** ** The loop body of [run_bot] *)

Section ProcessPost.

Context {W : Type}.
Variable env : Env W.

Lemma update_log_run (post_id : string) (st : St W) :
  update_log post_id st
    = (Ok tt, mkSt (world st) (append_line post_id (files st)), [EvUpdateLog post_id]).
Proof. reflexivity. Qed.

(** A post without a link is passed over. *)
Lemma process_post_no_url (processed blocklist : list string) (p : Post) (st : St W) :
  url p = None -> process_post env processed blocklist p st = (Ok tt, st, []).
Proof. intros Hu. unfold process_post. rewrite Hu. reflexivity. Qed.

(** A post whose id was in the store when the cycle began is passed over. *)
Lemma process_post_processed (processed blocklist : list string) (p : Post) (st : St W) :
  mem (py_str (id p)) processed = true ->
  process_post env processed blocklist p st = (Ok tt, st, []).
Proof.
  intros Hm. unfold process_post. destruct (url p); [|reflexivity].
  rewrite Hm. reflexivity.
Qed.

(** A blocklisted post costs one debug record and nothing else. *)
Lemma process_post_blocked (processed blocklist : list string) (p : Post) (u : string)
    (st : St W) :
  url p = Some u ->
  mem (py_str (id p)) processed = false ->
  mem (domain_key (tldextract_extract env (clean u))) blocklist = true ->
  process_post env processed blocklist p st
    = (Ok tt, st,
       [EvLog DEBUG (MsgBlocklist (domain_key (tldextract_extract env (clean u)))
                                  (clean u) (ap_id p))]).
Proof.
  intros Hu Hm Hb. unfold process_post. rewrite Hu, Hm. cbv zeta. rewrite Hb.
  reflexivity.
Qed.

(** Any other post is announced and fetched at its cleaned URL. *)
Lemma process_post_fetches (processed blocklist : list string) (p : Post) (u : string)
    (st : St W) :
  url p = Some u ->
  mem (py_str (id p)) processed = false ->
  mem (domain_key (tldextract_extract env (clean u))) blocklist = false ->
  exists t : list Event,
    trace_of (process_post env processed blocklist p st)
      = EvLog INFO (MsgSummarize (domain_key (tldextract_extract env (clean u)))
                                 (clean u) (ap_id p))
        :: EvGet p (clean u) :: t.
Proof.
  intros Hu Hm Hb. unfold process_post. rewrite Hu, Hm. cbv zeta. rewrite Hb.
  rewrite trace_of_bind. cbn [log emit trace_of snd outcome_of state_of fst].
  rewrite trace_of_bind, trace_of_try_except.
  unfold fetch_and_summarize at 1. rewrite trace_of_bind.
  cbn [emit trace_of snd outcome_of state_of fst app].
  eexists. rewrite <- !app_assoc. cbn [app]. reflexivity.
Qed.

End ProcessPost.

(** The head of an iteration, by cases: line 92 cuts out the leftmost
    occurrence of the text [amp.] and treats the rest of the URL in the same
    way (a URL without the text is unchanged); the blocklist key is the
    extractor's domain and suffix of that URL joined by a dot; a post whose
    key is in the blocklist costs one debug record, any other unseen post is
    fetched at that URL. *)
Lemma process_post_by_cases {W : Type} (env : Env W)
    (processed blocklist : list string) (p : Post) (st : St W) :
  (forall u : string,
     clean u = match PyStr.find "amp." u with
               | None => u
               | Some i => PyStr.take i u ++ clean (PyStr.drop (i + 4) u)
               end)
  /\ match url p with
     | None => process_post env processed blocklist p st = (Ok tt, st, [])
     | Some u =>
         let ext := tldextract_extract env (clean u) in
         if mem (py_str (id p)) processed
         then process_post env processed blocklist p st = (Ok tt, st, [])
         else if mem (domain ext ++ "." ++ suffix ext) blocklist
              then process_post env processed blocklist p st
                   = (Ok tt, st,
                      [EvLog DEBUG (MsgBlocklist (domain ext ++ "." ++ suffix ext)
                                                 (clean u) (ap_id p))])
              else exists t : list Event,
                     trace_of (process_post env processed blocklist p st)
                     = EvLog INFO (MsgSummarize (domain ext ++ "." ++ suffix ext)
                                                (clean u) (ap_id p))
                       :: EvGet p (clean u) :: t
     end.
Proof.
  split.
  - intros u. unfold clean. destruct (PyStr.find "amp." u) as [i|] eqn:Hf.
    + rewrite (replace_found "amp." "" u i); [reflexivity | discriminate | exact Hf].
    + apply replace_absent. exact Hf.
  - destruct (url p) as [u|] eqn:Hu; [|apply process_post_no_url; exact Hu].
    cbv zeta. destruct (mem (py_str (id p)) processed) eqn:Hm;
      [apply process_post_processed; exact Hm|].
    destruct (mem _ blocklist) eqn:Hb.
    + apply (process_post_blocked env processed blocklist p u st Hu Hm Hb).
    + apply (process_post_fetches env processed blocklist p u st Hu Hm Hb).
Qed.

(** C7: line 92 removes the text [amp.] wherever it stands, not only where
    it heads the host.  A link whose path holds the text is changed though
    its host has no [amp.] prefix, and the article is asked for at an address
    that is not the post's.  A host that ends in [amp] loses its dot: the
    blocklist key is no longer the registrable domain of the link, and the
    post is fetched, and its id written, though that domain is in the
    blocklist.  Where [amp.] heads the host the code does what the
    normalisation is for. *)
Lemma amp_removed_anywhere_in_url :
  clean "http://example.com/camp.html" = "http://example.com/chtml"
  /\ strip_amp_prefix "http://example.com/camp.html" = "http://example.com/camp.html"
  /\ fetched_urls (trace_of (process_post Demo.env75 [] [] Scenario.p_camp Demo.st1))
     = ["http://example.com/chtml"]
  /\ clean "http://www.champ.com/x" = "http://www.chcom/x"
  /\ strip_amp_prefix "http://www.champ.com/x" = "http://www.champ.com/x"
  /\ domain_key (tldextract_extract Scenario.env_hosts "http://www.champ.com/x") = "champ.com"
  /\ domain_key (tldextract_extract Scenario.env_hosts (clean "http://www.champ.com/x"))
     = "chcom."
  /\ fetched_urls (trace_of (process_post Scenario.env_hosts [] ["champ.com"]
                                          Scenario.p_champ Demo.st1))
     = ["http://www.chcom/x"]
  /\ logged_ids (trace_of (process_post Scenario.env_hosts [] ["champ.com"]
                                        Scenario.p_champ Demo.st1))
     = ["8"]
  /\ clean "http://amp.example.com/a" = "http://example.com/a"
  /\ strip_amp_prefix "http://amp.example.com/a" = "http://example.com/a".
Proof. vm_compute. repeat split. Qed.

(** ** What a cycle does, event by event *)

(** One step of the proof that every event of a computation satisfies a
    predicate: split a sequence, a [try], a test, or close a leaf. *)
Ltac trace_step :=
  match goal with
  | |- Forall _ (trace_of (bind _ _ _)) => apply Forall_trace_bind; [| intros ? ?]
  | |- Forall _ (trace_of (try_except _ _ _)) => apply Forall_trace_try; [| intros ? ?]
  | |- Forall _ (trace_of (external _ _)) => rewrite trace_of_external; constructor
  | |- Forall _ (trace_of (ret _ _)) => constructor
  | |- Forall _ (trace_of (raise _ _)) => constructor
  | |- Forall _ (trace_of (lift _ _)) => constructor
  | |- Forall _ (trace_of (get_files _)) => constructor
  | |- Forall _ (trace_of (put_files _ _)) => constructor
  | |- Forall _ (trace_of (log _ _ _)) => constructor; [cbn; auto | constructor]
  | |- Forall _ (trace_of (sleep _ _)) => constructor; [cbn; auto | constructor]
  | |- Forall _ (trace_of (emit _ _)) => constructor; [cbn; auto | constructor]
  | |- Forall _ (trace_of ((if ?b then _ else _) _)) => destruct b eqn:?
  | |- Forall _ (trace_of (match ?x with _ => _ end _)) => destruct x eqn:?
  end.

Section CycleEvents.

Context {W : Type}.
Variable env : Env W.
Variables (ok_post : Post -> Prop) (ok_id : string -> Prop).

Lemma retry_loop_events {R : Type} `{Truthy R} (op : RemoteOp W R) (k : nat) :
  forall (retries : Z) (st : St W),
    iterations_left retries = k ->
    Forall (event_about ok_post ok_id) (trace_of (retry_loop op retries st)).
Proof.
  induction k as [| k IH]; intros retries st Hk;
    rewrite (retry_loop_equation_1 _ _ _ op retries); unfold invoke;
    repeat trace_step; unfold iterations_left in Hk; try lia.
  apply IH. unfold iterations_left. lia.
Qed.

Lemma safe_api_call_events {R : Type} `{Truthy R} (op : RemoteOp W R) (st : St W) :
  Forall (event_about ok_post ok_id) (trace_of (safe_api_call op st)).
Proof.
  unfold safe_api_call. trace_step; [apply (retry_loop_events op 9); reflexivity|].
  destruct a as [response retries]. repeat trace_step.
Qed.

Lemma get_posts_deep_events (instance : string) (community_id : option Z)
    (community_name : option string) (saved_only : option bool)
    (sort : option SortType) (type_ : option ListingType) (st : St W) :
  Forall (event_about ok_post ok_id)
         (trace_of (get_posts_deep env instance community_id community_name saved_only
                                   sort type_ st)).
Proof.
  unfold get_posts_deep. generalize (@nil Post) as posts. revert st.
  induction (py_range 1 6) as [| i rest IH]; intros st posts; cbn [pages_loop].
  - constructor.
  - trace_step; [apply safe_api_call_events | apply IH].
Qed.

End CycleEvents.

Lemma mem_In (x : string) (xs : list string) : mem x xs = true <-> In x xs.
Proof.
  unfold mem. rewrite existsb_exists. split.
  - intros (y & Hy & Heq). apply String.eqb_eq in Heq. subst. exact Hy.
  - intros Hx. exists x. split; [exact Hx | apply String.eqb_refl].
Qed.

Lemma mem_not_In (x : string) (xs : list string) : mem x xs = false <-> ~ In x xs.
Proof.
  rewrite <- mem_In. destruct (mem x xs); split; congruence.
Qed.

Section PerPostEvents.

Context {W : Type}.
Variable env : Env W.

(** The stage events of an iteration are for its post, its updates of the
    store for the id of its post; there are none unless the post has a link,
    was not in the store when the cycle began, and is not blocklisted. *)
Lemma process_post_events (processed blocklist : list string) (p : Post) (st : St W) :
  Forall (event_about
            (fun q => q = p /\ mem (py_str (id p)) processed = false
                      /\ blocked env blocklist p = false)
            (fun i => i = py_str (id p) /\ mem (py_str (id p)) processed = false
                      /\ blocked env blocklist p = false))
         (trace_of (process_post env processed blocklist p st)).
Proof.
  unfold process_post. destruct (url p) as [u|] eqn:Hu; [|constructor].
  destruct (mem (py_str (id p)) processed) eqn:Hm; [constructor|].
  cbv zeta. destruct (mem (domain_key (tldextract_extract env (clean u))) blocklist) eqn:Hb;
    [repeat trace_step|].
  assert (Hblocked : blocked env blocklist p = false) by (unfold blocked; rewrite Hu; exact Hb).
  unfold fetch_and_summarize, on_failure, gate_and_render, update_log.
  repeat first [ trace_step
               | match goal with
                 | |- Forall _ (trace_of ((let '(_, _) := ?x in _) _)) => destruct x as [[? ?] ?]
                 | a : option (string * string * SummaryResult) |- _ => destruct a as [[[? ?] ?]|]
                 end ].
Qed.

(** Every stage event and every update of the store in a cycle is for a post
    whose id was not in the store when the cycle began and whose domain is
    not in the blocklist. *)
Lemma run_bot_events (domain username password : string) (st : St W) :
  Forall (event_about
            (fun q => mem (py_str (id q)) (stored_ids (files st)) = false
                      /\ blocked env (blocklist_of (files st)) q = false)
            (fun i => mem i (stored_ids (files st)) = false))
         (trace_of (run_bot env domain username password st)).
Proof.
  unfold run_bot. destruct st as [w [pl bl]].
  apply Forall_trace_bind; [unfold load_log; repeat trace_step | intros processed Hp].
  assert (Hload : processed = stored_ids (mkFiles pl bl)
                  /\ blocklist_file (files (state_of (load_log (mkSt w (mkFiles pl bl))))) = bl).
  { destruct pl; cbn in Hp; injection Hp as <-; split; reflexivity. }
  destruct Hload as [-> Hbl]. clear Hp.
  apply Forall_trace_bind; [unfold load_blocklist; repeat trace_step | intros blocklist Hb].
  assert (Hlist : blocklist = blocklist_of (mkFiles pl bl)).
  { revert Hb. unfold load_blocklist, bind, get_files. cbn [fst snd outcome_of state_of].
    rewrite Hbl. destruct bl; cbn; congruence. }
  subst blocklist. clear Hb.
  apply Forall_trace_bind; [apply safe_api_call_events | intros _ _].
  apply Forall_trace_bind; [apply get_posts_deep_events | intros posts _].
  apply Forall_trace_bind; [repeat trace_step | intros _ _].
  apply Forall_trace_for_each. intros p st' _.
  eapply Forall_impl; [|apply process_post_events].
  intros e He. destruct e; cbn in *; try exact I.
  all: try (destruct He as (-> & Hm & Hb); split; assumption).
  destruct He as (-> & Hm & _). exact Hm.
Qed.

End PerPostEvents.

Lemma in_logged_ids (i : string) (t : list Event) :
  In i (logged_ids t) -> In (EvUpdateLog i) t.
Proof.
  unfold logged_ids. rewrite in_flat_map. intros (e & He & Hi).
  destruct e; cbn in Hi; try contradiction.
  destruct Hi as [<-|[]]. exact He.
Qed.

(** C5: for a post whose id is in the processed-posts store when the cycle
    begins, [run_bot] emits no fetch, scrape, summarize or render event and
    does not write the id again; the iteration for such a post returns at once,
    with the state untouched and an empty trace. *)
Theorem run_bot_skips_processed {W : Type} (env : Env W)
    (domain username password : string) (st : St W) (p : Post) :
  In (py_str (id p)) (stored_ids (files st)) ->
  (forall e : Event,
     In e (trace_of (run_bot env domain username password st)) -> stage_post e <> Some p)
  /\ ~ In (py_str (id p)) (logged_ids (trace_of (run_bot env domain username password st)))
  /\ (forall (blocklist : list string) (st' : St W),
        process_post env (stored_ids (files st)) blocklist p st' = (Ok tt, st', [])).
Proof.
  intros Hin. apply mem_In in Hin.
  pose proof (run_bot_events env domain username password st) as Hall.
  rewrite Forall_forall in Hall.
  split; [|split].
  - intros e He Hs. specialize (Hall e He).
    destruct e; cbn in Hs; try discriminate; injection Hs as ->;
      cbn in Hall; destruct Hall as [Hm _]; congruence.
  - intros Hl. apply in_logged_ids in Hl. specialize (Hall _ Hl). cbn in Hall. congruence.
  - intros blocklist st'. apply process_post_processed. exact Hin.
Qed.

Lemma run_bot_skips_processed_witness :
  In (py_str (id Demo.p5)) (stored_ids (files Demo.st1))
  /\ (forall e : Event,
        In e (trace_of (run_bot Demo.env75 "lemmy.test" "bot" "secret" Demo.st1)) ->
        stage_post e <> Some Demo.p5)
  /\ ~ In (py_str (id Demo.p5))
          (logged_ids (trace_of (run_bot Demo.env75 "lemmy.test" "bot" "secret" Demo.st1)))
  /\ (forall (blocklist : list string) (st' : St nat),
        process_post Demo.env75 (stored_ids (files Demo.st1)) blocklist Demo.p5 st'
        = (Ok tt, st', [])).
Proof.
  assert (Hin : In (py_str (id Demo.p5)) (stored_ids (files Demo.st1))).
  { left. reflexivity. }
  split; [exact Hin|].
  exact (run_bot_skips_processed Demo.env75 "lemmy.test" "bot" "secret" Demo.st1 Demo.p5 Hin).
Defined.

(** C1 (amended): for a post whose URL has a registrable domain, the
    extractor's domain and suffix of the URL joined by a dot, that is in the
    blocklist the cycle begins with and that is the same for the URL as
    normalised at line 92, [run_bot] emits no fetch, scrape, summarize or
    render event; the iteration for it returns with the state untouched,
    whatever the store held, after a debug record at most: its id is not
    written to the store. *)
Theorem blocklisted_post_skipped_unlogged {W : Type} (env : Env W)
    (domain username password : string) (st : St W) (p : Post) (u : string) :
  url p = Some u ->
  In (domain_key (tldextract_extract env u)) (blocklist_of (files st)) ->
  domain_key (tldextract_extract env (clean u)) = domain_key (tldextract_extract env u) ->
  (forall e : Event,
     In e (trace_of (run_bot env domain username password st)) -> stage_post e <> Some p)
  /\ (forall (processed : list string) (st' : St W),
        exists t : list Event,
          process_post env processed (blocklist_of (files st)) p st' = (Ok tt, st', t)
          /\ logged_ids t = []
          /\ Forall (fun e => stage_post e = None) t
          /\ Forall (fun e => exists msg : LogMsg, e = EvLog DEBUG msg) t).
Proof.
  intros Hurl Hin Hkey.
  assert (Hb : blocked env (blocklist_of (files st)) p = true).
  { unfold blocked. rewrite Hurl, Hkey. apply mem_In. exact Hin. }
  split.
  - pose proof (run_bot_events env domain username password st) as Hall.
    rewrite Forall_forall in Hall.
    intros e He Hs. specialize (Hall e He).
    destruct e; cbn in Hs; try discriminate; injection Hs as ->;
      cbn in Hall; destruct Hall as [_ Hn]; congruence.
  - intros processed st'. unfold blocked in Hb. rewrite Hurl in Hb.
    destruct (mem (py_str (id p)) processed) eqn:Hm.
    + exists []. split; [apply process_post_processed; exact Hm|].
      split; [reflexivity|]. split; constructor.
    + eexists. split; [apply (process_post_blocked env processed _ p u st' Hurl Hm Hb)|].
      split; [reflexivity|]. split; repeat constructor. eexists. reflexivity.
Qed.

Lemma blocklisted_post_skipped_unlogged_witness :
  url Demo.p2 = Some "https://i.imgur.com/x.png"
  /\ In (domain_key (tldextract_extract Demo.env75 "https://i.imgur.com/x.png"))
        (blocklist_of (files Demo.st1))
  /\ domain_key (tldextract_extract Demo.env75 (clean "https://i.imgur.com/x.png"))
     = domain_key (tldextract_extract Demo.env75 "https://i.imgur.com/x.png")
  /\ (forall e : Event,
        In e (trace_of (run_bot Demo.env75 "lemmy.test" "bot" "secret" Demo.st1)) ->
        stage_post e <> Some Demo.p2)
  /\ (forall (processed : list string) (st' : St nat),
        exists t : list Event,
          process_post Demo.env75 processed (blocklist_of (files Demo.st1)) Demo.p2 st'
          = (Ok tt, st', t)
          /\ logged_ids t = []
          /\ Forall (fun e => stage_post e = None) t
          /\ Forall (fun e => exists msg : LogMsg, e = EvLog DEBUG msg) t).
Proof.
  assert (Hin : In (domain_key (tldextract_extract Demo.env75 "https://i.imgur.com/x.png"))
                   (blocklist_of (files Demo.st1))).
  { left. reflexivity. }
  split; [reflexivity|]. split; [exact Hin|]. split; [reflexivity|].
  exact (blocklisted_post_skipped_unlogged Demo.env75 "lemmy.test" "bot" "secret"
           Demo.st1 Demo.p2 "https://i.imgur.com/x.png" eq_refl Hin eq_refl).
Defined.

(** C1 as stated fails on the cycle of the demonstration: the post 2 is in
    the feed and its domain is blocklisted, the cycle completes, and the id 2
    is neither written during the cycle nor in the store at its end. *)
Lemma blocklisted_post_not_logged_counterexample :
  outcome_of (get_posts_deep Demo.env75 "lemmy.test" None None None (Some New) (Some Local)
                (mkSt 1%nat Demo.files1))
    = Ok [Demo.p1; Demo.p2; Demo.p3; Demo.p4; Demo.p5;
          Demo.text_post 102; Demo.text_post 103; Demo.text_post 104; Demo.text_post 105]
  /\ url Demo.p2 = Some "https://i.imgur.com/x.png"
  /\ domain_key (tldextract_extract Demo.env75 "https://i.imgur.com/x.png") = "imgur.com"
  /\ mem "imgur.com" (blocklist_of (files Demo.st1)) = true
  /\ blocked Demo.env75 (blocklist_of (files Demo.st1)) Demo.p2 = true
  /\ fetched_urls (trace_of (run_bot Demo.env75 "lemmy.test" "bot" "secret" Demo.st1))
     = ["http://example.com/a"; "http://example.com/gone"; "http://example.com/logo.png"]
  /\ outcome_of (run_bot Demo.env75 "lemmy.test" "bot" "secret" Demo.st1) = Ok tt
  /\ logged_ids (trace_of (run_bot Demo.env75 "lemmy.test" "bot" "secret" Demo.st1))
     = ["p1"; "3"; "4"]
  /\ stored_ids (files (state_of (run_bot Demo.env75 "lemmy.test" "bot" "secret" Demo.st1)))
     = ["5"; "p1"; "3"; "4"]
  /\ mem (py_str (id Demo.p2))
         (stored_ids (files (state_of (run_bot Demo.env75 "lemmy.test" "bot" "secret"
                                         Demo.st1))))
     = false.
Proof. vm_compute. repeat split. Qed.

(** ** The stages of an iteration *)

Lemma format_ok (tpl : Template) (args : list string) :
  template_ok tpl = true -> length args = 5%nat ->
  exists comment : string, format tpl args = Ok comment.
Proof.
  intros Hok Hlen. induction tpl as [| item tpl IH]; [exists ""; reflexivity|].
  cbn [template_ok forallb] in Hok. apply andb_true_iff in Hok. destruct Hok as [Hi Hok].
  destruct (IH Hok) as (c & Hc). destruct item as [lit | index]; cbn [format].
  - rewrite Hc. eexists. reflexivity.
  - apply Nat.ltb_lt in Hi.
    destruct (nth_error args index) as [a|] eqn:Hn.
    + rewrite Hc. eexists. reflexivity.
    + apply nth_error_None in Hn. lia.
Qed.

(** A field of the template puts its argument into the text. *)
Lemma format_field_occurs (tpl : Template) (args : list string) (index : nat)
    (a comment : string) :
  In (Field index) tpl ->
  nth_error args index = Some a ->
  format tpl args = Ok comment ->
  occurs_in a comment.
Proof.
  intros Hin Hn. revert comment. induction tpl as [| item tpl IH]; intros comment Hf;
    [contradiction|].
  destruct Hin as [-> | Hin].
  - cbn [format] in Hf. rewrite Hn in Hf.
    destruct (format tpl args) as [s|e]; [|discriminate]. injection Hf as <-.
    exists "", s. reflexivity.
  - destruct item as [lit | j]; cbn [format] in Hf.
    + destruct (format tpl args) as [s|e]; [|discriminate]. injection Hf as <-.
      destruct (IH Hin s eq_refl) as (pre & rest & ->).
      exists (lit ++ pre), rest. rewrite append_assoc. reflexivity.
    + destruct (nth_error args j) as [b|]; [|discriminate].
      destruct (format tpl args) as [s|e]; [|discriminate]. injection Hf as <-.
      destruct (IH Hin s eq_refl) as (pre & rest & ->).
      exists (b ++ pre), rest. rewrite append_assoc. reflexivity.
Qed.

Lemma option_string_eqb_eq (a b : option string) :
  option_string_eqb a b = true <-> a = b.
Proof.
  destruct a as [x|], b as [y|]; cbn; try (split; congruence).
  rewrite String.eqb_eq. split; congruence.
Qed.

Section StageRuns.

Context {W : Type}.
Variable env : Env W.

(** The [try] block up to the scraper, for an article that was fetched. *)
Lemma fetch_and_summarize_fetched (processed blocklist : list string) (p : Post)
    (u : string) (st : St W) (response : Response) (w' : W) :
  fetched_article env processed blocklist p u st response w' ->
  fetch_and_summarize env p (py_str (id p)) (clean u) st =
    (let html := text env (correct_encoding env response) in
     match scrape_html env html with
     | Ok (article_title, article_date, article_body) =>
         match get_summary env article_body with
         | Ok sd =>
             (Ok (Some (article_title, article_date, sd)), mkSt w' (files st),
              [EvGet p (clean u); EvScrape p html; EvSummarize p article_body])
         | Raise e =>
             (Raise e, mkSt w' (files st),
              [EvGet p (clean u); EvScrape p html; EvSummarize p article_body])
         end
     | Raise e => (Raise e, mkSt w' (files st), [EvGet p (clean u); EvScrape p html])
     end).
Proof.
  intros (_ & _ & _ & Hget & ct & Hct & Hmedia).
  unfold fetch_and_summarize, bind, emit, external, lift. rewrite Hget, Hct.
  cbn [world files]. rewrite Hmedia. cbv zeta.
  destruct (scrape_html env (text env (correct_encoding env response)))
    as [[[title date] body]|e]; [|reflexivity].
  destruct (get_summary env body) as [sd|e]; reflexivity.
Qed.

(** The gate and the rendering, when the reduction is in the band. *)
Lemma gate_and_render_in_band (p : Post) (post_id clean_url title date : string)
    (sd : SummaryResult) (st : St W) :
  50 <= reduction sd <= 96 ->
  gate_and_render env p post_id clean_url title date sd st =
    match format (TEMPLATE env)
                 [title; clean_url; PyStr.of_Z (reduction sd); date;
                  quote_sentences (top_sentences sd)] with
    | Ok comment =>
        (Ok tt, mkSt (world st) (append_line post_id (files st)),
         [EvRender p comment; EvLog INFO (MsgWillComment (ap_id p) comment);
          EvUpdateLog post_id])
    | Raise e => (Raise e, st, [])
    end.
Proof.
  intros [Hlo Hhi]. unfold gate_and_render,
    MINIMUM_REDUCTION_THRESHOLD, MAXIMUM_REDUCTION_THRESHOLD.
  apply Z.leb_le in Hlo, Hhi. rewrite Hlo, Hhi. cbn [andb]. cbv zeta.
  unfold bind, lift.
  destruct (format _ _) as [comment|e]; reflexivity.
Qed.

(** The gate, when the reduction is outside the band. *)
Lemma gate_and_render_out_of_band (p : Post) (post_id clean_url title date : string)
    (sd : SummaryResult) (st : St W) :
  ~ (50 <= reduction sd <= 96) ->
  gate_and_render env p post_id clean_url title date sd st =
    (Ok tt, mkSt (world st) (append_line post_id (files st)),
     [EvUpdateLog post_id; EvLog INFO (MsgSkipped post_id (reduction sd))]).
Proof.
  intros Hout. unfold gate_and_render,
    MINIMUM_REDUCTION_THRESHOLD, MAXIMUM_REDUCTION_THRESHOLD.
  destruct ((50 <=? reduction sd) && (reduction sd <=? 96)) eqn:Hb; [|reflexivity].
  apply andb_true_iff in Hb. destruct Hb as [Hlo Hhi].
  apply Z.leb_le in Hlo, Hhi. lia.
Qed.

(** An iteration that reaches the gate is the announcement, the three stage
    events, and then the gate. *)
Lemma process_post_summarized (processed blocklist : list string) (p : Post) (u : string)
    (st : St W) (response : Response) (w' : W) (title date : string) (sd : SummaryResult) :
  summarized env processed blocklist p u st response w' title date sd ->
  exists body : string,
    process_post env processed blocklist p st =
      (let '(r, st2, t2) :=
         gate_and_render env p (py_str (id p)) (clean u) title date sd (mkSt w' (files st)) in
       (r, st2,
        ([EvLog INFO (MsgSummarize (domain_key (tldextract_extract env (clean u)))
                                   (clean u) (ap_id p));
          EvGet p (clean u);
          EvScrape p (text env (correct_encoding env response));
          EvSummarize p body] ++ t2)%list)).
Proof.
  intros (Hf & body & Hscrape & Hsum). exists body.
  pose proof (fetch_and_summarize_fetched processed blocklist p u st response w' Hf) as Hrun.
  cbv zeta in Hrun. rewrite Hscrape, Hsum in Hrun.
  destruct Hf as (Hu & Hm & Hb & _).
  unfold process_post. rewrite Hu, Hm. cbv zeta. rewrite Hb.
  unfold bind at 1. unfold log at 1, emit at 1.
  unfold bind at 1. unfold try_except. rewrite Hrun.
  destruct (gate_and_render env p (py_str (id p)) (clean u) title date sd (mkSt w' (files st)))
    as [[r st2] t2].
  reflexivity.
Qed.


End StageRuns.

(** C4 (amended): for an iteration that reaches the gate with the reduction
    [r], under a template whose fields are among the five arguments, a
    comment is rendered exactly when [50 <= r <= 96]: 50 and 96 render, 49
    and 97 do not.  The rendered comment is logged as the comment to add and
    is not sent: the iteration makes no remote call (the call that would send
    it is commented out, line 141).  In both cases the id is written to the
    store, once; outside the band the skip is logged and there is no
    comment. *)
Theorem gate_renders_in_band {W : Type} (env : Env W) (processed blocklist : list string)
    (p : Post) (u : string) (st : St W) (response : Response) (w' : W)
    (title date : string) (sd : SummaryResult) :
  summarized env processed blocklist p u st response w' title date sd ->
  template_ok (TEMPLATE env) = true ->
  exists t : list Event,
    process_post env processed blocklist p st
      = (Ok tt, mkSt w' (append_line (py_str (id p)) (files st)), t)
    /\ logged_ids t = [py_str (id p)]
    /\ calls t = []
    /\ (50 <= reduction sd <= 96 ->
        exists comment : string,
          format (TEMPLATE env)
                 [title; clean u; PyStr.of_Z (reduction sd); date;
                  quote_sentences (top_sentences sd)] = Ok comment
          /\ rendered t = [comment]
          /\ In (EvLog INFO (MsgWillComment (ap_id p) comment)) t)
    /\ (~ (50 <= reduction sd <= 96) ->
        rendered t = []
        /\ In (EvLog INFO (MsgSkipped (py_str (id p)) (reduction sd))) t
        /\ forall comment : string, ~ In (EvLog INFO (MsgWillComment (ap_id p) comment)) t)
    /\ (rendered t <> [] <-> 50 <= reduction sd <= 96)
    /\ (reduction sd = 50 \/ reduction sd = 96 -> rendered t <> [])
    /\ (reduction sd = 49 \/ reduction sd = 97 -> rendered t = []).
Proof.
  intros Hsum Hok.
  destruct (process_post_summarized env _ _ _ _ _ _ _ _ _ _ Hsum) as (body & Hrun).
  rewrite Hrun. clear Hrun.
  destruct (Z_le_dec 50 (reduction sd)) as [Hlo|Hlo];
    [destruct (Z_le_dec (reduction sd) 96) as [Hhi|Hhi]|].
  - rewrite gate_and_render_in_band by lia.
    destruct (format_ok (TEMPLATE env)
                [title; clean u; PyStr.of_Z (reduction sd); date;
                 quote_sentences (top_sentences sd)] Hok eq_refl) as (comment & Hc).
    rewrite Hc. eexists. split; [reflexivity|]. cbn [world files].
    split; [reflexivity|]. split; [reflexivity|].
    split; [intros _; exists comment; split; [reflexivity|];
            split; [reflexivity | cbn; auto 10]|].
    split; [intros Hout; lia|].
    split; [split; [intros _; lia | intros _; discriminate]|].
    split; [intros _; discriminate | intros [Hr | Hr]; lia].
  - rewrite gate_and_render_out_of_band by lia.
    eexists. split; [reflexivity|]. split; [reflexivity|]. split; [reflexivity|].
    split; [intros Hin; lia|].
    split; [intros _; split; [reflexivity|]; split; [cbn; auto 10|];
            intros comment Hin; cbn in Hin;
            repeat (destruct Hin as [Hin | Hin]; [discriminate Hin|]); exact Hin|].
    split; [split; [intros Hr; exfalso; apply Hr; reflexivity | intros Hin; lia]|].
    split; [intros [Hr | Hr]; lia | intros _; reflexivity].
  - rewrite gate_and_render_out_of_band by lia.
    eexists. split; [reflexivity|]. split; [reflexivity|]. split; [reflexivity|].
    split; [intros Hin; lia|].
    split; [intros _; split; [reflexivity|]; split; [cbn; auto 10|];
            intros comment Hin; cbn in Hin;
            repeat (destruct Hin as [Hin | Hin]; [discriminate Hin|]); exact Hin|].
    split; [split; [intros Hr; exfalso; apply Hr; reflexivity | intros Hin; lia]|].
    split; [intros [Hr | Hr]; lia | intros _; reflexivity].
Qed.

Lemma gate_renders_in_band_witness :
  summarized (Demo.env_at 50) ["5"] ["imgur.com"; "giphy.com"] Demo.p1
             "http://amp.example.com/a" Demo.st1 Demo.response_a 1%nat
             "A title" "2023-07-01" (Demo.summary_at 50)
  /\ template_ok (TEMPLATE (Demo.env_at 50)) = true
  /\ exists t : list Event,
       process_post (Demo.env_at 50) ["5"] ["imgur.com"; "giphy.com"] Demo.p1 Demo.st1
         = (Ok tt, mkSt 1%nat (append_line "p1" Demo.files1), t)
       /\ logged_ids t = ["p1"]
       /\ calls t = []
       /\ rendered t <> [].
Proof.
  assert (Hs : summarized (Demo.env_at 50) ["5"] ["imgur.com"; "giphy.com"] Demo.p1
                 "http://amp.example.com/a" Demo.st1 Demo.response_a 1%nat
                 "A title" "2023-07-01" (Demo.summary_at 50)).
  { split.
    - repeat split. exists "text/html". split; reflexivity.
    - eexists. split; reflexivity. }
  split; [exact Hs|]. split; [reflexivity|].
  destruct (gate_renders_in_band (Demo.env_at 50) ["5"] ["imgur.com"; "giphy.com"] Demo.p1
              "http://amp.example.com/a" Demo.st1 Demo.response_a 1%nat
              "A title" "2023-07-01" (Demo.summary_at 50) Hs eq_refl)
    as (t & Hrun & Hlog & Hcalls & _ & _ & _ & Hin & _).
  exists t. split; [exact Hrun|]. split; [exact Hlog|]. split; [exact Hcalls|].
  apply Hin. left. reflexivity.
Defined.

(** C4 as stated fails on the demonstration at the reductions 50 and 96: the
    comment is rendered and logged, and nothing is sent: the iteration makes
    no remote call, and the remote calls of the whole cycle are the log-in
    and the five page listings. *)
Lemma comment_rendered_not_sent_counterexample :
  map (fun r => length (rendered (trace_of (process_post (Demo.env_at r) ["5"]
                                    ["imgur.com"; "giphy.com"] Demo.p1 Demo.st1))))
      [50; 96]
  = [1; 1]%nat
  /\ map (fun r => calls (trace_of (process_post (Demo.env_at r) ["5"]
                                      ["imgur.com"; "giphy.com"] Demo.p1 Demo.st1)))
         [50; 96]
     = [[]; []]
  /\ length (rendered (trace_of (run_bot (Demo.env_at 96) "lemmy.test" "bot" "secret"
                                   Demo.st1))) = 1%nat
  /\ calls (trace_of (run_bot (Demo.env_at 96) "lemmy.test" "bot" "secret" Demo.st1))
     = [CallLogIn "bot" "secret";
        CallPostList None None (Some New) (Some Local) 1;
        CallPostList None None (Some New) (Some Local) 2;
        CallPostList None None (Some New) (Some Local) 3;
        CallPostList None None (Some New) (Some Local) 4;
        CallPostList None None (Some New) (Some Local) 5].
Proof. vm_compute. repeat split. Qed.

(** The four boundary values on the demonstration: the number of comments
    rendered, and the ids written, at the reductions 49, 50, 96 and 97. *)
Example gate_boundaries :
  map (fun r => length (rendered (trace_of (process_post (Demo.env_at r) ["5"]
                                    ["imgur.com"; "giphy.com"] Demo.p1 Demo.st1))))
      [49; 50; 96; 97]
  = [0; 1; 1; 0]%nat
  /\ map (fun r => logged_ids (trace_of (process_post (Demo.env_at r) ["5"]
                                       ["imgur.com"; "giphy.com"] Demo.p1 Demo.st1)))
         [49; 50; 96; 97]
     = [["p1"]; ["p1"]; ["p1"]; ["p1"]].
Proof. vm_compute. split; reflexivity. Qed.

(** C3 (amended): for a post that passes the gate with the top sentences
    S1, S2 and the top words foo, bar, the comment is the template filled
    with the title, the cleaned URL, the reduction, the date and the text
    made of the two sentences, each on its own block-quoted line, joined by a
    blank line; that text occurs in the comment when the template uses its
    fifth field.  The ranked word list, foo^#1 bar^#2 followed by a space, is
    built but is not an argument of the template: the iteration is the same
    whatever the top words are. *)
Theorem comment_quotes_sentences {W : Type} (env : Env W) (processed blocklist : list string)
    (p : Post) (u : string) (st : St W) (response : Response) (w' : W)
    (title date : string) (sd : SummaryResult) :
  summarized env processed blocklist p u st response w' title date sd ->
  50 <= reduction sd <= 96 ->
  top_sentences sd = ["S1"; "S2"] ->
  top_words sd = ["foo"; "bar"] ->
  template_ok (TEMPLATE env) = true ->
  In (Field 4) (TEMPLATE env) ->
  exists (comment : string) (t : list Event),
    process_post env processed blocklist p st
      = (Ok tt, mkSt w' (append_line (py_str (id p)) (files st)), t)
    /\ rendered t = [comment]
    /\ format (TEMPLATE env)
              [title; clean u; PyStr.of_Z (reduction sd); date;
               "> S1" ++ PyStr.NL ++ PyStr.NL ++ "> S2"] = Ok comment
    /\ occurs_in ("> S1" ++ PyStr.NL ++ PyStr.NL ++ "> S2") comment
    /\ top_words_loop "" 0 (top_words sd) = "foo^#1 bar^#2 "
    /\ (forall words : list string,
          gate_and_render env p (py_str (id p)) (clean u) title date
                          (mkSummary (reduction sd) (top_sentences sd) words)
          = gate_and_render env p (py_str (id p)) (clean u) title date sd).
Proof.
  intros Hsum Hband Hsent Hwords Hok Hfield.
  destruct (process_post_summarized env _ _ _ _ _ _ _ _ _ _ Hsum) as (body & Hrun).
  rewrite Hrun. clear Hrun.
  rewrite gate_and_render_in_band by exact Hband. rewrite Hsent.
  change (quote_sentences ["S1"; "S2"]) with ("> S1" ++ PyStr.NL ++ PyStr.NL ++ "> S2").
  destruct (format_ok (TEMPLATE env)
              [title; clean u; PyStr.of_Z (reduction sd); date;
               "> S1" ++ PyStr.NL ++ PyStr.NL ++ "> S2"] Hok eq_refl) as (comment & Hc).
  rewrite Hc. exists comment. eexists.
  split; [reflexivity|]. split; [reflexivity|]. split; [reflexivity|].
  split; [exact (format_field_occurs (TEMPLATE env)
                   [title; clean u; PyStr.of_Z (reduction sd); date;
                    "> S1" ++ PyStr.NL ++ PyStr.NL ++ "> S2"] 4
                   ("> S1" ++ PyStr.NL ++ PyStr.NL ++ "> S2") comment Hfield eq_refl Hc)|].
  split; [rewrite Hwords; reflexivity|].
  intros words. destruct sd as [r ss ws]. cbn in Hsent. subst ss. reflexivity.
Qed.

Lemma comment_quotes_sentences_witness :
  summarized Demo.env75 ["5"] ["imgur.com"; "giphy.com"] Demo.p1
             "http://amp.example.com/a" Demo.st1 Demo.response_a 1%nat
             "A title" "2023-07-01" (Demo.summary_at 75)
  /\ 50 <= reduction (Demo.summary_at 75) <= 96
  /\ top_sentences (Demo.summary_at 75) = ["S1"; "S2"]
  /\ top_words (Demo.summary_at 75) = ["foo"; "bar"]
  /\ template_ok (TEMPLATE Demo.env75) = true
  /\ In (Field 4) (TEMPLATE Demo.env75)
  /\ exists (comment : string) (t : list Event),
       process_post Demo.env75 ["5"] ["imgur.com"; "giphy.com"] Demo.p1 Demo.st1
         = (Ok tt, mkSt 1%nat (append_line "p1" Demo.files1), t)
       /\ rendered t = [comment]
       /\ occurs_in ("> S1" ++ PyStr.NL ++ PyStr.NL ++ "> S2") comment.
Proof.
  assert (Hs : summarized Demo.env75 ["5"] ["imgur.com"; "giphy.com"] Demo.p1
                 "http://amp.example.com/a" Demo.st1 Demo.response_a 1%nat
                 "A title" "2023-07-01" (Demo.summary_at 75)).
  { split.
    - repeat split. exists "text/html". split; reflexivity.
    - eexists. split; reflexivity. }
  assert (Hband : 50 <= reduction (Demo.summary_at 75) <= 96) by (cbn; lia).
  assert (Hfield : In (Field 4) (TEMPLATE Demo.env75)) by (cbn; auto 20).
  split; [exact Hs|]. split; [exact Hband|].
  split; [reflexivity|]. split; [reflexivity|]. split; [reflexivity|].
  split; [exact Hfield|].
  destruct (comment_quotes_sentences Demo.env75 ["5"] ["imgur.com"; "giphy.com"] Demo.p1
              "http://amp.example.com/a" Demo.st1 Demo.response_a 1%nat
              "A title" "2023-07-01" (Demo.summary_at 75)
              Hs Hband eq_refl eq_refl eq_refl Hfield)
    as (comment & t & Hrun & Hr & _ & Hocc & _).
  exists comment, t. split; [exact Hrun|]. split; [exact Hr | exact Hocc].
Defined.

(** C3 as stated fails on the end-to-end scenario: the cycle renders one
    comment, which holds the two quoted sentences and does not hold the
    ranked word list. *)
Lemma comment_without_top_words_counterexample :
  top_words_loop "" 0 ["foo"; "bar"] = "foo^#1 bar^#2 "
  /\ map (PyStr.contains ("> S1" ++ PyStr.NL ++ PyStr.NL ++ "> S2"))
         (rendered (trace_of (run_bot Demo.env75 "lemmy.test" "bot" "secret" Demo.st1)))
     = [true]
  /\ map (PyStr.contains "foo^#1 bar^#2 ")
         (rendered (trace_of (run_bot Demo.env75 "lemmy.test" "bot" "secret" Demo.st1)))
     = [false]
  /\ (forall comment : string,
        In comment (rendered (trace_of (run_bot Demo.env75 "lemmy.test" "bot" "secret"
                                          Demo.st1))) ->
        ~ occurs_in "foo^#1 bar^#2 " comment).
Proof.
  split; [reflexivity|]. split; [vm_compute; reflexivity|]. split; [vm_compute; reflexivity|].
  intros comment Hin Hocc. apply contains_occurs in Hocc.
  assert (Hall : forallb (fun c => negb (PyStr.contains "foo^#1 bar^#2 " c))
                   (rendered (trace_of (run_bot Demo.env75 "lemmy.test" "bot" "secret"
                                          Demo.st1))) = true)
    by (vm_compute; reflexivity).
  rewrite forallb_forall in Hall. specialize (Hall comment Hin).
  rewrite Hocc in Hall. discriminate Hall.
Qed.

(** ** Errors inside an iteration *)

Section PerPostErrors.

Context {W : Type}.
Variable env : Env W.

Lemma gate_and_render_returns (p : Post) (post_id clean_url title date : string)
    (sd : SummaryResult) (st : St W) :
  template_ok (TEMPLATE env) = true ->
  outcome_of (gate_and_render env p post_id clean_url title date sd st) = Ok tt.
Proof.
  intros Hok.
  destruct (Z_le_dec 50 (reduction sd)) as [Hlo|Hlo];
    [destruct (Z_le_dec (reduction sd) 96) as [Hhi|Hhi]|].
  - rewrite gate_and_render_in_band by lia.
    destruct (format_ok (TEMPLATE env)
                [title; clean_url; PyStr.of_Z (reduction sd); date;
                 quote_sentences (top_sentences sd)] Hok eq_refl) as (comment & ->).
    reflexivity.
  - rewrite gate_and_render_out_of_band by lia. reflexivity.
  - rewrite gate_and_render_out_of_band by lia. reflexivity.
Qed.

(** Under a template whose fields are among the five arguments an iteration
    returns, whatever the web, the scraper and the summarizer do. *)
Lemma process_post_returns (processed blocklist : list string) (p : Post) (st : St W) :
  template_ok (TEMPLATE env) = true ->
  outcome_of (process_post env processed blocklist p st) = Ok tt.
Proof.
  intros Hok. unfold process_post.
  destruct (url p) as [u|]; [|reflexivity].
  destruct (mem (py_str (id p)) processed); [reflexivity|].
  cbv zeta. destruct (mem _ blocklist); [reflexivity|].
  rewrite outcome_of_bind. cbn [log emit outcome_of state_of fst snd].
  rewrite outcome_of_bind, outcome_of_try_except.
  destruct (outcome_of (fetch_and_summarize env p (py_str (id p)) (clean u) st))
    as [[[[title date] sd]|]|e].
  - apply gate_and_render_returns. exact Hok.
  - reflexivity.
  - unfold on_failure. rewrite outcome_of_bind. cbn [log emit outcome_of state_of fst snd].
    rewrite outcome_of_bind. rewrite update_log_run. reflexivity.
Qed.

(** An error of the rendering is not caught: it is the outcome of the
    iteration, and the id is not written. *)
Lemma process_post_render_error (processed blocklist : list string) (p : Post) (u : string)
    (st : St W) (response : Response) (w' : W) (title date : string)
    (sd : SummaryResult) (e : exn) :
  summarized env processed blocklist p u st response w' title date sd ->
  50 <= reduction sd <= 96 ->
  format (TEMPLATE env)
         [title; clean u; PyStr.of_Z (reduction sd); date;
          quote_sentences (top_sentences sd)] = Raise e ->
  exists t : list Event,
    process_post env processed blocklist p st = (Raise e, mkSt w' (files st), t)
    /\ logged_ids t = [].
Proof.
  intros Hsum Hband Hf.
  destruct (process_post_summarized env _ _ _ _ _ _ _ _ _ _ Hsum) as (body & Hrun).
  rewrite Hrun, gate_and_render_in_band, Hf by exact Hband.
  eexists. split; reflexivity.
Qed.

End PerPostErrors.



(** The rendering stands after the [try] block.  Under a template that asks
    for a sixth argument, which is not the template the specification
    describes, the rendering of the first post raises: the cycle ends with
    that error, no id is written to the store, and the posts after it are
    never fetched, whereas under the five-field template the cycle fetches
    three links and writes three ids. *)
Example malformed_template_ends_cycle :
  outcome_of (run_bot Demo.env_bad_template "lemmy.test" "bot" "secret" Demo.st1)
    = Raise (IndexError "Replacement index 5 out of range for positional args tuple")
  /\ fetched_urls (trace_of (run_bot Demo.env_bad_template "lemmy.test" "bot" "secret" Demo.st1))
     = ["http://example.com/a"]
  /\ logged_ids (trace_of (run_bot Demo.env_bad_template "lemmy.test" "bot" "secret" Demo.st1))
     = []
  /\ stored_ids (files (state_of (run_bot Demo.env_bad_template "lemmy.test" "bot" "secret"
                                    Demo.st1)))
     = ["5"]
  /\ outcome_of (run_bot Demo.env75 "lemmy.test" "bot" "secret" Demo.st1) = Ok tt
  /\ fetched_urls (trace_of (run_bot Demo.env75 "lemmy.test" "bot" "secret" Demo.st1))
     = ["http://example.com/a"; "http://example.com/gone"; "http://example.com/logo.png"]
  /\ logged_ids (trace_of (run_bot Demo.env75 "lemmy.test" "bot" "secret" Demo.st1))
     = ["p1"; "3"; "4"].
Proof. vm_compute. repeat split. Qed.

(** ** The encoding correction *)

Section Encoding.

Context {W : Type}.
Variable env : Env W.

(** The text handed to the scraper, by the three cases of lines 111-114. *)
Lemma text_correct_encoding (response : Response) :
  text env (correct_encoding env response)
    = if PyStr.contains "iso-8859-1" (PyStr.lower (text env response))
      then decode env (Some "iso-8859-1") (content response)
      else if option_string_eqb (encoding response) (Some "ISO-8859-1")
           then decode env (Some "utf-8") (content response)
           else decode env (encoding response) (content response).
Proof.
  unfold correct_encoding.
  destruct (PyStr.contains "iso-8859-1" (PyStr.lower (text env response))); [reflexivity|].
  destruct (option_string_eqb (encoding response) (Some "ISO-8859-1")); reflexivity.
Qed.

(** The iteration for an article that was fetched hands the corrected text
    to the scraper. *)
Lemma process_post_scrapes (processed blocklist : list string) (p : Post) (u : string)
    (st : St W) (response : Response) (w' : W) :
  fetched_article env processed blocklist p u st response w' ->
  exists t : list Event,
    trace_of (process_post env processed blocklist p st)
      = EvLog INFO (MsgSummarize (domain_key (tldextract_extract env (clean u)))
                                 (clean u) (ap_id p))
        :: EvGet p (clean u)
        :: EvScrape p (text env (correct_encoding env response)) :: t.
Proof.
  intros Hf.
  pose proof (fetch_and_summarize_fetched env processed blocklist p u st response w' Hf)
    as Hrun.
  destruct Hf as (Hu & Hm & Hb & _).
  unfold process_post. rewrite Hu, Hm. cbv zeta. rewrite Hb.
  rewrite trace_of_bind. cbn [log emit trace_of snd outcome_of state_of fst].
  rewrite trace_of_bind, trace_of_try_except. cbv zeta in Hrun. rewrite Hrun.
  destruct (scrape_html env (text env (correct_encoding env response)))
    as [[[title date] body]|e]; [destruct (get_summary env body) as [sd|e]|];
    cbn [trace_of snd app]; eexists; reflexivity.
Qed.

End Encoding.

(** C9: after a successful GET of an article (a response whose content type
    is not one of the media types), the text handed to the scraper is the
    body decoded as ISO-8859-1 if the text of the response contains the
    marker iso-8859-1, case ignored; otherwise the body decoded as UTF-8 if
    the encoding of the response is ISO-8859-1; otherwise the text of the
    response, its decoding unchanged. *)
Theorem encoding_correction {W : Type} (env : Env W) (processed blocklist : list string)
    (p : Post) (u : string) (st : St W) (response : Response) (w' : W) :
  fetched_article env processed blocklist p u st response w' ->
  exists (html : string) (t : list Event),
    trace_of (process_post env processed blocklist p st)
      = EvLog INFO (MsgSummarize (domain_key (tldextract_extract env (clean u)))
                                 (clean u) (ap_id p))
        :: EvGet p (clean u) :: EvScrape p html :: t
    /\ (has_marker (text env response) ->
        html = decode env (Some "iso-8859-1") (content response))
    /\ (~ has_marker (text env response) ->
        encoding response = Some "ISO-8859-1" ->
        html = decode env (Some "utf-8") (content response))
    /\ (~ has_marker (text env response) ->
        encoding response <> Some "ISO-8859-1" ->
        html = decode env (encoding response) (content response)
        /\ html = text env response).
Proof.
  intros Hf.
  destruct (process_post_scrapes env processed blocklist p u st response w' Hf) as (t & Ht).
  exists (text env (correct_encoding env response)), t.
  split; [exact Ht|].
  rewrite text_correct_encoding. unfold has_marker.
  rewrite <- (contains_lower "iso-8859-1" (text env response)).
  destruct (PyStr.contains "iso-8859-1" (PyStr.lower (text env response))).
  - split; [reflexivity|]. split; intros Hn; exfalso; apply Hn; reflexivity.
  - split; [discriminate|].
    destruct (option_string_eqb (encoding response) (Some "ISO-8859-1")) eqn:He.
    + split; [reflexivity|]. intros _ Hne. apply option_string_eqb_eq in He. contradiction.
    + split; [|intros _ _; split; reflexivity].
      intros _ Heq. apply option_string_eqb_eq in Heq. congruence.
Qed.

Lemma encoding_correction_witness :
  fetched_article Demo.env75 ["5"] ["imgur.com"; "giphy.com"] Demo.p1
                  "http://amp.example.com/a" Demo.st1 Demo.response_a 1%nat
  /\ ~ has_marker (text Demo.env75 Demo.response_a)
  /\ encoding Demo.response_a = Some "ISO-8859-1"
  /\ exists (html : string) (t : list Event),
       trace_of (process_post Demo.env75 ["5"] ["imgur.com"; "giphy.com"] Demo.p1 Demo.st1)
         = EvLog INFO (MsgSummarize "example.com" "http://example.com/a"
                                    "https://lemmy.test/post/p1")
           :: EvGet Demo.p1 "http://example.com/a" :: EvScrape Demo.p1 html :: t
       /\ html = Demo.codec (Some "utf-8") (content Demo.response_a).
Proof.
  assert (Hf : fetched_article Demo.env75 ["5"] ["imgur.com"; "giphy.com"] Demo.p1
                 "http://amp.example.com/a" Demo.st1 Demo.response_a 1%nat).
  { repeat split. exists "text/html". split; reflexivity. }
  assert (Hn : ~ has_marker (text Demo.env75 Demo.response_a)).
  { unfold has_marker. rewrite <- (contains_lower "iso-8859-1"). vm_compute. discriminate. }
  split; [exact Hf|]. split; [exact Hn|]. split; [reflexivity|].
  destruct (encoding_correction Demo.env75 ["5"] ["imgur.com"; "giphy.com"] Demo.p1
              "http://amp.example.com/a" Demo.st1 Demo.response_a 1%nat Hf)
    as (html & t & Ht & _ & Hutf & _).
  exists html, t. split; [exact Ht|]. exact (Hutf Hn eq_refl).
Defined.

(** The three cases on the demonstration: a declared ISO-8859-1 without the
    marker is read as UTF-8; the marker in the markup forces ISO-8859-1; a
    declared UTF-8 without the marker is left as it is. *)
Example encoding_cases :
  text Demo.env75 (correct_encoding Demo.env75 Demo.response_a)
    = "U|<html><body>article a</body></html>"
  /\ text Demo.env75 (correct_encoding Demo.env75 Demo.response_b)
     = "L|<html><meta charset=ISO-8859-1><body>article b</body></html>"
  /\ text Demo.env75
          (correct_encoding Demo.env75
             (mkResponse (Some "text/html") (Some "utf-8") (list_byte_of_string Demo.html_a)))
     = "U|<html><body>article a</body></html>"
  /\ text Demo.env75
          (correct_encoding Demo.env75
             (mkResponse (Some "text/html") (Some "iso-8859-1")
                         (list_byte_of_string Demo.html_a)))
     = "L|<html><body>article a</body></html>".
Proof. vm_compute. repeat split. Qed.

(** ** The store across cycles *)

(** What one cycle writes, the next cycle reads: after the cycle of the
    demonstration the store holds the ids 5, p1, 3 and 4, and a second cycle
    from the state the first one left fetches nothing and writes nothing. *)
Example second_cycle_is_idle :
  stored_ids (files (state_of (run_bot Demo.env75 "lemmy.test" "bot" "secret" Demo.st1)))
    = ["5"; "p1"; "3"; "4"]
  /\ fetched_urls
       (trace_of (run_bot Demo.env75 "lemmy.test" "bot" "secret"
                    (state_of (run_bot Demo.env75 "lemmy.test" "bot" "secret" Demo.st1))))
     = []
  /\ logged_ids
       (trace_of (run_bot Demo.env75 "lemmy.test" "bot" "secret"
                    (state_of (run_bot Demo.env75 "lemmy.test" "bot" "secret" Demo.st1))))
     = [].
Proof. vm_compute. repeat split. Qed.

(** A missing store is created empty, and a missing blocklist is an error. *)
Example missing_files :
  load_log (mkSt 0%nat (mkFiles None (Some "")))
    = (Ok [], mkSt 0%nat (mkFiles (Some "") (Some "")), [])
  /\ outcome_of (load_blocklist (mkSt 0%nat (mkFiles (Some "") None)))
     = Raise (FileNotFoundError BLOCKLIST_FILE)
  /\ outcome_of (run_bot Demo.env75 "lemmy.test" "bot" "secret"
                   (mkSt 0%nat (mkFiles None None)))
     = Raise (FileNotFoundError BLOCKLIST_FILE).
Proof. repeat split. Qed.

(** * Further properties *)

(** ** The store as text: [update_log] and [load_log] *)

Section SplitLines.

Import PyStr.

Lemma CR_is_linebreak (c : ascii) : Ascii.eqb c CR = true -> is_linebreak c = true.
Proof. intros Hc. apply Ascii.eqb_eq in Hc. subst c. reflexivity. Qed.

Lemma not_linebreak_not_CR (c : ascii) : is_linebreak c = false -> Ascii.eqb c CR = false.
Proof.
  intros Hc. destruct (Ascii.eqb c CR) eqn:He; [|reflexivity].
  apply CR_is_linebreak in He. congruence.
Qed.

Lemma no_linebreak_app (a b : string) :
  no_linebreak (a ++ b) = no_linebreak a && no_linebreak b.
Proof.
  induction a as [| c a IH]; [reflexivity|]. cbn. rewrite IH. apply andb_assoc.
Qed.

(** A line without boundary characters, then a newline: the line is read as
    it was written. *)
Lemma splitlines_from_line (s cur rest : string) :
  no_linebreak s = true ->
  splitlines_from cur (s ++ NL ++ rest) = (cur ++ s) :: splitlines rest.
Proof.
  revert cur. induction s as [| c s IH]; intros cur Hs.
  - cbn. rewrite append_empty_r. reflexivity.
  - cbn [no_linebreak] in Hs. apply andb_true_iff in Hs. destruct Hs as [Hc Hs].
    apply negb_true_iff in Hc. cbn [append splitlines_from].
    rewrite (not_linebreak_not_CR c Hc), Hc, (IH _ Hs), append_assoc. reflexivity.
Qed.

(** A newline ends what precedes it: the lines after it are read on their
    own. *)
Lemma splitlines_from_newline (a cur rest : string) :
  splitlines_from cur (a ++ NL ++ rest)
    = (splitlines_from cur (a ++ NL) ++ splitlines rest)%list.
Proof.
  revert cur. induction a as [| c a IH]; intros cur; [reflexivity|].
  destruct a as [| c' a'].
  - cbn. destruct (Ascii.eqb c "013"%char); [reflexivity|].
    destruct (is_linebreak c); reflexivity.
  - change (String c (String c' a') ++ NL ++ rest)
      with (String c (String c' (a' ++ NL ++ rest))).
    change (String c (String c' a') ++ NL) with (String c (String c' (a' ++ NL))).
    cbn [splitlines_from].
    change (String c' (a' ++ NL ++ rest)) with (String c' a' ++ NL ++ rest).
    change (String c' (a' ++ NL)) with (String c' a' ++ NL).
    destruct (Ascii.eqb c CR).
    + destruct (Ascii.eqb_spec c' LF) as [-> | Hne].
      * pose proof (IH "") as Hnext. cbn in Hnext. injection Hnext as Hnext.
        cbn [app]. f_equal. exact Hnext.
      * cbn [app]. f_equal. apply IH.
    + destruct (is_linebreak c); [cbn [app]; f_equal|]; apply IH.
Qed.

Lemma splitlines_terminated (t rest : string) :
  terminated t -> splitlines (t ++ rest) = (splitlines t ++ splitlines rest)%list.
Proof.
  intros [-> | (a & ->)]; [reflexivity|].
  unfold splitlines. rewrite append_assoc. apply splitlines_from_newline.
Qed.

(** The lines [splitlines] returns hold no boundary character. *)
Lemma splitlines_from_no_linebreak (s : string) :
  forall cur : string,
    no_linebreak cur = true ->
    Forall (fun l => no_linebreak l = true) (splitlines_from cur s).
Proof.
  induction s as [| c s IH]; intros cur Hcur.
  - cbn. destruct cur; [constructor | constructor; [exact Hcur | constructor]].
  - destruct s as [| c' s'].
    + cbn. destruct (Ascii.eqb c "013"%char); [repeat constructor; exact Hcur|].
      destruct (is_linebreak c) eqn:Hc; [repeat constructor; exact Hcur|].
      assert (Hn : no_linebreak (cur ++ String c "") = true)
        by (rewrite no_linebreak_app, Hcur; cbn; rewrite Hc; reflexivity).
      destruct (cur ++ String c ""); repeat constructor. exact Hn.
    + cbn [splitlines_from]. destruct (Ascii.eqb c CR).
      * destruct (Ascii.eqb_spec c' LF) as [-> | Hne].
        -- constructor; [exact Hcur|].
           pose proof (IH "" eq_refl) as Hnext. cbn in Hnext.
           inversion Hnext; assumption.
        -- constructor; [exact Hcur | apply IH; reflexivity].
      * destruct (is_linebreak c) eqn:Hc.
        -- constructor; [exact Hcur | apply IH; reflexivity].
        -- apply IH. rewrite no_linebreak_app, Hcur. cbn. rewrite Hc. reflexivity.
Qed.

Lemma lines_text_app (a b : list string) :
  lines_text (a ++ b) = lines_text a ++ lines_text b.
Proof.
  induction a as [| i a IH]; [reflexivity|].
  cbn [app lines_text]. rewrite IH, !append_assoc. reflexivity.
Qed.

Lemma lines_text_terminated (ids : list string) : terminated (lines_text ids).
Proof.
  induction ids as [| i ids IH]; [left; reflexivity|]. right.
  cbn [lines_text]. destruct IH as [-> | (a & ->)].
  - exists i. reflexivity.
  - exists (i ++ NL ++ a). rewrite !append_assoc. reflexivity.
Qed.

Lemma terminated_app (t : string) (ids : list string) :
  terminated t -> terminated (t ++ lines_text ids).
Proof.
  intros Ht. destruct (lines_text_terminated ids) as [-> | (a & ->)].
  - rewrite append_empty_r. exact Ht.
  - right. exists (t ++ a). rewrite append_assoc. reflexivity.
Qed.

(** Lines written with their newline are read back in order. *)
Lemma splitlines_lines_text (ids : list string) :
  Forall (fun i => no_linebreak i = true) ids ->
  splitlines (lines_text ids) = ids.
Proof.
  induction 1 as [| i ids Hi _ IH]; [reflexivity|].
  cbn [lines_text]. unfold splitlines. rewrite (splitlines_from_line i "" _ Hi).
  cbn [append]. f_equal. exact IH.
Qed.

(** A line without boundary characters is read back whatever the other
    lines hold. *)
Lemma In_splitlines_lines_text (i : string) (ids : list string) :
  In i ids -> no_linebreak i = true -> In i (splitlines (lines_text ids)).
Proof.
  intros Hin Hi. induction ids as [| j ids IH]; [contradiction|].
  cbn [lines_text]. unfold splitlines. rewrite splitlines_from_newline.
  apply in_or_app. destruct Hin as [-> | Hin].
  - left. change (i ++ NL) with (i ++ NL ++ "").
    rewrite (splitlines_from_line i "" "" Hi). left. reflexivity.
  - right. exact (IH Hin).
Qed.

Lemma stored_ids_log_text (fs : Files) : stored_ids fs = splitlines (log_text fs).
Proof. unfold stored_ids, log_text. destruct (posts_log fs); reflexivity. Qed.

End SplitLines.

(** ** The store is only ever appended to *)

Section Appends.

Context {W : Type}.

Lemma appends_ret {A : Type} (a : A) : appends (@ret W A a).
Proof. intros st. cbn. rewrite append_empty_r. split; reflexivity. Qed.

Lemma appends_raise {A : Type} (e : exn) : appends (@raise W A e).
Proof. intros st. cbn. rewrite append_empty_r. split; reflexivity. Qed.

Lemma appends_lift {A : Type} (r : result A) : appends (@lift W A r).
Proof. intros st. cbn. rewrite append_empty_r. split; reflexivity. Qed.

Lemma appends_external {A : Type} (f : W -> result A * W) : appends (external f).
Proof.
  intros st. unfold external. destruct (f (world st)) as [r w].
  cbn. rewrite append_empty_r. split; reflexivity.
Qed.

Lemma appends_emit (e : Event) : logged_ids [e] = [] -> appends (@emit W e).
Proof.
  intros He st. unfold emit, trace_of, state_of. cbn [fst snd]. rewrite He.
  cbn. rewrite append_empty_r. split; reflexivity.
Qed.

Lemma appends_bind {A B : Type} (m : M W A) (k : A -> M W B) :
  appends m -> (forall a : A, appends (k a)) -> appends (bind m k).
Proof.
  intros Hm Hk st. specialize (Hm st). unfold bind.
  destruct (m st) as [[[a|e] st1] t1]; cbn [state_of trace_of fst snd] in *; [|exact Hm].
  specialize (Hk a st1). destruct (k a st1) as [[r st2] t2].
  cbn [state_of trace_of fst snd] in *.
  destruct Hm as [Hm1 Hm2]. destruct Hk as [Hk1 Hk2].
  rewrite Hk1, Hm1, Hk2, Hm2, logged_ids_app, lines_text_app, append_assoc.
  split; reflexivity.
Qed.

Lemma appends_try_except {A : Type} (body : M W A) (handler : exn -> M W A) :
  appends body -> (forall e : exn, appends (handler e)) -> appends (try_except body handler).
Proof.
  intros Hm Hk st. specialize (Hm st). unfold try_except.
  destruct (body st) as [[[a|e] st1] t1]; cbn [state_of trace_of fst snd] in *; [exact Hm|].
  specialize (Hk e st1). destruct (handler e st1) as [[r st2] t2].
  cbn [state_of trace_of fst snd] in *.
  destruct Hm as [Hm1 Hm2]. destruct Hk as [Hk1 Hk2].
  rewrite Hk1, Hm1, Hk2, Hm2, logged_ids_app, lines_text_app, append_assoc.
  split; reflexivity.
Qed.

Lemma appends_for_each {A : Type} (xs : list A) (body : A -> M W unit) :
  (forall x : A, appends (body x)) -> appends (for_each xs body).
Proof.
  intros Hbody. induction xs as [| x xs IH]; cbn [for_each].
  - apply appends_ret.
  - apply appends_bind; [apply Hbody | intros _; exact IH].
Qed.

(** [update_log] appends its line, creating the file when it is missing. *)
Lemma appends_update_log (post_id : string) : appends (@update_log W post_id).
Proof.
  intros st. rewrite update_log_run. unfold log_text, append_line.
  cbn. split; reflexivity.
Qed.

(** [load_log] creates a missing file empty and changes nothing else. *)
Lemma appends_load_log : appends (@load_log W).
Proof.
  intros [w [[text|] bl]]; cbn; rewrite ?append_empty_r; split; reflexivity.
Qed.

Lemma appends_load_blocklist : appends (@load_blocklist W).
Proof.
  intros [w [pl [text|]]]; cbn; rewrite ?append_empty_r; split; reflexivity.
Qed.

End Appends.

(** One step of the proof that a computation only appends to the store:
    split a sequence, a [try], a test, or close a leaf. *)
Ltac appends_step :=
  match goal with
  | |- appends (bind _ _) => apply appends_bind; [| intros ?]
  | |- appends (try_except _ _) => apply appends_try_except; [| intros ?]
  | |- appends (ret _) => apply appends_ret
  | |- appends (raise _) => apply appends_raise
  | |- appends (lift _) => apply appends_lift
  | |- appends (external _) => apply appends_external
  | |- appends (update_log _) => apply appends_update_log
  | |- appends (log _ _) => apply appends_emit; reflexivity
  | |- appends (sleep _) => apply appends_emit; reflexivity
  | |- appends (emit _) => apply appends_emit; reflexivity
  | |- appends (if ?b then _ else _) => destruct b
  | |- appends (match ?x with _ => _ end) => destruct x
  end.

Section CycleAppends.

Context {W : Type}.
Variable env : Env W.

Lemma appends_retry_loop {R : Type} `{Truthy R} (op : RemoteOp W R) (k : nat) :
  forall retries : Z, iterations_left retries = k -> appends (retry_loop op retries).
Proof.
  induction k as [| k IH]; intros retries Hk;
    rewrite (retry_loop_equation_1 _ _ _ op retries); unfold invoke;
    repeat appends_step; unfold iterations_left in Hk; try lia.
  change (appends (retry_loop op (retries + 1))).
  apply IH. unfold iterations_left. lia.
Qed.

Lemma appends_safe_api_call {R : Type} `{Truthy R} (op : RemoteOp W R) :
  appends (safe_api_call op).
Proof.
  unfold safe_api_call. appends_step; [apply (appends_retry_loop op 9); reflexivity|].
  destruct a as [response retries]. repeat appends_step.
Qed.

Lemma appends_get_posts_deep (instance : string) (community_id : option Z)
    (community_name : option string) (saved_only : option bool)
    (sort : option SortType) (type_ : option ListingType) :
  appends (get_posts_deep env instance community_id community_name saved_only sort type_).
Proof.
  unfold get_posts_deep. generalize (@nil Post) as posts.
  induction (py_range 1 6) as [| i rest IH]; intros posts; cbn [pages_loop].
  - apply appends_ret.
  - appends_step; [apply appends_safe_api_call | apply IH].
Qed.

Lemma appends_process_post (processed blocklist : list string) (p : Post) :
  appends (process_post env processed blocklist p).
Proof.
  unfold process_post. destruct (url p) as [u|]; [|apply appends_ret].
  destruct (mem (py_str (id p)) processed); [apply appends_ret|].
  cbv zeta. destruct (mem _ blocklist); [repeat appends_step|].
  unfold fetch_and_summarize, on_failure, gate_and_render.
  repeat first [ appends_step
               | match goal with
                 | |- appends (let '(_, _) := ?x in _) => destruct x as [[? ?] ?]
                 | a : option (string * string * SummaryResult) |- _ => destruct a as [[[? ?] ?]|]
                 end ].
Qed.

Lemma appends_run_bot (domain username password : string) :
  appends (run_bot env domain username password).
Proof.
  unfold run_bot.
  apply appends_bind; [apply appends_load_log | intros processed].
  apply appends_bind; [apply appends_load_blocklist | intros blocklist].
  apply appends_bind; [apply appends_safe_api_call | intros _].
  apply appends_bind; [apply appends_get_posts_deep | intros posts].
  apply appends_bind; [apply appends_emit; reflexivity | intros _].
  apply appends_for_each. intros p. apply appends_process_post.
Qed.

End CycleAppends.

Lemma load_log_outcome {W : Type} (st : St W) :
  outcome_of (load_log st) = Ok (stored_ids (files st)).
Proof. destruct st as [w [[text|] bl]]; reflexivity. Qed.

Lemma logged_ids_for_each_update_log {W : Type} (ids : list string) (st : St W) :
  logged_ids (trace_of (for_each ids update_log st)) = ids
  /\ outcome_of (for_each ids update_log st) = Ok tt.
Proof.
  revert st. induction ids as [| i ids IH]; intros st; [split; reflexivity|].
  cbn [for_each]. rewrite trace_of_bind, outcome_of_bind, update_log_run.
  cbn [outcome_of state_of trace_of fst snd]. rewrite logged_ids_app.
  destruct (IH (mkSt (world st) (append_line i (files st)))) as [-> ->].
  split; reflexivity.
Qed.

(** X1: ids written by [update_log], one call after the other, onto a log
    that is missing, empty or ends with a newline, are read back by
    [load_log] after the ids the log held, in the order they were written,
    provided no id holds a line boundary character. *)
Theorem update_log_then_load_log {W : Type} (ids : list string) (st : St W) :
  terminated (log_text (files st)) ->
  Forall (fun i => no_linebreak i = true) ids ->
  exists before : list string,
    outcome_of (load_log st) = Ok before
    /\ outcome_of (for_each ids update_log st) = Ok tt
    /\ outcome_of (load_log (state_of (for_each ids update_log st)))
       = Ok (before ++ ids)%list.
Proof.
  intros Hterm Hids. exists (stored_ids (files st)).
  split; [apply load_log_outcome|].
  destruct (logged_ids_for_each_update_log ids st) as [Hl Hok].
  split; [exact Hok|].
  rewrite load_log_outcome. f_equal.
  destruct (appends_for_each ids update_log (fun i => appends_update_log i) st) as [Htext _].
  rewrite !stored_ids_log_text, Htext, Hl.
  rewrite (splitlines_terminated _ _ Hterm), (splitlines_lines_text ids Hids).
  reflexivity.
Qed.

Lemma update_log_then_load_log_witness :
  terminated (log_text (files Demo.st1))
  /\ Forall (fun i => no_linebreak i = true) ["7"; "p8"]
  /\ exists before : list string,
       outcome_of (load_log Demo.st1) = Ok before
       /\ outcome_of (for_each ["7"; "p8"] update_log Demo.st1) = Ok tt
       /\ outcome_of (load_log (state_of (for_each ["7"; "p8"] update_log Demo.st1)))
          = Ok (before ++ ["7"; "p8"])%list.
Proof.
  assert (Hterm : terminated (log_text (files Demo.st1))).
  { right. exists "5". reflexivity. }
  assert (Hids : Forall (fun i => no_linebreak i = true) ["7"; "p8"]).
  { repeat constructor. }
  split; [exact Hterm|]. split; [exact Hids|].
  exact (update_log_then_load_log ["7"; "p8"] Demo.st1 Hterm Hids).
Defined.

(** A log without a final newline: the id written next is glued to the last
    line, and both ids are lost. *)
Example update_log_unterminated :
  stored_ids Scenario.files_unterminated = ["5"]
  /\ stored_ids (append_line "7" Scenario.files_unterminated) = ["57"].
Proof. split; reflexivity. Qed.

(** X2: no line that [load_log] returns holds a line boundary character; so
    a post whose id, as a string, holds one is never found in the list of
    processed posts, whatever the store holds. *)
Theorem load_log_lines_have_no_linebreak {W : Type} (st : St W)
    (processed : list string) (p : Post) :
  outcome_of (load_log st) = Ok processed ->
  Forall (fun i => no_linebreak i = true) processed
  /\ (no_linebreak (py_str (id p)) = false -> mem (py_str (id p)) processed = false).
Proof.
  intros Hload. rewrite load_log_outcome in Hload. injection Hload as <-.
  assert (Hall : Forall (fun i => no_linebreak i = true) (stored_ids (files st))).
  { rewrite stored_ids_log_text. apply splitlines_from_no_linebreak. reflexivity. }
  split; [exact Hall|].
  intros Hbad. apply mem_not_In. intros Hin.
  rewrite Forall_forall in Hall. specialize (Hall _ Hin). congruence.
Qed.

Lemma load_log_lines_have_no_linebreak_witness :
  outcome_of (load_log Scenario.st_break) = Ok ["7"; "8"]
  /\ no_linebreak (py_str (id Scenario.p_break)) = false
  /\ Forall (fun i => no_linebreak i = true) ["7"; "8"]
  /\ mem (py_str (id Scenario.p_break)) ["7"; "8"] = false.
Proof.
  destruct (load_log_lines_have_no_linebreak Scenario.st_break ["7"; "8"] Scenario.p_break
              eq_refl) as [Hall Hmem].
  split; [reflexivity|]. split; [reflexivity|]. split; [exact Hall|].
  exact (Hmem eq_refl).
Defined.

(** X3: whether a cycle returns or raises, the log it leaves is the log it
    found followed by the ids it wrote, one per line and in the order of the
    writes, and the blocklist file is the one it found: [run_bot] never
    removes or rewrites a line of the store. *)
Theorem run_bot_store_append_only {W : Type} (env : Env W)
    (domain username password : string) (st : St W) :
  log_text (files (state_of (run_bot env domain username password st)))
    = log_text (files st)
      ++ lines_text (logged_ids (trace_of (run_bot env domain username password st)))
  /\ blocklist_file (files (state_of (run_bot env domain username password st)))
     = blocklist_file (files st).
Proof. exact (appends_run_bot env domain username password st). Qed.

(** X4: from a store that is missing, empty or ends with a newline, a cycle
    keeps every id the store held, and every id it wrote that has no line
    boundary character is in the store it leaves; in the next cycle, from
    the files the first one left and any state of the outside world, no
    fetch, scrape, summarize or render event concerns a post with such an
    id. *)
Theorem next_cycle_skips_written_ids {W : Type} (env : Env W)
    (domain username password : string) (st : St W) :
  terminated (log_text (files st)) ->
  incl (stored_ids (files st))
       (stored_ids (files (state_of (run_bot env domain username password st))))
  /\ (forall i : string,
        In i (logged_ids (trace_of (run_bot env domain username password st))) ->
        no_linebreak i = true ->
        In i (stored_ids (files (state_of (run_bot env domain username password st)))))
  /\ (forall (w2 : W) (p : Post) (e : Event),
        In (py_str (id p)) (stored_ids (files st))
        \/ In (py_str (id p)) (logged_ids (trace_of (run_bot env domain username password st))) ->
        no_linebreak (py_str (id p)) = true ->
        In e (trace_of (run_bot env domain username password
                          (mkSt w2 (files (state_of (run_bot env domain username password
                                                       st)))))) ->
        stage_post e <> Some p).
Proof.
  intros Hterm.
  destruct (appends_run_bot env domain username password st) as [Htext _].
  assert (Hstored :
            stored_ids (files (state_of (run_bot env domain username password st)))
            = (stored_ids (files st)
               ++ PyStr.splitlines
                    (lines_text (logged_ids (trace_of (run_bot env domain username password
                                                          st)))))%list).
  { rewrite !stored_ids_log_text, Htext. apply splitlines_terminated. exact Hterm. }
  assert (Hkeep : incl (stored_ids (files st))
                       (stored_ids (files (state_of (run_bot env domain username password st))))).
  { rewrite Hstored. apply incl_appl. apply incl_refl. }
  assert (Hnew : forall i : string,
             In i (logged_ids (trace_of (run_bot env domain username password st))) ->
             no_linebreak i = true ->
             In i (stored_ids (files (state_of (run_bot env domain username password st))))).
  { intros i Hin Hi. rewrite Hstored. apply in_or_app. right.
    apply In_splitlines_lines_text; assumption. }
  split; [exact Hkeep|]. split; [exact Hnew|].
  intros w2 p e Hid Hclean He Hs.
  assert (Hin : In (py_str (id p))
                   (stored_ids (files (state_of (run_bot env domain username password st))))).
  { destruct Hid as [Hold | Hwritten]; [apply Hkeep; exact Hold | apply Hnew; assumption]. }
  apply mem_In in Hin.
  pose proof (run_bot_events env domain username password
                (mkSt w2 (files (state_of (run_bot env domain username password st)))))
    as Hall.
  rewrite Forall_forall in Hall. specialize (Hall e He).
  destruct e; cbn in Hs; try discriminate; injection Hs as ->;
    cbn in Hall; destruct Hall as [Hm _]; congruence.
Qed.

Lemma next_cycle_skips_written_ids_witness :
  terminated (log_text (files Demo.st1))
  /\ In "p1" (logged_ids (trace_of (run_bot Demo.env75 "lemmy.test" "bot" "secret" Demo.st1)))
  /\ In "p1" (stored_ids (files (state_of (run_bot Demo.env75 "lemmy.test" "bot" "secret"
                                             Demo.st1))))
  /\ (forall e : Event,
        In e (trace_of (run_bot Demo.env75 "lemmy.test" "bot" "secret"
                          (mkSt 100%nat
                                (files (state_of (run_bot Demo.env75 "lemmy.test" "bot"
                                                    "secret" Demo.st1)))))) ->
        stage_post e <> Some Demo.p1).
Proof.
  assert (Hterm : terminated (log_text (files Demo.st1))).
  { right. exists "5". reflexivity. }
  assert (Hin : In "p1" (logged_ids (trace_of (run_bot Demo.env75 "lemmy.test" "bot" "secret"
                                                  Demo.st1)))).
  { vm_compute. left. reflexivity. }
  destruct (next_cycle_skips_written_ids Demo.env75 "lemmy.test" "bot" "secret" Demo.st1 Hterm)
    as (_ & Hnew & Hskip).
  split; [exact Hterm|]. split; [exact Hin|].
  split; [exact (Hnew "p1" Hin eq_refl)|].
  intros e He. exact (Hskip 100%nat Demo.p1 e (or_intror Hin) eq_refl He).
Defined.

(** ** More on [safe_api_call] *)

Section RetryShape.

Context {W R : Type} `{Truthy R}.
Variable op : RemoteOp W R.

(** An invocation that raises ends the loop with that exception. *)
Lemma retry_loop_raises (retries : Z) (st : St W) (e : exn) (w' : W) :
  op_run op (world st) = (Raise e, w') ->
  retry_loop op retries st = (Raise e, mkSt w' (files st), [EvCall (op_call op)]).
Proof.
  intros Hrun. rewrite (retry_loop_equation_1 _ _ _ op retries).
  apply bind_raise. apply invoke_run. exact Hrun.
Qed.

Lemma safe_api_call_raises_after (n : nat) (st : St W) (w1 w2 : W) (e : exn) :
  (n <= 9)%nat ->
  falsy_run op n (world st) w1 ->
  op_run op w1 = (Raise e, w2) ->
  safe_api_call op st =
    (Raise e, mkSt w2 (files st),
     (failed_attempts (op_call op) 1 (1 + Z.of_nat n) ++ [EvCall (op_call op)])%list).
Proof.
  intros Hn Hrun Hlast. unfold safe_api_call, bind.
  destruct st as [w fs]. cbn [world files] in *.
  rewrite (retry_loop_falsy_run op n w w1 Hrun 1 fs) by lia.
  rewrite (retry_loop_raises (1 + Z.of_nat n) (mkSt w1 fs) e w2 Hlast).
  reflexivity.
Qed.

(** Whatever the operation does, the loop is some failed attempts followed
    by one last invocation; when it returns, the response is truthy or the
    counter has reached the ceiling. *)
Lemma retry_loop_shape (k : nat) :
  forall (retries : Z) (st : St W),
    iterations_left retries = k ->
    exists j : nat,
      (j <= k)%nat
      /\ trace_of (retry_loop op retries st)
         = (failed_attempts (op_call op) retries (retries + Z.of_nat j)
            ++ [EvCall (op_call op)])%list
      /\ (forall (r : R) (final : Z),
            outcome_of (retry_loop op retries st) = Ok (r, final) ->
            final = retries + Z.of_nat j /\ (truthy r = true \/ 10 <= final)).
Proof.
  induction k as [| k IH]; intros retries st Hk;
    destruct (op_run op (world st)) as [[r|e] w'] eqn:Hrun.
  - exists 0%nat. split; [lia|].
    rewrite (retry_loop_equation_1 _ _ _ op retries).
    rewrite (bind_ok _ _ _ _ _ _ (invoke_run op st _ _ Hrun)).
    unfold failed_attempts. rewrite py_range_nil by lia.
    destruct (truthy r) eqn:Ht.
    + split; [reflexivity|]. intros r0 final Hout. injection Hout as <- <-.
      split; [lia | left; exact Ht].
    + destruct (Z_lt_dec retries 10) as [Hlt|Hge];
        [unfold iterations_left in Hk; lia|].
      split; [reflexivity|]. intros r0 final Hout. injection Hout as <- <-.
      split; [lia | right; lia].
  - exists 0%nat. split; [lia|].
    rewrite (retry_loop_raises retries st e w' Hrun).
    unfold failed_attempts. rewrite py_range_nil by lia.
    split; [reflexivity | intros r0 final Hout; discriminate Hout].
  - destruct (truthy r) eqn:Ht.
    + exists 0%nat. split; [lia|].
      rewrite (retry_loop_truthy op retries st r w' Hrun Ht).
      unfold failed_attempts. rewrite py_range_nil by lia.
      split; [reflexivity|]. intros r0 final Hout. injection Hout as <- <-.
      split; [lia | left; exact Ht].
    + assert (Hlt : retries < 10) by (unfold iterations_left in Hk; lia).
      rewrite (retry_loop_falsy op retries st r w' Hrun Ht Hlt).
      destruct (IH (retries + 1) (mkSt w' (files st))) as (j & Hj & Htrace & Hout).
      { unfold iterations_left in *. lia. }
      destruct (retry_loop op (retries + 1) (mkSt w' (files st))) as [[res st2] t2].
      cbn [trace_of outcome_of fst snd] in *.
      exists (S j). split; [lia|]. split.
      * rewrite Htrace. unfold failed_attempts at 2.
        rewrite (py_range_cons retries) by lia. cbn [flat_map].
        replace (retries + Z.of_nat (S j)) with (retries + 1 + Z.of_nat j) by lia.
        rewrite <- !app_assoc. reflexivity.
      * intros r0 final Hres. destruct (Hout r0 final Hres) as [-> Hor].
        split; [lia | exact Hor].
  - exists 0%nat. split; [lia|].
    rewrite (retry_loop_raises retries st e w' Hrun).
    unfold failed_attempts. rewrite py_range_nil by lia.
    split; [reflexivity | intros r0 final Hout; discriminate Hout].
Qed.

Lemma safe_api_call_shape (st : St W) :
  exists j : nat,
    (j <= 9)%nat
    /\ trace_of (safe_api_call op st)
       = (failed_attempts (op_call op) 1 (1 + Z.of_nat j) ++ [EvCall (op_call op)])%list
    /\ (forall r : R,
          outcome_of (safe_api_call op st) = Ok r -> truthy r = true /\ (j <= 8)%nat).
Proof.
  destruct (retry_loop_shape 9 1 st eq_refl) as (j & Hj & Htrace & Hout).
  exists j. split; [exact Hj|].
  unfold safe_api_call, bind.
  destruct (retry_loop op 1 st) as [[[[r final]|e] st1] t1];
    cbn [trace_of outcome_of fst snd] in *.
  - destruct (Hout r final eq_refl) as [-> Hor].
    destruct (1 + Z.of_nat j >=? 10) eqn:Hge; unfold raise, ret;
      cbn [trace_of outcome_of fst snd]; rewrite app_nil_r.
    + split; [exact Htrace | intros r0 Hr; discriminate Hr].
    + split; [exact Htrace|]. intros r0 Hr. injection Hr as <-.
      split; [|lia]. destruct Hor as [Ht | Hceil]; [exact Ht | lia].
  - split; [exact Htrace | intros r0 Hr; discriminate Hr].
Qed.

End RetryShape.

Lemma waits_bounds (j : nat) :
  (j <= 9)%nat ->
  length (waits j) = j
  /\ fold_right Z.add 0 (waits j) <= 270
  /\ Forall (fun s => 10 <= s <= 50) (waits j).
Proof.
  intros Hj.
  do 10 (destruct j as [| j];
         [vm_compute; split; [reflexivity|]; split; [discriminate|];
          repeat constructor; discriminate|]).
  lia.
Qed.

Lemma sleeps_attempts (c : ApiCall) (j : nat) :
  sleeps (failed_attempts c 1 (1 + Z.of_nat j) ++ [EvCall c]) = waits j
  /\ calls (failed_attempts c 1 (1 + Z.of_nat j) ++ [EvCall c]) = repeat c (S j).
Proof.
  rewrite sleeps_app, calls_app, sleeps_failed_attempts, calls_failed_attempts.
  replace (Z.to_nat (1 + Z.of_nat j - 1)) with j by lia.
  split; [apply app_nil_r|].
  cbn [calls flat_map app]. clear. induction j as [| j IH]; [reflexivity|].
  cbn [repeat app]. f_equal. exact IH.
Qed.

(** X5: if the operation returns falsy results on its first [n] invocations,
    [n] being at most 8, and a truthy one on the next, [safe_api_call]
    returns that response after [n + 1] invocations and the [n] waits of
    10, 15, ... seconds; a response that is truthy at once is returned without
    any wait or warning. *)
Theorem safe_api_call_returns_first_truthy {W R : Type} `{Truthy R}
    (op : RemoteOp W R) (n : nat) (st : St W) (w1 w2 : W) (r : R) :
  (n < 9)%nat ->
  falsy_run op n (world st) w1 ->
  op_run op w1 = (Ok r, w2) ->
  truthy r = true ->
  exists t : list Event,
    safe_api_call op st = (Ok r, mkSt w2 (files st), t)
    /\ calls t = repeat (op_call op) (S n)
    /\ sleeps t = waits n
    /\ (n = 0%nat -> t = [EvCall (op_call op)]).
Proof.
  intros Hn Hrun Hlast Ht.
  exists (failed_attempts (op_call op) 1 (1 + Z.of_nat n) ++ [EvCall (op_call op)])%list.
  split; [exact (safe_api_call_success op n st w1 w2 r Hn Hrun Hlast Ht)|].
  destruct (sleeps_attempts (op_call op) n) as [Hs Hc].
  split; [exact Hc|]. split; [exact Hs|].
  intros ->. reflexivity.
Qed.

Lemma safe_api_call_returns_first_truthy_witness :
  (3 < 9)%nat
  /\ falsy_run (Demo.login_from 3) 3 (world Demo.st0) 3%nat
  /\ op_run (Demo.login_from 3) 3%nat = (Ok true, 4%nat)
  /\ truthy true = true
  /\ exists t : list Event,
       safe_api_call (Demo.login_from 3) Demo.st0 = (Ok true, mkSt 4%nat (files Demo.st0), t)
       /\ calls t = repeat (op_call (Demo.login_from 3)) 4
       /\ sleeps t = [10; 15; 20].
Proof.
  assert (Hrun : falsy_run (Demo.login_from 3) 3 (world Demo.st0) 3%nat).
  { repeat (eapply falsy_run_S; [reflexivity | reflexivity |]). apply falsy_run_O. }
  assert (Hn : (3 < 9)%nat) by lia.
  split; [exact Hn|]. split; [exact Hrun|]. split; [reflexivity|]. split; [reflexivity|].
  destruct (safe_api_call_returns_first_truthy (Demo.login_from 3) 3 Demo.st0 3%nat 4%nat true
              Hn Hrun eq_refl eq_refl) as (t & Hcall & Hc & Hs & _).
  exists t. split; [exact Hcall|]. split; [exact Hc | exact Hs].
Defined.

(** X6: an exception raised by the operation is not retried: after [n] falsy
    results, [n] being at most 9, an invocation that raises makes
    [safe_api_call] raise that same exception at once, not the RuntimeError
    of the exhausted retries, without a further wait. *)
Theorem safe_api_call_exception_not_retried {W R : Type} `{Truthy R}
    (op : RemoteOp W R) (n : nat) (st : St W) (w1 w2 : W) (e : exn) :
  (n <= 9)%nat ->
  falsy_run op n (world st) w1 ->
  op_run op w1 = (Raise e, w2) ->
  exists t : list Event,
    safe_api_call op st = (Raise e, mkSt w2 (files st), t)
    /\ calls t = repeat (op_call op) (S n)
    /\ sleeps t = waits n.
Proof.
  intros Hn Hrun Hlast.
  exists (failed_attempts (op_call op) 1 (1 + Z.of_nat n) ++ [EvCall (op_call op)])%list.
  split; [exact (safe_api_call_raises_after op n st w1 w2 e Hn Hrun Hlast)|].
  destruct (sleeps_attempts (op_call op) n) as [Hs Hc].
  split; [exact Hc | exact Hs].
Qed.

Lemma safe_api_call_exception_not_retried_witness :
  (2 <= 9)%nat
  /\ falsy_run (Scenario.login_breaks_at 2) 2 (world Demo.st0) 2%nat
  /\ op_run (Scenario.login_breaks_at 2) 2%nat
     = (Raise (ExternalError "ConnectionError"), 3%nat)
  /\ exists t : list Event,
       safe_api_call (Scenario.login_breaks_at 2) Demo.st0
         = (Raise (ExternalError "ConnectionError"), mkSt 3%nat (files Demo.st0), t)
       /\ calls t = repeat (op_call (Scenario.login_breaks_at 2)) 3
       /\ sleeps t = [10; 15].
Proof.
  assert (Hrun : falsy_run (Scenario.login_breaks_at 2) 2 (world Demo.st0) 2%nat).
  { repeat (eapply falsy_run_S; [reflexivity | reflexivity |]). apply falsy_run_O. }
  assert (Hn : (2 <= 9)%nat) by lia.
  split; [exact Hn|]. split; [exact Hrun|]. split; [reflexivity|].
  exact (safe_api_call_exception_not_retried (Scenario.login_breaks_at 2) 2 Demo.st0
           2%nat 3%nat (ExternalError "ConnectionError") Hn Hrun eq_refl).
Defined.

(** X7: whatever the operation does, [safe_api_call] invokes it at least
    once and at most ten times, and its trace is the failed attempts followed
    by one last invocation; the waits are the first ones of 10, 15, ..., 50
    seconds, at most nine of them, 270 seconds at most in all. *)
Theorem safe_api_call_bounded {W R : Type} `{Truthy R} (op : RemoteOp W R) (st : St W) :
  exists j : nat,
    (j <= 9)%nat
    /\ trace_of (safe_api_call op st)
       = (failed_attempts (op_call op) 1 (1 + Z.of_nat j) ++ [EvCall (op_call op)])%list
    /\ calls (trace_of (safe_api_call op st)) = repeat (op_call op) (S j)
    /\ sleeps (trace_of (safe_api_call op st)) = waits j
    /\ length (sleeps (trace_of (safe_api_call op st))) = j
    /\ fold_right Z.add 0 (sleeps (trace_of (safe_api_call op st))) <= 270
    /\ Forall (fun s => 10 <= s <= 50) (sleeps (trace_of (safe_api_call op st))).
Proof.
  destruct (safe_api_call_shape op st) as (j & Hj & Htrace & _).
  exists j. split; [exact Hj|]. split; [exact Htrace|].
  rewrite Htrace. destruct (sleeps_attempts (op_call op) j) as [-> ->].
  split; [reflexivity|]. split; [reflexivity|].
  exact (waits_bounds j Hj).
Qed.

(** X8: [safe_api_call] returns only truthy responses: when it returns, the
    response is one the operation gave on one of its first nine invocations
    and it is truthy; a falsy response is never handed to the caller. *)
Theorem safe_api_call_returns_truthy {W R : Type} `{Truthy R}
    (op : RemoteOp W R) (st : St W) (r : R) :
  outcome_of (safe_api_call op st) = Ok r ->
  truthy r = true
  /\ exists j : nat,
       (j <= 8)%nat /\ calls (trace_of (safe_api_call op st)) = repeat (op_call op) (S j).
Proof.
  intros Hout.
  destruct (safe_api_call_shape op st) as (j & _ & Htrace & Htruthy).
  destruct (Htruthy r Hout) as [Ht Hj].
  split; [exact Ht|].
  exists j. split; [exact Hj|].
  rewrite Htrace. apply sleeps_attempts.
Qed.

Lemma safe_api_call_returns_truthy_witness :
  outcome_of (safe_api_call (Demo.login_from 3) Demo.st0) = Ok true
  /\ truthy true = true
  /\ exists j : nat,
       (j <= 8)%nat
       /\ calls (trace_of (safe_api_call (Demo.login_from 3) Demo.st0))
          = repeat (op_call (Demo.login_from 3)) (S j).
Proof.
  split; [reflexivity|].
  exact (safe_api_call_returns_truthy (Demo.login_from 3) Demo.st0 true eq_refl).
Defined.

(** ** More on [get_posts_deep] *)

Section PagesMore.

Context {W : Type}.
Variable env : Env W.
Variables (instance : string) (community_id : option Z) (community_name : option string)
          (saved_only : option bool) (sort : option SortType) (type_ : option ListingType).

(** Once the first pages are obtained the loop goes on with the others. *)
Lemma pages_loop_app (pre more : list Z) (st st1 : St W)
    (rs : list (list FeedEntry)) (t1 : list Event) :
  fetched env instance community_id community_name sort type_ pre st rs st1 t1 ->
  forall posts : list Post,
    pages_loop env instance community_id community_name saved_only sort type_
      (pre ++ more) posts st
    = (let '(r, st2, t2) :=
         pages_loop env instance community_id community_name saved_only sort type_
           more (posts ++ flat_map (keep_entries saved_only) rs)%list st1 in
       (r, st2, (t1 ++ t2)%list)).
Proof.
  induction 1 as [st | i rest st st1 st2 r rs t1 t2 Hcall Hrest IH]; intros posts.
  - cbn [app flat_map]. rewrite app_nil_r.
    destruct (pages_loop _ _ _ _ _ _ _ more posts st) as [[res st2] t2]. reflexivity.
  - cbn [app pages_loop flat_map]. rewrite (bind_ok _ _ _ _ _ _ Hcall), IH.
    rewrite <- app_assoc.
    destruct (pages_loop _ _ _ _ _ _ _ more _ st2) as [[res st3] t3].
    rewrite <- app_assoc. reflexivity.
Qed.

(** Every response that was obtained is a page with at least one entry. *)
Lemma fetched_nonempty (pages : list Z) (st st' : St W)
    (rs : list (list FeedEntry)) (t : list Event) :
  fetched env instance community_id community_name sort type_ pages st rs st' t ->
  Forall (fun r => r <> []) rs.
Proof.
  induction 1 as [st | i rest st st1 st2 r rs t1 t2 Hcall Hrest IH]; constructor; [|exact IH].
  destruct (safe_api_call_shape
              (post_list_op env instance community_id community_name sort type_ i) st)
    as (j & _ & _ & Htruthy).
  rewrite Hcall in Htruthy. destruct (Htruthy r eq_refl) as [Ht _].
  intros ->. discriminate Ht.
Qed.

(** The pages asked for while some pages are obtained are among those
    pages. *)
Lemma fetched_pages_among (pages : list Z) (st st' : St W)
    (rs : list (list FeedEntry)) (t : list Event) :
  fetched env instance community_id community_name sort type_ pages st rs st' t ->
  forall pg : Z, In pg (pages_called t) -> In pg pages.
Proof.
  induction 1 as [st | i rest st st1 st2 r rs t1 t2 Hcall Hrest IH]; intros pg Hin;
    [contradiction|].
  rewrite pages_called_app in Hin. apply in_app_or in Hin. destruct Hin as [Hin | Hin].
  - destruct (safe_api_call_calls
                (post_list_op env instance community_id community_name sort type_ i) st)
      as (n & _ & Hcalls).
    rewrite Hcall in Hcalls. cbn [snd] in Hcalls.
    unfold pages_called in Hin. rewrite Hcalls in Hin.
    cbn [post_list_op op_call] in Hin. rewrite flat_map_page_of_repeat in Hin.
    apply repeat_spec in Hin. left. congruence.
  - right. exact (IH pg Hin).
Qed.

End PagesMore.

(** X9: if the pages before page [i] are obtained and [safe_api_call] raises
    on page [i], [get_posts_deep] raises that error: the posts of the pages
    already obtained are not returned, and no page after [i] is asked
    for. *)
Theorem get_posts_deep_fatal_page {W : Type} (env : Env W) (instance : string)
    (community_id : option Z) (community_name : option string)
    (saved_only : option bool) (sort : option SortType) (type_ : option ListingType)
    (pre : list Z) (i : Z) (rest : list Z) (st st1 st2 : St W)
    (rs : list (list FeedEntry)) (t1 t2 : list Event) (e : exn) :
  [1; 2; 3; 4; 5] = (pre ++ i :: rest)%list ->
  fetched env instance community_id community_name sort type_ pre st rs st1 t1 ->
  safe_api_call (post_list_op env instance community_id community_name sort type_ i) st1
    = (Raise e, st2, t2) ->
  get_posts_deep env instance community_id community_name saved_only sort type_ st
    = (Raise e, st2, (t1 ++ t2)%list)
  /\ (forall pg : Z, In pg (pages_called (t1 ++ t2)) -> In pg (pre ++ [i])%list)
  /\ (forall pg : Z, In pg (pages_called (t1 ++ t2)) -> ~ In pg rest).
Proof.
  intros Hpages Hpre Hfail.
  assert (Hrun : get_posts_deep env instance community_id community_name saved_only
                   sort type_ st = (Raise e, st2, (t1 ++ t2)%list)).
  { unfold get_posts_deep. change (py_range 1 6) with [1; 2; 3; 4; 5]. rewrite Hpages.
    rewrite (pages_loop_app env _ _ _ saved_only _ _ pre (i :: rest) _ _ _ _ Hpre).
    rewrite (pages_loop_fatal env _ _ _ saved_only _ _ i rest _ st1 st2 e t2 Hfail).
    reflexivity. }
  assert (Hamong : forall pg : Z, In pg (pages_called (t1 ++ t2)) -> In pg (pre ++ [i])%list).
  { intros pg Hin. rewrite pages_called_app in Hin. apply in_or_app.
    apply in_app_or in Hin. destruct Hin as [Hin | Hin].
    - left. exact (fetched_pages_among env _ _ _ _ _ _ _ _ _ _ Hpre pg Hin).
    - right. destruct (safe_api_call_calls
                         (post_list_op env instance community_id community_name sort type_ i)
                         st1) as (n & _ & Hcalls).
      rewrite Hfail in Hcalls. cbn [snd] in Hcalls.
      unfold pages_called in Hin. rewrite Hcalls in Hin.
      cbn [post_list_op op_call] in Hin. rewrite flat_map_page_of_repeat in Hin.
      apply repeat_spec in Hin. left. congruence. }
  split; [exact Hrun|]. split; [exact Hamong|].
  intros pg Hin Hrest. specialize (Hamong pg Hin).
  assert (Hnodup : NoDup [1; 2; 3; 4; 5]).
  { repeat constructor; cbn; intros Hx; repeat destruct Hx as [Hx | Hx]; try discriminate Hx;
      exact Hx. }
  rewrite Hpages in Hnodup.
  replace (pre ++ i :: rest)%list with ((pre ++ [i]) ++ rest)%list in Hnodup
    by (rewrite <- app_assoc; reflexivity).
  clear -Hamong Hrest Hnodup. induction (pre ++ [i])%list as [| x xs IH]; [contradiction|].
  cbn [app] in Hnodup. inversion Hnodup as [| ? ? Hnot Hnd]; subst.
  destruct Hamong as [-> | Hin].
  - apply Hnot. apply in_or_app. right. exact Hrest.
  - exact (IH Hin Hnd).
Qed.

Lemma get_posts_deep_fatal_page_witness :
  exists (st1 st2 : St nat) (rs : list (list FeedEntry)) (t1 t2 : list Event),
    [1; 2; 3; 4; 5] = ([1; 2] ++ 3 :: [4; 5])%list
    /\ fetched Scenario.env_short_feed "lemmy.test" None None (Some New) (Some Local)
               [1; 2] Demo.st1 rs st1 t1
    /\ safe_api_call (post_list_op Scenario.env_short_feed "lemmy.test" None None
                                   (Some New) (Some Local) 3) st1
       = (Raise (RuntimeError "Failed to invoke Lemmy API"), st2, t2)
    /\ get_posts_deep Scenario.env_short_feed "lemmy.test" None None None
                      (Some New) (Some Local) Demo.st1
       = (Raise (RuntimeError "Failed to invoke Lemmy API"), st2, (t1 ++ t2)%list)
    /\ (forall pg : Z, In pg (pages_called (t1 ++ t2)) -> ~ In pg [4; 5]).
Proof.
  eexists. eexists. eexists. eexists. eexists.
  assert (Hpre : fetched Scenario.env_short_feed "lemmy.test" None None (Some New) (Some Local)
                   [1; 2] Demo.st1 (map Scenario.short_feed [1; 2]) (mkSt 2%nat Demo.files1)
                   ([EvCall (CallPostList None None (Some New) (Some Local) 1)]
                    ++ [EvCall (CallPostList None None (Some New) (Some Local) 2)]
                    ++ [])%list).
  { repeat (eapply fetched_cons; [vm_compute; reflexivity |]). apply fetched_nil. }
  assert (Hfail : safe_api_call (post_list_op Scenario.env_short_feed "lemmy.test" None None
                                              (Some New) (Some Local) 3)
                                (mkSt 2%nat Demo.files1)
                  = (Raise (RuntimeError "Failed to invoke Lemmy API"),
                     mkSt 12%nat Demo.files1,
                     (failed_attempts (CallPostList None None (Some New) (Some Local) 3) 1 10
                      ++ [EvCall (CallPostList None None (Some New) (Some Local) 3)])%list)).
  { vm_compute. reflexivity. }
  destruct (get_posts_deep_fatal_page Scenario.env_short_feed "lemmy.test" None None None
              (Some New) (Some Local) [1; 2] 3 [4; 5] Demo.st1 _ _ _ _ _ _
              eq_refl Hpre Hfail) as (Hrun & _ & Hnever).
  split; [reflexivity|]. split; [exact Hpre|]. split; [exact Hfail|].
  split; [exact Hrun | exact Hnever].
Defined.

(** X10: [get_posts_deep] returns only when all five pages were obtained,
    each through [safe_api_call] and each with at least one entry; what it
    returns is then the filtered concatenation of those five pages. *)
Theorem get_posts_deep_returns_five_pages {W : Type} (env : Env W) (instance : string)
    (community_id : option Z) (community_name : option string)
    (saved_only : option bool) (sort : option SortType) (type_ : option ListingType)
    (st st' : St W) (posts : list Post) (t : list Event) :
  get_posts_deep env instance community_id community_name saved_only sort type_ st
    = (Ok posts, st', t) ->
  exists rs : list (list FeedEntry),
    fetched env instance community_id community_name sort type_ [1; 2; 3; 4; 5] st rs st' t
    /\ length rs = 5%nat
    /\ Forall (fun r => r <> []) rs
    /\ posts = map post (filter (kept saved_only) (concat rs)).
Proof.
  intros Hrun. unfold get_posts_deep in Hrun. change (py_range 1 6) with [1; 2; 3; 4; 5] in Hrun.
  destruct (pages_loop_returns env _ _ _ saved_only _ _ _ _ _ _ _ _ Hrun) as (rs & Hf & ->).
  exists rs. split; [exact Hf|].
  split; [exact (fetched_length env _ _ _ _ _ _ _ _ _ _ Hf)|].
  split; [exact (fetched_nonempty env _ _ _ _ _ _ _ _ _ _ Hf)|].
  cbn [app]. apply flat_map_keep_entries.
Qed.

Lemma get_posts_deep_returns_five_pages_witness :
  exists (st' : St nat) (posts : list Post) (t : list Event),
    get_posts_deep Demo.env75 "lemmy.test" None None None (Some New) (Some Local) Demo.st1
      = (Ok posts, st', t)
    /\ exists rs : list (list FeedEntry),
         fetched Demo.env75 "lemmy.test" None None (Some New) (Some Local)
                 [1; 2; 3; 4; 5] Demo.st1 rs st' t
         /\ length rs = 5%nat
         /\ Forall (fun r => r <> []) rs
         /\ posts = map post (filter (kept None) (concat rs)).
Proof.
  eexists. eexists. eexists.
  assert (Hrun : get_posts_deep Demo.env75 "lemmy.test" None None None (Some New) (Some Local)
                   Demo.st1
                 = (Ok [Demo.p1; Demo.p2; Demo.p3; Demo.p4; Demo.p5;
                        Demo.text_post 102; Demo.text_post 103; Demo.text_post 104;
                        Demo.text_post 105],
                    mkSt 5%nat Demo.files1,
                    map (fun i => EvCall (CallPostList None None (Some New) (Some Local) i))
                        [1; 2; 3; 4; 5])).
  { vm_compute. reflexivity. }
  split; [exact Hrun|].
  exact (get_posts_deep_returns_five_pages Demo.env75 "lemmy.test" None None None
           (Some New) (Some Local) _ _ _ _ Hrun).
Defined.

(** ** More on the loop body *)

(** The projections of a trace made of explicit events and of parts whose
    projections are known. *)
Ltac trace_projections :=
  unfold fetched_urls, logged_ids, rendered, calls, sleeps in *;
  cbn [flat_map app]; rewrite ?flat_map_app; cbn [flat_map app];
  repeat match goal with
         | Hx : flat_map _ _ = _ |- _ => rewrite Hx
         end;
  cbn [app length]; try reflexivity; try lia.

Section Attempt.

Context {W : Type}.
Variable env : Env W.

(** The [try] block, whatever the web, the scraper and the summarizer do: it
    makes one GET; then it raises, or it meets a media type, writes the id
    and asks for the next post, or it hands over a summary. *)
Lemma fetch_and_summarize_outcomes (p : Post) (post_id clean_url : string) (st : St W) :
  exists (w' : W) (stages : list Event),
    fetched_urls stages = [] /\ logged_ids stages = [] /\ rendered stages = []
    /\ calls stages = [] /\ sleeps stages = []
    /\ ((exists e : exn,
           fetch_and_summarize env p post_id clean_url st
           = (Raise e, mkSt w' (files st), EvGet p clean_url :: stages))
        \/ fetch_and_summarize env p post_id clean_url st
           = (Ok None, mkSt w' (append_line post_id (files st)),
              (EvGet p clean_url :: stages ++ [EvUpdateLog post_id])%list)
        \/ (exists (found : string * string * SummaryResult),
              fetch_and_summarize env p post_id clean_url st
              = (Ok (Some found), mkSt w' (files st), EvGet p clean_url :: stages))).
Proof.
  unfold fetch_and_summarize, bind, emit, external, lift.
  destruct (requests_get env clean_url (world st)) as [[response|e] w']; cbn [world files].
  - destruct (content_type response) as [ct|].
    + destruct (mem ct MEDIA_TYPES).
      * exists w', [EvLog INFO (MsgBlockContentType ct)].
        repeat (split; [reflexivity|]). right. left. reflexivity.
      * cbv zeta.
        destruct (scrape_html env (text env (correct_encoding env response)))
          as [[[title date] body]|e].
        -- destruct (get_summary env body) as [sd|e].
           ++ exists w', [EvScrape p (text env (correct_encoding env response));
                          EvSummarize p body].
              repeat (split; [reflexivity|]). right. right. eexists. reflexivity.
           ++ exists w', [EvScrape p (text env (correct_encoding env response));
                          EvSummarize p body].
              repeat (split; [reflexivity|]). left. eexists. reflexivity.
        -- exists w', [EvScrape p (text env (correct_encoding env response))].
           repeat (split; [reflexivity|]). left. eexists. reflexivity.
    + exists w', []. repeat (split; [reflexivity|]). left. eexists. reflexivity.
  - exists w', []. repeat (split; [reflexivity|]). left. eexists. reflexivity.
Qed.

(** The gate and the rendering, whatever the summary and the template are:
    one write and at most one comment when they return, nothing when they
    raise. *)
Lemma gate_and_render_outcomes (p : Post) (post_id clean_url title date : string)
    (sd : SummaryResult) (st : St W) :
  exists t : list Event,
    fetched_urls t = [] /\ calls t = [] /\ sleeps t = []
    /\ ((gate_and_render env p post_id clean_url title date sd st
         = (Ok tt, mkSt (world st) (append_line post_id (files st)), t)
         /\ logged_ids t = [post_id] /\ (length (rendered t) <= 1)%nat)
        \/ (exists e : exn,
              gate_and_render env p post_id clean_url title date sd st = (Raise e, st, t)
              /\ logged_ids t = [] /\ rendered t = [])).
Proof.
  destruct (Z_le_dec 50 (reduction sd)) as [Hlo|Hlo];
    [destruct (Z_le_dec (reduction sd) 96) as [Hhi|Hhi]|].
  - rewrite gate_and_render_in_band by lia.
    destruct (format (TEMPLATE env) _) as [comment|e].
    + exists [EvRender p comment; EvLog INFO (MsgWillComment (ap_id p) comment);
              EvUpdateLog post_id].
      repeat (split; [reflexivity|]).
      left. split; [reflexivity|]. split; [reflexivity | cbn; lia].
    + exists []. repeat (split; [reflexivity|]).
      right. exists e. repeat split.
  - rewrite gate_and_render_out_of_band by lia.
    exists [EvUpdateLog post_id; EvLog INFO (MsgSkipped post_id (reduction sd))].
    repeat (split; [reflexivity|]).
    left. split; [reflexivity|]. split; [reflexivity | cbn; lia].
  - rewrite gate_and_render_out_of_band by lia.
    exists [EvUpdateLog post_id; EvLog INFO (MsgSkipped post_id (reduction sd))].
    repeat (split; [reflexivity|]).
    left. split; [reflexivity|]. split; [reflexivity | cbn; lia].
Qed.

(** An iteration that is not passed over, as the announcement, the [try]
    block with its handler, and the gate. *)
Lemma process_post_unfold (processed blocklist : list string) (p : Post) (u : string)
    (st : St W) :
  url p = Some u ->
  mem (py_str (id p)) processed = false ->
  mem (domain_key (tldextract_extract env (clean u))) blocklist = false ->
  process_post env processed blocklist p st =
    (let announce :=
       EvLog INFO (MsgSummarize (domain_key (tldextract_extract env (clean u)))
                                (clean u) (ap_id p)) in
     match try_except (fetch_and_summarize env p (py_str (id p)) (clean u))
                      (on_failure p (py_str (id p))
                                  (domain_key (tldextract_extract env (clean u)))) st with
     | (Ok None, st1, t1) => (Ok tt, st1, announce :: t1)
     | (Ok (Some (title, date, sd)), st1, t1) =>
         match gate_and_render env p (py_str (id p)) (clean u) title date sd st1 with
         | (r2, st2, t2) => (r2, st2, (announce :: t1 ++ t2)%list)
         end
     | (Raise e, st1, t1) => (Raise e, st1, announce :: t1)
     end).
Proof.
  intros Hu Hm Hb. unfold process_post. rewrite Hu, Hm. cbv zeta. rewrite Hb.
  unfold bind at 1. unfold log at 1, emit at 1. unfold bind at 1.
  destruct (try_except _ _ st) as [[[[[[title date] sd]|]|e] st1] t1].
  - destruct (gate_and_render env p (py_str (id p)) (clean u) title date sd st1)
      as [[r2 st2] t2]. reflexivity.
  - unfold ret. rewrite app_nil_r. reflexivity.
  - reflexivity.
Qed.

(** An iteration that is not passed over makes one GET at the cleaned URL,
    no remote call and no wait; it either returns, having written the id
    once and rendered at most one comment, or raises out of the rendering,
    having written and rendered nothing. *)
Lemma process_post_attempt (processed blocklist : list string) (p : Post) (u : string)
    (st : St W) :
  url p = Some u ->
  mem (py_str (id p)) processed = false ->
  mem (domain_key (tldextract_extract env (clean u))) blocklist = false ->
  exists (w' : W) (t : list Event),
    ((process_post env processed blocklist p st
        = (Ok tt, mkSt w' (append_line (py_str (id p)) (files st)), t)
      /\ logged_ids t = [py_str (id p)] /\ (length (rendered t) <= 1)%nat)
     \/ (exists e : exn,
           process_post env processed blocklist p st = (Raise e, mkSt w' (files st), t)
           /\ logged_ids t = [] /\ rendered t = []))
    /\ fetched_urls t = [clean u] /\ calls t = [] /\ sleeps t = [].
Proof.
  intros Hu Hm Hb. rewrite (process_post_unfold processed blocklist p u st Hu Hm Hb).
  cbv zeta. unfold try_except.
  destruct (fetch_and_summarize_outcomes p (py_str (id p)) (clean u) st)
    as (w' & stages & Hf & Hl & Hr & Hc & Hs & [(e & Hrun) | [Hrun | ([[title date] sd] & Hrun)]]);
    rewrite Hrun; clear Hrun.
  - unfold on_failure, update_log, bind, log, emit, get_files, put_files, ret.
    cbn [world files]. exists w'. eexists.
    split; [left; split; [reflexivity|] |]; repeat split; trace_projections.
  - exists w'. eexists.
    split; [left; split; [reflexivity|] |]; repeat split; trace_projections.
  - destruct (gate_and_render_outcomes p (py_str (id p)) (clean u) title date sd
                (mkSt w' (files st)))
      as (t & Hf' & Hc' & Hs' & [(Hrun & Hl' & Hr') | (e & Hrun & Hl' & Hr')]);
      rewrite Hrun; clear Hrun; cbn [world files]; exists w'; eexists.
    + split; [left; split; [reflexivity|] |]; repeat split; trace_projections.
    + split; [right; exists e; split; [reflexivity|] |]; repeat split; trace_projections.
Qed.

(** An iteration that is passed over does nothing but, for a blocklisted
    post, log one debug record. *)
Lemma process_post_passed_over (processed blocklist : list string) (p : Post) (st : St W) :
  (url p = None \/ mem (py_str (id p)) processed = true
   \/ blocked env blocklist p = true) ->
  exists t : list Event,
    process_post env processed blocklist p st = (Ok tt, st, t)
    /\ fetched_urls t = [] /\ logged_ids t = [] /\ rendered t = []
    /\ calls t = [] /\ sleeps t = [].
Proof.
  intros Hskip. unfold process_post, blocked in *.
  destruct (url p) as [u|]; [|exists []; repeat split].
  destruct (mem (py_str (id p)) processed); [exists []; repeat split|].
  cbv zeta. destruct (mem _ blocklist).
  - eexists. split; [reflexivity|]. repeat split.
  - destruct Hskip as [Hx | [Hx | Hx]]; discriminate Hx.
Qed.

End Attempt.

(** X11: when the GET of an unseen, not blocklisted post returns a response
    whose content type is one of the five media types (compared as whole
    strings), the iteration logs the content type, writes the id to the
    store and returns: the body is not decoded, scraped or summarized, and no
    comment is rendered. *)
Theorem media_response_skipped {W : Type} (env : Env W) (processed blocklist : list string)
    (p : Post) (u : string) (st : St W) (response : Response) (w' : W) (ct : string) :
  url p = Some u ->
  mem (py_str (id p)) processed = false ->
  mem (domain_key (tldextract_extract env (clean u))) blocklist = false ->
  requests_get env (clean u) (world st) = (Ok response, w') ->
  content_type response = Some ct ->
  In ct ["image/png"; "image/jpeg"; "image/jpg"; "image/gif"; "image/mp4"] ->
  process_post env processed blocklist p st
    = (Ok tt, mkSt w' (append_line (py_str (id p)) (files st)),
       [EvLog INFO (MsgSummarize (domain_key (tldextract_extract env (clean u)))
                                 (clean u) (ap_id p));
        EvGet p (clean u);
        EvLog INFO (MsgBlockContentType ct);
        EvUpdateLog (py_str (id p))]).
Proof.
  intros Hu Hm Hb Hget Hct Hmedia.
  rewrite (process_post_unfold env processed blocklist p u st Hu Hm Hb).
  cbv zeta. unfold try_except.
  assert (Hrun : fetch_and_summarize env p (py_str (id p)) (clean u) st
                 = (Ok None, mkSt w' (append_line (py_str (id p)) (files st)),
                    [EvGet p (clean u); EvLog INFO (MsgBlockContentType ct);
                     EvUpdateLog (py_str (id p))])).
  { unfold fetch_and_summarize, bind, emit, external, lift. rewrite Hget, Hct.
    cbn [world files]. apply (mem_In ct MEDIA_TYPES) in Hmedia. rewrite Hmedia.
    reflexivity. }
  rewrite Hrun. reflexivity.
Qed.

Lemma media_response_skipped_witness :
  url Demo.p4 = Some "http://example.com/logo.png"
  /\ mem (py_str (id Demo.p4)) ["5"] = false
  /\ mem (domain_key (tldextract_extract Demo.env75 (clean "http://example.com/logo.png")))
         ["imgur.com"; "giphy.com"] = false
  /\ requests_get Demo.env75 (clean "http://example.com/logo.png") (world Demo.st1)
     = (Ok (mkResponse (Some "image/png") None []), 1%nat)
  /\ In "image/png" ["image/png"; "image/jpeg"; "image/jpg"; "image/gif"; "image/mp4"]
  /\ process_post Demo.env75 ["5"] ["imgur.com"; "giphy.com"] Demo.p4 Demo.st1
     = (Ok tt, mkSt 1%nat (append_line "4" Demo.files1),
        [EvLog INFO (MsgSummarize "example.com" "http://example.com/logo.png"
                                  "https://lemmy.test/post/4");
         EvGet Demo.p4 "http://example.com/logo.png";
         EvLog INFO (MsgBlockContentType "image/png");
         EvUpdateLog "4"]).
Proof.
  assert (Hin : In "image/png" ["image/png"; "image/jpeg"; "image/jpg"; "image/gif";
                                "image/mp4"]) by (left; reflexivity).
  split; [reflexivity|]. split; [reflexivity|]. split; [reflexivity|].
  split; [reflexivity|]. split; [exact Hin|].
  exact (media_response_skipped Demo.env75 ["5"] ["imgur.com"; "giphy.com"] Demo.p4
           "http://example.com/logo.png" Demo.st1 (mkResponse (Some "image/png") None [])
           1%nat "image/png" eq_refl eq_refl eq_refl eq_refl eq_refl Hin).
Defined.

(** A content type with a parameter is not one of the media types: the
    response is decoded and handed to the scraper. *)
Example media_type_with_parameter :
  mem "image/png; charset=binary" MEDIA_TYPES = false
  /\ mem "IMAGE/PNG" MEDIA_TYPES = false.
Proof. split; reflexivity. Qed.

(** X12: whatever the collaborators do, one iteration of the loop makes at
    most one GET, renders at most one comment, writes nothing or the id of
    its post once, makes no remote call and never waits; a comment is
    rendered only in an iteration that writes the id; an iteration that
    returns has written the id exactly when it made the GET; an iteration
    that raises has made the GET and has written and rendered nothing. *)
Theorem process_post_at_most_once {W : Type} (env : Env W)
    (processed blocklist : list string) (p : Post) (st : St W) :
  (length (fetched_urls (trace_of (process_post env processed blocklist p st))) <= 1)%nat
  /\ (length (rendered (trace_of (process_post env processed blocklist p st))) <= 1)%nat
  /\ (logged_ids (trace_of (process_post env processed blocklist p st)) = []
      \/ logged_ids (trace_of (process_post env processed blocklist p st)) = [py_str (id p)])
  /\ calls (trace_of (process_post env processed blocklist p st)) = []
  /\ sleeps (trace_of (process_post env processed blocklist p st)) = []
  /\ (rendered (trace_of (process_post env processed blocklist p st)) <> [] ->
      logged_ids (trace_of (process_post env processed blocklist p st)) = [py_str (id p)])
  /\ (outcome_of (process_post env processed blocklist p st) = Ok tt ->
      (fetched_urls (trace_of (process_post env processed blocklist p st)) <> []
       <-> logged_ids (trace_of (process_post env processed blocklist p st))
           = [py_str (id p)]))
  /\ (forall e : exn,
        outcome_of (process_post env processed blocklist p st) = Raise e ->
        fetched_urls (trace_of (process_post env processed blocklist p st)) <> []
        /\ logged_ids (trace_of (process_post env processed blocklist p st)) = []
        /\ rendered (trace_of (process_post env processed blocklist p st)) = []).
Proof.
  destruct (url p) as [u|] eqn:Hu.
  - destruct (mem (py_str (id p)) processed) eqn:Hm.
    + destruct (process_post_passed_over env processed blocklist p st
                  (or_intror (or_introl Hm))) as (t & -> & Hf & Hl & Hr & Hc & Hs).
      cbn [trace_of outcome_of fst snd]. rewrite Hf, Hl, Hr, Hc, Hs.
      repeat split; auto; try (intros Hx; congruence); try discriminate.
    + destruct (mem (domain_key (tldextract_extract env (clean u))) blocklist) eqn:Hb.
      * assert (Hblocked : blocked env blocklist p = true)
          by (unfold blocked; rewrite Hu; exact Hb).
        destruct (process_post_passed_over env processed blocklist p st
                    (or_intror (or_intror Hblocked))) as (t & -> & Hf & Hl & Hr & Hc & Hs).
        cbn [trace_of outcome_of fst snd]. rewrite Hf, Hl, Hr, Hc, Hs.
        repeat split; auto; try (intros Hx; congruence); try discriminate.
      * destruct (process_post_attempt env processed blocklist p u st Hu Hm Hb)
          as (w' & t & [(-> & Hl & Hr) | (e & -> & Hl & Hr)] & Hf & Hc & Hs);
          cbn [trace_of outcome_of fst snd]; rewrite Hf, Hl, Hc, Hs.
        -- repeat split; auto; try (intros Hx; congruence); try discriminate;
             try (cbn; lia).
        -- rewrite Hr. repeat split; auto; try (intros Hx; congruence); try discriminate;
             try (cbn; lia).
  - destruct (process_post_passed_over env processed blocklist p st (or_introl Hu))
      as (t & -> & Hf & Hl & Hr & Hc & Hs).
    cbn [trace_of outcome_of fst snd]. rewrite Hf, Hl, Hr, Hc, Hs.
    repeat split; auto; try (intros Hx; congruence); try discriminate.
Qed.

(** X13: the list of processed ids is read once, when the cycle begins: a
    post that stands twice in the feed of one cycle, unseen and not
    blocklisted, is fetched twice and its id is written twice (under a
    template whose fields are among the five arguments). *)
Theorem repeated_post_processed_twice {W : Type} (env : Env W)
    (processed blocklist : list string) (p : Post) (u : string) (st : St W) :
  url p = Some u ->
  mem (py_str (id p)) processed = false ->
  mem (domain_key (tldextract_extract env (clean u))) blocklist = false ->
  template_ok (TEMPLATE env) = true ->
  outcome_of (for_each [p; p] (process_post env processed blocklist) st) = Ok tt
  /\ fetched_urls (trace_of (for_each [p; p] (process_post env processed blocklist) st))
     = [clean u; clean u]
  /\ logged_ids (trace_of (for_each [p; p] (process_post env processed blocklist) st))
     = [py_str (id p); py_str (id p)].
Proof.
  intros Hu Hm Hb Hok.
  assert (Hone : forall st0 : St W,
             exists (st1 : St W) (t : list Event),
               process_post env processed blocklist p st0 = (Ok tt, st1, t)
               /\ fetched_urls t = [clean u] /\ logged_ids t = [py_str (id p)]).
  { intros st0.
    destruct (process_post_attempt env processed blocklist p u st0 Hu Hm Hb)
      as (w' & t & [(Hrun & Hl & _) | (e & Hrun & _)] & Hf & _).
    - eexists. exists t. split; [exact Hrun|]. split; assumption.
    - pose proof (process_post_returns env processed blocklist p st0 Hok) as Hret.
      rewrite Hrun in Hret. discriminate Hret. }
  destruct (Hone st) as (st1 & t1 & Hrun1 & Hf1 & Hl1).
  destruct (Hone st1) as (st2 & t2 & Hrun2 & Hf2 & Hl2).
  rewrite (for_each_continues p [p] _ st st1 t1 Hrun1).
  rewrite (for_each_continues p [] _ st1 st2 t2 Hrun2).
  cbn [for_each ret outcome_of trace_of fst snd]. rewrite app_nil_r.
  split; [reflexivity|].
  unfold fetched_urls in *. rewrite flat_map_app, Hf1, Hf2, logged_ids_app, Hl1, Hl2.
  split; reflexivity.
Qed.

Lemma repeated_post_processed_twice_witness :
  url Demo.p1 = Some "http://amp.example.com/a"
  /\ mem (py_str (id Demo.p1)) ["5"] = false
  /\ mem (domain_key (tldextract_extract Demo.env75 (clean "http://amp.example.com/a")))
         ["imgur.com"; "giphy.com"] = false
  /\ template_ok (TEMPLATE Demo.env75) = true
  /\ outcome_of (for_each [Demo.p1; Demo.p1]
                          (process_post Demo.env75 ["5"] ["imgur.com"; "giphy.com"]) Demo.st1)
     = Ok tt
  /\ fetched_urls (trace_of (for_each [Demo.p1; Demo.p1]
                               (process_post Demo.env75 ["5"] ["imgur.com"; "giphy.com"])
                               Demo.st1))
     = ["http://example.com/a"; "http://example.com/a"]
  /\ logged_ids (trace_of (for_each [Demo.p1; Demo.p1]
                             (process_post Demo.env75 ["5"] ["imgur.com"; "giphy.com"])
                             Demo.st1))
     = ["p1"; "p1"].
Proof.
  split; [reflexivity|]. split; [reflexivity|]. split; [reflexivity|]. split; [reflexivity|].
  exact (repeated_post_processed_twice Demo.env75 ["5"] ["imgur.com"; "giphy.com"] Demo.p1
           "http://amp.example.com/a" Demo.st1 eq_refl eq_refl eq_refl eq_refl).
Defined.

(** ** A cycle that ends before the loop *)

Lemma no_post_events (t : list Event) :
  Forall (event_about (fun _ => False) (fun _ => False)) t ->
  fetched_urls t = [] /\ logged_ids t = [] /\ rendered t = [].
Proof.
  induction 1 as [| e t He _ (Hf & Hl & Hr)]; [repeat split|].
  destruct e; cbn in He; try contradiction;
    unfold fetched_urls, logged_ids, rendered in *; cbn [flat_map app];
    repeat split; assumption.
Qed.

Section Setup.

Context {W : Type}.
Variable env : Env W.

(** The cycle up to the log-in: the store is read, and created when it is
    missing; the blocklist is read. *)
Lemma run_bot_unfold (domain username password : string) (st : St W) (bl : string) :
  blocklist_file (files st) = Some bl ->
  run_bot env domain username password st =
    bind (safe_api_call (log_in_op env domain username password))
         (fun _ =>
            posts <- get_posts_deep env domain None None None (Some New) (Some Local) ;;
            log INFO (MsgLoaded (length posts)) ;;;
            for_each posts (process_post env (stored_ids (files st))
                                         (PyStr.splitlines bl)))
         (mkSt (world st) (mkFiles (Some (log_text (files st))) (Some bl))).
Proof.
  destruct st as [w [pl b]]. cbn [files blocklist_file]. intros ->.
  unfold run_bot. unfold bind at 1. unfold load_log.
  destruct pl as [text|]; cbn -[safe_api_call get_posts_deep process_post for_each];
    destruct (bind (safe_api_call _) _ _) as [[r st2] t2]; reflexivity.
Qed.

End Setup.

(** X14: a cycle whose blocklist file is missing raises FileNotFoundError
    before any remote call, article fetch or write of an id; by then a
    missing store has been created empty. *)
Theorem run_bot_missing_blocklist {W : Type} (env : Env W)
    (domain username password : string) (st : St W) :
  blocklist_file (files st) = None ->
  run_bot env domain username password st
    = (Raise (FileNotFoundError "./assets/blocklist.txt"),
       mkSt (world st) (mkFiles (Some (log_text (files st))) None),
       []).
Proof.
  destruct st as [w [[text|] bl]]; cbn [files blocklist_file]; intros ->; reflexivity.
Qed.

Lemma run_bot_missing_blocklist_witness :
  blocklist_file (files Scenario.st_no_blocklist) = None
  /\ run_bot Demo.env75 "lemmy.test" "bot" "secret" Scenario.st_no_blocklist
     = (Raise (FileNotFoundError "./assets/blocklist.txt"),
        mkSt 0%nat (mkFiles (Some "") None), []).
Proof.
  split; [reflexivity|].
  exact (run_bot_missing_blocklist Demo.env75 "lemmy.test" "bot" "secret"
           Scenario.st_no_blocklist eq_refl).
Defined.

(** X15: when the log-in never succeeds, the cycle ends in the fatal
    RuntimeError after ten log-in attempts: no feed page is asked for, no
    article is fetched, no id is written and no comment is rendered. *)
Theorem run_bot_login_fatal {W : Type} (env : Env W)
    (domain username password : string) (st : St W) (bl : string) :
  blocklist_file (files st) = Some bl ->
  always_falsy (log_in_op env domain username password) ->
  exists (w' : W) (t : list Event),
    run_bot env domain username password st
      = (Raise (RuntimeError "Failed to invoke Lemmy API"),
         mkSt w' (mkFiles (Some (log_text (files st))) (Some bl)), t)
    /\ calls t = repeat (CallLogIn username password) 10
    /\ pages_called t = []
    /\ fetched_urls t = [] /\ logged_ids t = [] /\ rendered t = [].
Proof.
  intros Hbl Hall. rewrite (run_bot_unfold env domain username password st bl Hbl).
  destruct (always_falsy_run _ 9 Hall (world st)) as (w9 & Hrun).
  destruct (Hall w9) as (r & w10 & Hlast & _).
  pose proof (safe_api_call_exhausted (log_in_op env domain username password)
                (mkSt (world st) (mkFiles (Some (log_text (files st))) (Some bl)))
                w9 w10 r Hrun Hlast) as Hcall.
  rewrite (bind_raise _ _ _ _ _ _ Hcall). cbn [files].
  exists w10. eexists. split; [reflexivity|].
  assert (Hcalls : calls (failed_attempts (CallLogIn username password) 1 10
                          ++ [EvCall (CallLogIn username password)])
                   = repeat (CallLogIn username password) 10).
  { rewrite calls_app, calls_failed_attempts. reflexivity. }
  cbn [log_in_op op_call]. split; [exact Hcalls|].
  split; [unfold pages_called; rewrite Hcalls; reflexivity|].
  apply no_post_events.
  pose proof (safe_api_call_events (fun _ => False) (fun _ => False)
                (log_in_op env domain username password)
                (mkSt (world st) (mkFiles (Some (log_text (files st))) (Some bl)))) as Hev.
  rewrite Hcall in Hev. exact Hev.
Qed.

Lemma run_bot_login_fatal_witness :
  blocklist_file (files Demo.st1) = Some ("imgur.com" ++ PyStr.NL ++ "giphy.com" ++ PyStr.NL)
  /\ always_falsy (log_in_op Scenario.env_no_login "lemmy.test" "bot" "secret")
  /\ exists (w' : nat) (t : list Event),
       run_bot Scenario.env_no_login "lemmy.test" "bot" "secret" Demo.st1
         = (Raise (RuntimeError "Failed to invoke Lemmy API"),
            mkSt w' (mkFiles (Some (log_text (files Demo.st1)))
                             (Some ("imgur.com" ++ PyStr.NL ++ "giphy.com" ++ PyStr.NL))), t)
       /\ calls t = repeat (CallLogIn "bot" "secret") 10
       /\ pages_called t = []
       /\ fetched_urls t = [] /\ logged_ids t = [] /\ rendered t = [].
Proof.
  assert (Hall : always_falsy (log_in_op Scenario.env_no_login "lemmy.test" "bot" "secret")).
  { intros w. exists false, (S w). split; reflexivity. }
  split; [reflexivity|]. split; [exact Hall|].
  exact (run_bot_login_fatal Scenario.env_no_login "lemmy.test" "bot" "secret" Demo.st1
           _ eq_refl Hall).
Defined.

(** X16: when the log-in succeeds and the listing of the feed raises, the
    cycle raises that error: the loop over the posts is not entered, so no
    article is fetched, no id is written and no comment is rendered, whatever
    pages were obtained before the failure. *)
Theorem run_bot_feed_fatal {W : Type} (env : Env W)
    (domain username password : string) (st st1 st2 : St W) (bl : string)
    (logged_in : bool) (t1 t2 : list Event) (e : exn) :
  blocklist_file (files st) = Some bl ->
  safe_api_call (log_in_op env domain username password)
                (mkSt (world st) (mkFiles (Some (log_text (files st))) (Some bl)))
    = (Ok logged_in, st1, t1) ->
  get_posts_deep env domain None None None (Some New) (Some Local) st1 = (Raise e, st2, t2) ->
  run_bot env domain username password st = (Raise e, st2, (t1 ++ t2)%list)
  /\ fetched_urls (t1 ++ t2) = [] /\ logged_ids (t1 ++ t2) = [] /\ rendered (t1 ++ t2) = []
  /\ log_text (files st2) = log_text (files st).
Proof.
  intros Hbl Hlogin Hfeed. rewrite (run_bot_unfold env domain username password st bl Hbl).
  rewrite (bind_ok _ _ _ _ _ _ Hlogin), (bind_raise _ _ _ _ _ _ Hfeed).
  split; [reflexivity|].
  assert (Hev : Forall (event_about (fun _ => False) (fun _ => False)) (t1 ++ t2)).
  { apply Forall_app. split.
    - pose proof (safe_api_call_events (fun _ => False) (fun _ => False)
                    (log_in_op env domain username password)
                    (mkSt (world st) (mkFiles (Some (log_text (files st))) (Some bl)))) as H1.
      rewrite Hlogin in H1. exact H1.
    - pose proof (get_posts_deep_events env (fun _ => False) (fun _ => False)
                    domain None None None (Some New) (Some Local) st1) as H2.
      rewrite Hfeed in H2. exact H2. }
  destruct (no_post_events _ Hev) as (Hf & Hl & Hr).
  split; [exact Hf|]. split; [exact Hl|]. split; [exact Hr|].
  destruct (appends_safe_api_call (log_in_op env domain username password)
              (mkSt (world st) (mkFiles (Some (log_text (files st))) (Some bl)))) as [Ha _].
  destruct (appends_get_posts_deep env domain None None None (Some New) (Some Local) st1)
    as [Hb _].
  rewrite Hlogin in Ha. rewrite Hfeed in Hb. cbn [state_of trace_of fst snd] in Ha, Hb.
  rewrite logged_ids_app in Hl. apply app_eq_nil in Hl. destruct Hl as [Hl1 Hl2].
  rewrite Hb, Ha, Hl1, Hl2. cbn [lines_text log_text posts_log files].
  rewrite !append_empty_r. reflexivity.
Qed.

Lemma run_bot_feed_fatal_witness :
  exists (st1 st2 : St nat) (t1 t2 : list Event),
    blocklist_file (files Demo.st1) = Some ("imgur.com" ++ PyStr.NL ++ "giphy.com" ++ PyStr.NL)
    /\ safe_api_call (log_in_op Scenario.env_short_feed "lemmy.test" "bot" "secret")
                     (mkSt (world Demo.st1)
                           (mkFiles (Some (log_text (files Demo.st1)))
                                    (Some ("imgur.com" ++ PyStr.NL ++ "giphy.com"
                                           ++ PyStr.NL))))
       = (Ok true, st1, t1)
    /\ get_posts_deep Scenario.env_short_feed "lemmy.test" None None None
                      (Some New) (Some Local) st1
       = (Raise (RuntimeError "Failed to invoke Lemmy API"), st2, t2)
    /\ run_bot Scenario.env_short_feed "lemmy.test" "bot" "secret" Demo.st1
       = (Raise (RuntimeError "Failed to invoke Lemmy API"), st2, (t1 ++ t2)%list)
    /\ fetched_urls (t1 ++ t2) = [] /\ logged_ids (t1 ++ t2) = []
    /\ pages_called (t1 ++ t2) = [1; 2; 3; 3; 3; 3; 3; 3; 3; 3; 3; 3].
Proof.
  eexists. eexists. eexists. eexists.
  assert (Hlogin : safe_api_call (log_in_op Scenario.env_short_feed "lemmy.test" "bot" "secret")
                     (mkSt (world Demo.st1)
                           (mkFiles (Some (log_text (files Demo.st1)))
                                    (Some ("imgur.com" ++ PyStr.NL ++ "giphy.com"
                                           ++ PyStr.NL))))
                   = (Ok true, mkSt 1%nat Demo.files1, [EvCall (CallLogIn "bot" "secret")])).
  { vm_compute. reflexivity. }
  assert (Hfeed : get_posts_deep Scenario.env_short_feed "lemmy.test" None None None
                    (Some New) (Some Local) (mkSt 1%nat Demo.files1)
                  = (Raise (RuntimeError "Failed to invoke Lemmy API"),
                     mkSt 13%nat Demo.files1,
                     ([EvCall (CallPostList None None (Some New) (Some Local) 1);
                       EvCall (CallPostList None None (Some New) (Some Local) 2)]
                      ++ failed_attempts (CallPostList None None (Some New) (Some Local) 3) 1 10
                      ++ [EvCall (CallPostList None None (Some New) (Some Local) 3)])%list)).
  { vm_compute. reflexivity. }
  destruct (run_bot_feed_fatal Scenario.env_short_feed "lemmy.test" "bot" "secret"
              Demo.st1 _ _ _ true _ _ _ eq_refl Hlogin Hfeed) as (Hrun & Hf & Hl & _).
  split; [reflexivity|]. split; [exact Hlogin|]. split; [exact Hfeed|].
  split; [exact Hrun|]. split; [exact Hf|]. split; [exact Hl|].
  vm_compute. reflexivity.
Defined.

(** ** A cycle whose set-up succeeds *)

Section WholeLoop.

Context {W : Type}.
Variable env : Env W.

(** The loop over a feed, under a template whose fields are among the five
    arguments: it returns; the posts it fetches are the eligible ones, once
    each and in feed order, and the ids it writes are theirs. *)
Lemma for_each_process_post (processed blocklist : list string) (posts : list Post) :
  template_ok (TEMPLATE env) = true ->
  forall st : St W,
    exists (st' : St W) (t : list Event),
      for_each posts (process_post env processed blocklist) st = (Ok tt, st', t)
      /\ fetched_urls t
         = flat_map cleaned_url (filter (eligible env processed blocklist) posts)
      /\ logged_ids t
         = map (fun p => py_str (id p)) (filter (eligible env processed blocklist) posts)
      /\ calls t = [] /\ sleeps t = []
      /\ (length (rendered t)
          <= length (filter (eligible env processed blocklist) posts))%nat.
Proof.
  intros Hok. induction posts as [| p posts IH]; intros st.
  - exists st, []. repeat split. cbn. lia.
  - destruct (eligible env processed blocklist p) eqn:He.
    + pose proof He as Hel. unfold eligible in He.
      destruct (url p) as [u|] eqn:Hu; [|discriminate].
      apply andb_true_iff in He. destruct He as [Hm Hb].
      apply negb_true_iff in Hm, Hb.
      destruct (process_post_attempt env processed blocklist p u st Hu Hm Hb)
        as (w' & t1 & [(Hrun & Hl & Hr) | (e & Hrun & _)] & Hf & Hc & Hs).
      * destruct (IH (mkSt w' (append_line (py_str (id p)) (files st))))
          as (st' & t2 & Hrest & Hf2 & Hl2 & Hc2 & Hs2 & Hr2).
        exists st', (t1 ++ t2)%list.
        rewrite (for_each_continues p posts _ st _ t1 Hrun), Hrest.
        split; [reflexivity|].
        cbn [filter]. rewrite Hel. cbn [flat_map map length]. unfold cleaned_url at 1. rewrite Hu.
        rewrite logged_ids_app, calls_app, sleeps_app, rendered_app, length_app.
        unfold fetched_urls in *. rewrite flat_map_app, Hf, Hf2, Hl, Hl2, Hc, Hc2, Hs, Hs2.
        repeat split. lia.
      * pose proof (process_post_returns env processed blocklist p st Hok) as Hret.
        rewrite Hrun in Hret. discriminate Hret.
    + assert (Hskip : url p = None \/ mem (py_str (id p)) processed = true
                      \/ blocked env blocklist p = true).
      { unfold eligible, blocked in *. destruct (url p) as [u|]; [|left; reflexivity].
        right. destruct (mem (py_str (id p)) processed); [left; reflexivity|].
        right. cbn [negb andb] in He. apply negb_false_iff in He. exact He. }
      destruct (process_post_passed_over env processed blocklist p st Hskip)
        as (t1 & Hrun & Hf & Hl & Hr & Hc & Hs).
      destruct (IH st) as (st' & t2 & Hrest & Hf2 & Hl2 & Hc2 & Hs2 & Hr2).
      exists st', (t1 ++ t2)%list.
      rewrite (for_each_continues p posts _ st _ t1 Hrun), Hrest.
      split; [reflexivity|].
      cbn [filter]. rewrite He.
      rewrite logged_ids_app, calls_app, sleeps_app, rendered_app, length_app.
      unfold fetched_urls in *. rewrite flat_map_app, Hf, Hf2, Hl, Hl2, Hc, Hc2, Hs, Hs2, Hr.
      repeat split. cbn. lia.
Qed.

End WholeLoop.

(** X17: in a cycle whose blocklist is read, whose log-in succeeds and whose
    feed is listed, under a template whose fields are among the five
    arguments, [run_bot] returns; the links it fetches are those of the posts
    of the feed that have a link, whose id was not in the store when the
    cycle began and whose domain is not blocklisted, once each and in feed
    order; the ids it writes are the ids of those posts, in that order; and
    it renders at most one comment for each of them. *)
Theorem run_bot_processes_eligible_posts {W : Type} (env : Env W)
    (domain username password : string) (st st1 st2 : St W) (bl : string)
    (logged_in : bool) (posts : list Post) (t1 t2 : list Event) :
  blocklist_file (files st) = Some bl ->
  safe_api_call (log_in_op env domain username password)
                (mkSt (world st) (mkFiles (Some (log_text (files st))) (Some bl)))
    = (Ok logged_in, st1, t1) ->
  get_posts_deep env domain None None None (Some New) (Some Local) st1 = (Ok posts, st2, t2) ->
  template_ok (TEMPLATE env) = true ->
  exists (st' : St W) (t : list Event),
    run_bot env domain username password st = (Ok tt, st', t)
    /\ fetched_urls t
       = flat_map cleaned_url
           (filter (eligible env (stored_ids (files st)) (PyStr.splitlines bl)) posts)
    /\ logged_ids t
       = map (fun p => py_str (id p))
             (filter (eligible env (stored_ids (files st)) (PyStr.splitlines bl)) posts)
    /\ (length (rendered t)
        <= length (filter (eligible env (stored_ids (files st)) (PyStr.splitlines bl))
                          posts))%nat.
Proof.
  intros Hbl Hlogin Hfeed Hok.
  rewrite (run_bot_unfold env domain username password st bl Hbl).
  rewrite (bind_ok _ _ _ _ _ _ Hlogin), (bind_ok _ _ _ _ _ _ Hfeed).
  unfold bind at 1. unfold log at 1, emit at 1.
  destruct (for_each_process_post env (stored_ids (files st)) (PyStr.splitlines bl) posts
              Hok st2) as (st' & t & Hloop & Hf & Hl & _ & _ & Hr).
  rewrite Hloop. eexists. eexists. split; [reflexivity|].
  assert (H1 : Forall (event_about (fun _ => False) (fun _ => False)) t1).
  { pose proof (safe_api_call_events (fun _ => False) (fun _ => False)
                  (log_in_op env domain username password)
                  (mkSt (world st) (mkFiles (Some (log_text (files st))) (Some bl)))) as Hev.
    rewrite Hlogin in Hev. exact Hev. }
  assert (H2 : Forall (event_about (fun _ => False) (fun _ => False)) t2).
  { pose proof (get_posts_deep_events env (fun _ => False) (fun _ => False)
                  domain None None None (Some New) (Some Local) st1) as Hev.
    rewrite Hfeed in Hev. exact Hev. }
  destruct (no_post_events t1 H1) as (Hf1 & Hl1 & Hr1).
  destruct (no_post_events t2 H2) as (Hf2 & Hl2 & Hr2).
  rewrite !logged_ids_app, !rendered_app, Hl1, Hl2, Hr1, Hr2, Hl.
  unfold fetched_urls in *. rewrite !flat_map_app, Hf1, Hf2, Hf.
  cbn [flat_map app]. repeat split. exact Hr.
Qed.

Lemma run_bot_processes_eligible_posts_witness :
  exists (st1 st2 : St nat) (posts : list Post) (t1 t2 : list Event),
    blocklist_file (files Demo.st1) = Some ("imgur.com" ++ PyStr.NL ++ "giphy.com" ++ PyStr.NL)
    /\ safe_api_call (log_in_op Demo.env75 "lemmy.test" "bot" "secret")
                     (mkSt (world Demo.st1)
                           (mkFiles (Some (log_text (files Demo.st1)))
                                    (Some ("imgur.com" ++ PyStr.NL ++ "giphy.com"
                                           ++ PyStr.NL))))
       = (Ok true, st1, t1)
    /\ get_posts_deep Demo.env75 "lemmy.test" None None None (Some New) (Some Local) st1
       = (Ok posts, st2, t2)
    /\ template_ok (TEMPLATE Demo.env75) = true
    /\ exists (st' : St nat) (t : list Event),
         run_bot Demo.env75 "lemmy.test" "bot" "secret" Demo.st1 = (Ok tt, st', t)
         /\ fetched_urls t
            = ["http://example.com/a"; "http://example.com/gone";
               "http://example.com/logo.png"]
         /\ logged_ids t = ["p1"; "3"; "4"].
Proof.
  eexists. eexists. eexists. eexists. eexists.
  assert (Hlogin : safe_api_call (log_in_op Demo.env75 "lemmy.test" "bot" "secret")
                     (mkSt (world Demo.st1)
                           (mkFiles (Some (log_text (files Demo.st1)))
                                    (Some ("imgur.com" ++ PyStr.NL ++ "giphy.com"
                                           ++ PyStr.NL))))
                   = (Ok true, mkSt 1%nat Demo.files1, [EvCall (CallLogIn "bot" "secret")])).
  { vm_compute. reflexivity. }
  assert (Hfeed : get_posts_deep Demo.env75 "lemmy.test" None None None (Some New) (Some Local)
                    (mkSt 1%nat Demo.files1)
                  = (Ok [Demo.p1; Demo.p2; Demo.p3; Demo.p4; Demo.p5;
                         Demo.text_post 102; Demo.text_post 103; Demo.text_post 104;
                         Demo.text_post 105],
                     mkSt 6%nat Demo.files1,
                     map (fun i => EvCall (CallPostList None None (Some New) (Some Local) i))
                         [1; 2; 3; 4; 5])).
  { vm_compute. reflexivity. }
  split; [reflexivity|]. split; [exact Hlogin|]. split; [exact Hfeed|].
  split; [reflexivity|].
  destruct (run_bot_processes_eligible_posts Demo.env75 "lemmy.test" "bot" "secret"
              Demo.st1 _ _ _ true _ _ _ eq_refl Hlogin Hfeed eq_refl)
    as (st' & t & Hrun & Hf & Hl & _).
  exists st', t. split; [exact Hrun|]. split; [exact Hf | exact Hl].
Defined.
